(** * COT_Tool: the formula pipeline, the chart composer and the price cache

    A shallow embedding of the parts of [app.py], [column_mapping.py] and
    [fetch_prices.py] that turn a free-text formula into a chart series,
    compose the dual-axis chart, window the price series and read and
    write the price cache.

    Conventions.
    - Python [str] values are [string]s; the text handled here is ASCII
      (code points below 128), which is all the character whitelist of
      [evaluate_formula] lets through.
    - A [pd.Timestamp] is an [option Z]: [Some t] is an instant, [None] is
      [NaT].  Comparisons with [NaT] are false, as in pandas.
    - Library calls whose result depends on data that is not modelled
      ([DataFrame.eval], the Yahoo Finance client) are section variables
      returning either a value or the text of the exception raised.
    - Where the arithmetic of [DataFrame.eval] matters, the call is the
      model of module [PandasEval]: float64 columns, IEEE 754 binary64
      arithmetic as [spec_float] gives it. *)

From Stdlib Require Import List String Ascii Bool Arith ZArith Lia.
From Stdlib Require Import Sorting.Sorted Sorting.Permutation.
From Stdlib Require Import SpecFloat.
Import ListNotations.
Open Scope string_scope.

(** ** Characters and Python string helpers *)

Module PyStr.

Definition code (c : ascii) : nat := nat_of_ascii c.

Definition between (lo hi : nat) (c : ascii) : bool :=
  (lo <=? code c)%nat && (code c <=? hi)%nat.

Definition is_upper (c : ascii) : bool := between 65 90 c.
Definition is_lower (c : ascii) : bool := between 97 122 c.
Definition is_digit (c : ascii) : bool := between 48 57 c.
Definition is_alpha (c : ascii) : bool := is_upper c || is_lower c.

(** [str.isspace] on ASCII: TAB, LF, VT, FF, CR, FS, GS, RS, US, space. *)
Definition is_space (c : ascii) : bool :=
  between 9 13 c || between 28 31 c || (code c =? 32)%nat.

(** ASCII case folding, as [re.IGNORECASE] compares characters. *)
Definition lower (c : ascii) : ascii :=
  if is_upper c then ascii_of_nat (code c + 32) else c.

Definition ci_eqb (a b : ascii) : bool := Ascii.eqb (lower a) (lower b).

(** [c in chars] for a string used as a set of characters. *)
Fixpoint mem_char (c : ascii) (chars : string) : bool :=
  match chars with
  | EmptyString => false
  | String d rest => Ascii.eqb c d || mem_char c rest
  end.

Fixpoint all_chars (p : ascii -> bool) (s : string) : bool :=
  match s with
  | EmptyString => true
  | String c rest => p c && all_chars p rest
  end.

(** [x in xs] for a list of strings. *)
Fixpoint mem_str (x : string) (xs : list string) : bool :=
  match xs with
  | [] => false
  | y :: ys => String.eqb x y || mem_str x ys
  end.

Fixpoint lstrip (s : string) : string :=
  match s with
  | EmptyString => EmptyString
  | String c rest => if is_space c then lstrip rest else s
  end.

(** Drops the trailing whitespace: a character is kept when something
    that is kept follows it or when it is not whitespace. *)
Fixpoint rstrip (s : string) : string :=
  match s with
  | EmptyString => EmptyString
  | String c rest =>
      match rstrip rest with
      | EmptyString => if is_space c then EmptyString else String c EmptyString
      | kept => String c kept
      end
  end.

(** [s.strip()] *)
Definition strip (s : string) : string := rstrip (lstrip s).

(** [sep.join(xs)] *)
Fixpoint join (sep : string) (xs : list string) : string :=
  match xs with
  | [] => EmptyString
  | [x] => x
  | x :: rest => x ++ sep ++ join sep rest
  end.

(** Python truthiness of a string. *)
Definition truthy (s : string) : bool :=
  match s with EmptyString => false | _ => true end.

End PyStr.

(** ** The three regular expressions of [app.py]

    Each pattern is modelled by the search loop [re.sub] / [re.findall]
    runs for it: try the pattern at the current position, and on failure
    move one character on.  [prev] is the character before the current
    position ([None] at the start of the text), which is what [\b] looks
    at.  The loops restart at the end of a match, so they recurse on fuel;
    the text's length plus one is always enough. *)

Module Re.
Import PyStr.

(** [\w] *)
Definition is_word (c : ascii) : bool :=
  is_alpha c || is_digit c || Ascii.eqb c "_".

Definition word_opt (c : option ascii) : bool :=
  match c with Some a => is_word a | None => false end.

(** [\b] between [prev] and [next]: exactly one side is a word character. *)
Definition boundary (prev next : option ascii) : bool :=
  xorb (word_opt prev) (word_opt next).

Definition head (s : string) : option ascii :=
  match s with EmptyString => None | String c _ => Some c end.

(** The escaped label, matched case-insensitively at the start of [s]:
    the last character consumed and the text that remains. *)
Fixpoint match_literal (label s : string) (prev : option ascii)
  : option (option ascii * string) :=
  match label with
  | EmptyString => Some (prev, s)
  | String a label' =>
      match s with
      | EmptyString => None
      | String c s' =>
          if ci_eqb a c then match_literal label' s' (Some c) else None
      end
  end.

(** [r'\b' + re.escape(label) + r'\b'] tried at the current position. *)
Definition match_word (label : string) (prev : option ascii) (s : string)
  : option (option ascii * string) :=
  if boundary prev (head s) then
    match match_literal label s prev with
    | Some (last, rest) =>
        if boundary last (head rest) then Some (last, rest) else None
    | None => None
    end
  else None.

(** [re.sub(r'\b' + re.escape(label) + r'\b', repl, s, flags=re.IGNORECASE)]
    for a replacement without backslashes.  An empty label matches the
    empty string at every word boundary. *)
Fixpoint sub_word_from (fuel : nat) (label repl : string)
    (prev : option ascii) (s : string) : string :=
  match fuel with
  | O => s
  | S fuel' =>
      let step :=
        match s with
        | EmptyString => EmptyString
        | String c s' => String c (sub_word_from fuel' label repl (Some c) s')
        end in
      match match_word label prev s with
      | Some (last, rest) =>
          match label with
          | EmptyString => repl ++ step
          | String _ _ => repl ++ sub_word_from fuel' label repl last rest
          end
      | None => step
      end
  end.

Definition sub_word (label repl s : string) : string :=
  sub_word_from (S (String.length s)) label repl None s.

(** [[A-Za-z_]] and [[A-Za-z0-9_]] *)
Definition is_ident_start (c : ascii) : bool := is_alpha c || Ascii.eqb c "_".
Definition is_ident_char (c : ascii) : bool :=
  is_alpha c || is_digit c || Ascii.eqb c "_".

(** The longest prefix of [s] made of characters satisfying [p], the last
    character consumed and the rest. *)
Fixpoint span (p : ascii -> bool) (prev : option ascii) (s : string)
  : string * option ascii * string :=
  match s with
  | EmptyString => (EmptyString, prev, EmptyString)
  | String c s' =>
      if p c then
        let '(run, last, rest) := span p (Some c) s' in
        (String c run, last, rest)
      else (EmptyString, prev, s)
  end.

(** [re.findall(r'\b[A-Za-z_][A-Za-z0-9_]*\b', s)].  The star is greedy;
    giving characters back could only end the match between two word
    characters, where [\b] fails, so the longest run is the only
    candidate. *)
Fixpoint findall_ident_from (fuel : nat) (prev : option ascii) (s : string)
  : list string :=
  match fuel with
  | O => []
  | S fuel' =>
      match s with
      | EmptyString => []
      | String c s' =>
          if boundary prev (Some c) && is_ident_start c then
            let '(run, last, rest) := span is_ident_char (Some c) s' in
            if boundary last (head rest)
            then String c run :: findall_ident_from fuel' last rest
            else findall_ident_from fuel' (Some c) s'
          else findall_ident_from fuel' (Some c) s'
      end
  end.

Definition findall_ident (s : string) : list string :=
  findall_ident_from (S (String.length s)) None s.

Definition is_operator (c : ascii) : bool := mem_char c "+-*/".

(** [re.sub(r'\s*([+\-*/])\s*', r'\1', s)]: at each position skip the
    whitespace, and if an operator follows keep only the operator and
    skip the whitespace after it. *)
Fixpoint sub_operator_spaces_from (fuel : nat) (s : string) : string :=
  match fuel with
  | O => s
  | S fuel' =>
      match s with
      | EmptyString => EmptyString
      | String c s' =>
          match lstrip s with
          | String o after =>
              if is_operator o
              then String o (sub_operator_spaces_from fuel' (lstrip after))
              else String c (sub_operator_spaces_from fuel' s')
          | EmptyString => String c (sub_operator_spaces_from fuel' s')
          end
      end
  end.

Definition sub_operator_spaces (s : string) : string :=
  sub_operator_spaces_from (S (String.length s)) s.

End Re.

(** ** [column_mapping.py] *)

Module ColumnMapping.

(** [COLUMN_MAPPING]: technical name, short name.  (Descriptions are not
    used by the formula pipeline.) *)
Definition COLUMN_MAPPING : list (string * string) :=
  [ ("As_of_Date_In_Form_YYMMDD", "Date");
    ("Report_Date_as_MM_DD_YYYY", "Report Date");
    ("CFTC_Contract_Market_Code", "Market Code");
    ("CFTC_Commodity_Code", "Commodity Code");
    ("Contract_Units", "Contract Units");
    ("Open_Interest_All", "Open Interest");
    ("Prod_Merc_Positions_Long_ALL", "Prod/Merc Long");
    ("Prod_Merc_Positions_Short_ALL", "Prod/Merc Short");
    ("Swap_Positions_Long_All", "Swap Long");
    ("Swap__Positions_Short_All", "Swap Short");
    ("Swap__Positions_Spread_All", "Swap Spread");
    ("M_Money_Positions_Long_ALL", "MM Long");
    ("M_Money_Positions_Short_ALL", "MM Short");
    ("M_Money_Positions_Spread_ALL", "MM Spread");
    ("Other_Rept_Positions_Long_ALL", "Other Rept Long");
    ("Other_Rept_Positions_Short_ALL", "Other Rept Short");
    ("Other_Rept_Positions_Spread_ALL", "Other Rept Spread");
    ("Tot_Rept_Positions_Long_All", "Total Rept Long");
    ("Tot_Rept_Positions_Short_All", "Total Rept Short");
    ("NonRept_Positions_Long_All", "Non-Rept Long");
    ("NonRept_Positions_Short_All", "Non-Rept Short");
    ("Pct_of_OI_Prod_Merc_Long_All", "% OI Prod/Merc Long");
    ("Pct_of_OI_Prod_Merc_Short_All", "% OI Prod/Merc Short");
    ("Pct_of_OI_Swap_Long_All", "% OI Swap Long");
    ("Pct_of_OI_Swap_Short_All", "% OI Swap Short");
    ("Pct_of_OI_M_Money_Long_All", "% OI MM Long");
    ("Pct_of_OI_M_Money_Short_All", "% OI MM Short");
    ("Pct_of_OI_Tot_Rept_Long_All", "% OI Total Rept Long");
    ("Pct_of_OI_Tot_Rept_Short_All", "% OI Total Rept Short") ].

Fixpoint lookup (k : string) (m : list (string * string)) : option string :=
  match m with
  | [] => None
  | (k', v) :: rest => if String.eqb k k' then Some v else lookup k rest
  end.

Definition get_short_name (column_name : string) : string :=
  match lookup column_name COLUMN_MAPPING with
  | Some short => short
  | None => column_name
  end.

End ColumnMapping.

(** ** The formula translator ([app.py], [convert_short_names_to_technical]) *)

(** A Python [dict] from short names to technical names, in insertion
    order. *)
Definition AliasMap := list (string * string).

Module Translator.
Import PyStr.

(** [d[k] = v]: an existing key keeps its place and takes the new value. *)
Fixpoint dict_set (k v : string) (d : AliasMap) : AliasMap :=
  match d with
  | [] => [(k, v)]
  | (k', v') :: rest =>
      if String.eqb k k' then (k, v) :: rest else (k', v') :: dict_set k v rest
  end.

(** The loop that fills [short_to_technical] from the numeric columns. *)
Definition build_short_to_technical (numeric_columns : list string) : AliasMap :=
  fold_left
    (fun d col => dict_set (ColumnMapping.get_short_name col) col d)
    numeric_columns [].

(** One step of the stable sort: [p] goes before the first entry whose
    short name is not longer than its own. *)
Fixpoint insert_longest_first (p : string * string) (l : AliasMap) : AliasMap :=
  match l with
  | [] => [p]
  | q :: rest =>
      if (String.length (fst q) <=? String.length (fst p))%nat
      then p :: q :: rest
      else q :: insert_longest_first p rest
  end.

(** [sorted(m.items(), key=lambda x: len(x[0]), reverse=True)]: by
    decreasing length of the short name, entries of equal length in
    their order in [m]. *)
Definition sorted_short_names (m : AliasMap) : AliasMap :=
  fold_right insert_longest_first [] m.

Definition convert_short_names_to_technical
    (formula : string) (short_to_technical_map : AliasMap) : string :=
  fold_left
    (fun converted_formula p => Re.sub_word (fst p) (snd p) converted_formula)
    (sorted_short_names short_to_technical_map)
    formula.

End Translator.

(** ** Data frames and timestamps *)

Definition Timestamp := option Z.

Module Frame.

(** [t >= d] and [t <= d] for a cell [t] and a date [d]; false on [NaT]. *)
Definition ge_date (t : Timestamp) (d : Z) : bool :=
  match t with Some x => (d <=? x)%Z | None => false end.
Definition le_date (t : Timestamp) (d : Z) : bool :=
  match t with Some x => (x <=? d)%Z | None => false end.

(** [Series.min()] and [Series.max()] of a datetime column: [NaT] cells are
    skipped, and the result is [NaT] when nothing is left. *)
Fixpoint series_min (ts : list Timestamp) : Timestamp :=
  match ts with
  | [] => None
  | None :: rest => series_min rest
  | Some x :: rest =>
      match series_min rest with
      | Some m => Some (Z.min x m)
      | None => Some x
      end
  end.

Fixpoint series_max (ts : list Timestamp) : Timestamp :=
  match ts with
  | [] => None
  | None :: rest => series_max rest
  | Some x :: rest =>
      match series_max rest with
      | Some m => Some (Z.max x m)
      | None => Some x
      end
  end.

(** The value of [st.sidebar.date_input] given a pair as default: a tuple
    of the dates picked so far.  The app filters only on a complete
    pair. *)
Definition DateInput := list Z.

Definition in_range {A : Type} (date : A -> Timestamp)
    (date_range : DateInput) (r : A) : bool :=
  match date_range with
  | [d0; d1] => ge_date (date r) d0 && le_date (date r) d1
  | _ => true
  end.

End Frame.

(** ** [fetch_prices.py]: the price cache *)

Module FetchPrices.
Import PyStr.

Section Cache.
(** The cells of a price row other than its date and commodity name
    (open, high, low, close, volume). *)
Variable Cells : Type.

Record PriceRow := {
  DATE : Timestamp;
  Commodity_Name : option string;
  cells : Cells
}.

(** A price [DataFrame]: its column labels and its rows.  The label of
    the date column is whatever the list says ("DATE" after
    normalisation); [DATE] is that column's cell. *)
Record PriceFrame := {
  pcolumns : list string;
  prows : list PriceRow
}.

(** [pd.DataFrame()] *)
Definition empty_frame : PriceFrame := {| pcolumns := []; prows := [] |}.

(** [df.empty]: some axis has length zero. *)
Definition is_empty (df : PriceFrame) : bool :=
  match pcolumns df, prows df with
  | [], _ => true
  | _, [] => true
  | _, _ => false
  end.

(** [df.rename(columns={old: new}, inplace=True)] *)
Definition rename_column (old new : string) (df : PriceFrame) : PriceFrame :=
  {| pcolumns := map (fun c => if String.eqb c old then new else c) (pcolumns df);
     prows := prows df |}.

(** [df['Commodity_Name'] = commodity_name] *)
Definition set_commodity_name (commodity_name : string) (df : PriceFrame)
  : PriceFrame :=
  {| pcolumns :=
       if mem_str "Commodity_Name" (pcolumns df) then pcolumns df
       else pcolumns df ++ ["Commodity_Name"];
     prows :=
       map (fun r => {| DATE := DATE r;
                        Commodity_Name := Some commodity_name;
                        cells := cells r |}) (prows df) |}.

(** The SQLite file, as far as prices go: the [commodity_prices] table
    when it exists. *)
Record Database := {
  commodity_prices : option PriceFrame
}.

(** What [save_prices_to_database] does to a frame, in place, before it
    writes it. *)
Definition prepare (commodity_name : string) (df : PriceFrame) : PriceFrame :=
  let df := set_commodity_name commodity_name df in
  if negb (mem_str "DATE" (pcolumns df)) && mem_str "Date" (pcolumns df)
  then rename_column "Date" "DATE" df
  else df.

(** [df.to_sql('commodity_prices', conn, if_exists='append', index=False)]:
    the table is created from the frame when missing; otherwise the rows
    are inserted after the stored ones, and SQLite refuses a column the
    table does not have. *)
Definition to_sql_append (df : PriceFrame) (db : Database)
  : Database + string :=
  match commodity_prices db with
  | None => inl {| commodity_prices := Some df |}
  | Some table =>
      if forallb (fun c => mem_str c (pcolumns table)) (pcolumns df)
      then inl {| commodity_prices :=
                    Some {| pcolumns := pcolumns table;
                            prows := prows table ++ prows df |} |}
      else inr "table commodity_prices has no column named"
  end.

(** [CREATE INDEX IF NOT EXISTS ... ON commodity_prices(Commodity_Name, DATE)]
    changes no row; SQLite refuses it without the table or its columns. *)
Definition create_index (db : Database) : option string :=
  match commodity_prices db with
  | None => Some "no such table: main.commodity_prices"
  | Some table =>
      if mem_str "Commodity_Name" (pcolumns table) && mem_str "DATE" (pcolumns table)
      then None
      else Some "no such column"
  end.

(** The loop of [save_prices_to_database] over [prices_dict.items()]:
    the database reached, and the exception if one was raised. *)
Fixpoint save_loop (items : list (string * PriceFrame)) (db : Database)
  : Database * option string :=
  match items with
  | [] => (db, None)
  | (commodity_name, df) :: rest =>
      if is_empty df then save_loop rest db
      else
        match to_sql_append (prepare commodity_name df) db with
        | inl db' => save_loop rest db'
        | inr e => (db, Some e)
        end
  end.

Definition save_prices_to_database
    (prices_dict : list (string * PriceFrame)) (db : Database)
  : Database * option string :=
  match save_loop prices_dict db with
  | (db', None) => (db', create_index db')
  | (db', Some e) => (db', Some e)
  end.

(** [ORDER BY DATE]: ascending, NULL first, rows with equal dates in
    the order they were stored. *)
Definition date_leb (a b : Timestamp) : bool :=
  match a, b with
  | None, _ => true
  | Some _, None => false
  | Some x, Some y => (x <=? y)%Z
  end.

Fixpoint insert_by_date (r : PriceRow) (l : list PriceRow) : list PriceRow :=
  match l with
  | [] => [r]
  | q :: rest =>
      if date_leb (DATE r) (DATE q) then r :: q :: rest
      else q :: insert_by_date r rest
  end.

Definition order_by_date (l : list PriceRow) : list PriceRow :=
  fold_right insert_by_date [] l.

Definition name_is (commodity_name : string) (r : PriceRow) : bool :=
  match Commodity_Name r with
  | Some n => String.eqb n commodity_name
  | None => false
  end.

(** [ORDER BY Commodity_Name, DATE]: names compared as text, NULL
    first. *)
Definition name_date_leb (a b : PriceRow) : bool :=
  match Commodity_Name a, Commodity_Name b with
  | None, None => date_leb (DATE a) (DATE b)
  | None, Some _ => true
  | Some _, None => false
  | Some x, Some y =>
      if String.eqb x y then date_leb (DATE a) (DATE b) else String.leb x y
  end.

Fixpoint insert_by_name_date (r : PriceRow) (l : list PriceRow)
  : list PriceRow :=
  match l with
  | [] => [r]
  | q :: rest =>
      if name_date_leb r q then r :: q :: rest
      else q :: insert_by_name_date r rest
  end.

(** [pd.read_sql_query] with the two queries of
    [get_commodity_prices_from_db]: SQLite raises when the table or a
    column the query names is missing. *)
Definition read_sql_query (commodity_name : option string) (db : Database)
  : PriceFrame + string :=
  match commodity_prices db with
  | None => inr "no such table: commodity_prices"
  | Some table =>
      if mem_str "Commodity_Name" (pcolumns table) && mem_str "DATE" (pcolumns table)
      then
        inl {| pcolumns := pcolumns table;
               prows :=
                 match commodity_name with
                 | Some n => order_by_date (filter (name_is n) (prows table))
                 | None => fold_right insert_by_name_date [] (prows table)
                 end |}
      else inr "no such column"
  end.

(** [get_commodity_prices_from_db(commodity_name, db_path)]: the frame
    returned, or the exception raised.  [if commodity_name:] takes
    [None] and the empty string alike.  The stored dates are read back
    by [pd.to_datetime] as the instants that were written. *)
Definition get_commodity_prices_from_db
    (commodity_name : option string) (db : Database)
  : PriceFrame + string :=
  let table_exists :=
    match commodity_prices db with Some _ => true | None => false end in
  if negb table_exists then inl empty_frame
  else
    match commodity_name with
    | Some n => if truthy n then read_sql_query (Some n) db
                else read_sql_query None db
    | None => read_sql_query None db
    end.

End Cache.

Arguments DATE {Cells} _.
Arguments Commodity_Name {Cells} _.
Arguments cells {Cells} _.
Arguments pcolumns {Cells} _.
Arguments prows {Cells} _.
Arguments commodity_prices {Cells} _.
Arguments empty_frame {Cells}.
Arguments is_empty {Cells} _.
Arguments rename_column {Cells} _ _ _.
Arguments set_commodity_name {Cells} _ _.
Arguments prepare {Cells} _ _.
Arguments to_sql_append {Cells} _ _.
Arguments create_index {Cells} _.
Arguments save_loop {Cells} _ _.
Arguments save_prices_to_database {Cells} _ _.
Arguments order_by_date {Cells} _.
Arguments insert_by_date {Cells} _ _.
Arguments name_is {Cells} _ _.
Arguments name_date_leb {Cells} _ _.
Arguments insert_by_name_date {Cells} _ _.
Arguments read_sql_query {Cells} _ _.
Arguments get_commodity_prices_from_db {Cells} _ _.

End FetchPrices.

(** ** [app.py]: formula evaluation, the dual-axis chart, the price panel *)

Module App.
Import PyStr Frame FetchPrices.

Section Page.
(** A row of the positioning table and its report date
    ([As_of_Date_In_Form_YYMMDD]). *)
Variable Row : Type.
Variable row_date : Row -> Timestamp.

Record DataFrame := {
  columns : list string;
  rows : list Row
}.

(** What [DataFrame.eval] returns, and [data.eval(formula)] itself: the
    value, or the text of the exception. *)
Variable Value : Type.
Variable df_eval : DataFrame -> string -> Value + string.

Definition allowed_chars : string :=
  "+-*/()[].,0123456789_abcdefghijklmnopqrstuvwxyzABCDEFGHIJKLMNOPQRSTUVWXYZ ".

Definition keywords : list string := ["min"; "max"; "sum"; "abs"; "round"].

(** The [try] block of [evaluate_formula]: spaces around the operators
    are removed and the text is handed to [data.eval]; whatever it
    raises becomes the error of the whole formula. *)
Definition try_eval (data : DataFrame) (formula : string)
  : option Value * option string :=
  match df_eval data (Re.sub_operator_spaces formula) with
  | inl result => (Some result, None)
  | inr e =>
      (None,
       Some ("Formula error: " ++ e ++
             ". Make sure to use proper column names and operators (+, -, *, /)"))
  end.

Definition evaluate_formula
    (formula : string) (data : DataFrame) (short_to_technical_map : AliasMap)
  : option Value * option string :=
  if negb (truthy formula) || negb (truthy (strip formula)) then (None, None)
  else
    let original_formula := strip formula in
    let formula :=
      Translator.convert_short_names_to_technical
        original_formula short_to_technical_map in
    if negb (all_chars (fun c => mem_char c allowed_chars) formula)
    then (None, Some "Invalid characters in formula")
    else
      let potential_columns := Re.findall_ident formula in
      let missing_columns :=
        filter (fun col => negb (mem_str col (columns data))) potential_columns in
      let actual_missing :=
        filter (fun col => negb (mem_str col keywords)) missing_columns in
      match missing_columns, actual_missing with
      | _ :: _, _ :: _ =>
          (None, Some ("Columns not found: " ++ join ", " actual_missing))
      | _, _ => try_eval data formula
      end.

(** The block "Evaluate formulas if provided" for one axis: the formula
    result and the formula error kept for that axis. *)
Definition formula_stage
    (formula : string) (data : DataFrame) (short_to_technical : AliasMap)
  : option Value * option string :=
  if truthy formula then
    match evaluate_formula formula data short_to_technical with
    | (result, Some error) =>
        if truthy error then (None, Some error) else (result, None)
    | (result, None) => (result, None)
    end
  else (None, None).

(** *** The dual-axis chart *)

Inductive Axis := y | y2.

Inductive YData :=
| FormulaResult (v : Value)
| Column (col : string).

(** One [go.Scatter] trace. *)
Record Trace := {
  x : list Timestamp;
  ydata : YData;
  name : string;
  color : option string;
  yaxis : Axis
}.

(** What the chart block shows: the figure followed by the per-axis
    error boxes, or the prompt. *)
Inductive MainPanel :=
| plotly_chart (traces : list Trace) (errors : list string)
| info (message : string).

Definition formula_trace (date_values : list Timestamp)
    (result : option Value) (formula col : string) (axis : Axis) : list Trace :=
  match result with
  | Some v =>
      [ {| x := date_values; ydata := FormulaResult v;
           name := "Formula: " ++ formula; color := Some col; yaxis := axis |} ]
  | None => []
  end.

Definition column_traces (date_values : list Timestamp)
    (axis_columns : list string) (axis : Axis) : list Trace :=
  map (fun col =>
         {| x := date_values; ydata := Column col;
            name := ColumnMapping.get_short_name col; color := None;
            yaxis := axis |})
      axis_columns.

Definition error_box (label : string) (error : option string) : list string :=
  match error with
  | Some e => if truthy e then [label ++ e] else []
  | None => []
  end.

Definition is_some {A : Type} (o : option A) : bool :=
  match o with Some _ => true | None => false end.

Definition nonempty {A : Type} (l : list A) : bool :=
  match l with [] => false | _ => true end.

Definition main_chart
    (left_formula right_formula : string)
    (left_axis_columns right_axis_columns : list string)
    (filtered_data : DataFrame) (short_to_technical : AliasMap) : MainPanel :=
  let '(left_formula_result, left_formula_error) :=
    formula_stage left_formula filtered_data short_to_technical in
  let '(right_formula_result, right_formula_error) :=
    formula_stage right_formula filtered_data short_to_technical in
  let has_left_data :=
    nonempty left_axis_columns || is_some left_formula_result in
  let has_right_data :=
    nonempty right_axis_columns || is_some right_formula_result in
  if has_left_data || has_right_data then
    let date_values := map row_date (rows filtered_data) in
    plotly_chart
      (formula_trace date_values left_formula_result left_formula "#1f77b4" y
       ++ column_traces date_values left_axis_columns y
       ++ formula_trace date_values right_formula_result right_formula "#ff7f0e" y2
       ++ column_traces date_values right_axis_columns y2)
      (error_box "Left axis formula error: " left_formula_error
       ++ error_box "Right axis formula error: " right_formula_error)
  else info "Select columns or enter formulas in the sidebar to visualize".

(** *** The price panel *)

Variable Cells : Type.

(** [fetch_historical_prices(ticker, start_date, end_date)], the Yahoo
    Finance client.  It catches what the network raises and returns an
    empty frame instead.  The app passes the two dates as
    ['%Y-%m-%d'] text; here they are the instants themselves. *)
Variable fetch_historical_prices : string -> Z -> Z -> PriceFrame Cells.

(** A row of [commodity_price_mapping], as [get_price_mapping] returns
    it. *)
Record PriceMapping := {
  ticker_symbol : option string;
  ticker_type : option string;
  verified : bool
}.

Inductive PriceBody :=
| price_chart (px : list Timestamp) (close : list Cells)
              (xaxis_range : Timestamp * Timestamp)
| price_info (message : string)
| price_raise (exception : string).

Record PricePanel := {
  caption : option (bool * string * option string);
  st_error : option string;
  body : PriceBody
}.

(** The price frame the panel goes on with, the database it leaves, and
    the message of the [except] branch when it ran. *)
Record Loaded := {
  price_data : PriceFrame Cells;
  db_after : Database Cells;
  fetch_error : option string
}.

(** "Ensure DATE column exists": the first of [Date], [Datetime],
    [DATETIME] that is a column is renamed. *)
Definition ensure_date_column (df : PriceFrame Cells) : PriceFrame Cells :=
  if mem_str "DATE" (pcolumns df) then df
  else if mem_str "Date" (pcolumns df) then rename_column "Date" "DATE" df
  else if mem_str "Datetime" (pcolumns df) then rename_column "Datetime" "DATE" df
  else if mem_str "DATETIME" (pcolumns df) then rename_column "DATETIME" "DATE" df
  else df.

Definition could_not_fetch (ticker e : string) : string :=
  "Could not fetch price data for ticker " ++ ticker ++ ": " ++ e.

(** The branch taken when the cache has nothing: fetch over the span of
    the positioning rows, normalise, write back.  [strftime] raises on
    [NaT]; so may the write; both land in the [except]. *)
Definition fetch_branch (selected_commodity ticker : string)
    (filtered_data : DataFrame) (cached : PriceFrame Cells)
    (db : Database Cells) : Loaded :=
  let price_start := series_min (map row_date (rows filtered_data)) in
  let price_end := series_max (map row_date (rows filtered_data)) in
  match price_start, price_end with
  | Some s, Some e =>
      let fetched := fetch_historical_prices ticker s e in
      if negb (is_empty fetched) then
        let fetched := ensure_date_column fetched in
        let '(db', raised) :=
          save_prices_to_database [(selected_commodity, fetched)] db in
        {| price_data := prepare selected_commodity fetched;
           db_after := db';
           fetch_error := option_map (could_not_fetch ticker) raised |}
      else {| price_data := fetched; db_after := db; fetch_error := None |}
  | _, _ =>
      {| price_data := cached; db_after := db;
         fetch_error :=
           Some (could_not_fetch ticker "NaTType does not support strftime") |}
  end.

(** [price_data_filtered]: the rows whose [DATE] lies in the selected
    range, when a complete range is selected. *)
Definition price_data_filtered (date_range : DateInput)
    (price_data : PriceFrame Cells) : PriceFrame Cells :=
  {| pcolumns := pcolumns price_data;
     prows := filter (in_range (@DATE Cells) date_range) (prows price_data) |}.

(** The range the price figure's x axis is set to: the first and last
    report dates of the filtered positioning rows. *)
Definition xaxis_range_of (filtered_data : DataFrame) : Timestamp * Timestamp :=
  (series_min (map row_date (rows filtered_data)),
   series_max (map row_date (rows filtered_data))).

Definition needs_date_column (date_range : DateInput) : bool :=
  match date_range with [_; _] => true | _ => false end.

Definition price_body (date_range : DateInput) (filtered_data : DataFrame)
    (price_data : PriceFrame Cells) : PriceBody :=
  if negb (is_empty price_data) then
    if needs_date_column date_range && negb (mem_str "DATE" (pcolumns price_data))
    then price_raise "KeyError: 'DATE'"
    else
      let shown := price_data_filtered date_range price_data in
      if negb (is_empty shown) && mem_str "CLOSE" (pcolumns shown) then
        if mem_str "DATE" (pcolumns shown) then
          price_chart (map (@DATE Cells) (prows shown))
                      (map (@cells Cells) (prows shown))
                      (xaxis_range_of filtered_data)
        else price_raise "KeyError: 'DATE'"
      else price_info "Price data available but no data for selected date range"
  else
    price_info
      "No price data available. The ticker may not be valid or Yahoo Finance API may be unavailable.".

Definition no_mapping : PricePanel :=
  {| caption := None; st_error := None;
     body := price_info
       "No price mapping found for this commodity. Price mappings are managed in the backend." |}.

Definition with_ticker (selected_commodity ticker : string) (m : PriceMapping)
    (date_range : DateInput) (filtered_data : DataFrame)
    (db : Database Cells) : PricePanel * Database Cells :=
  let cap := Some (verified m, ticker, ticker_type m) in
  match get_commodity_prices_from_db (Some selected_commodity) db with
  | inr e => ({| caption := cap; st_error := None; body := price_raise e |}, db)
  | inl cached =>
      let loaded :=
        if is_empty cached
        then fetch_branch selected_commodity ticker filtered_data cached db
        else {| price_data := cached; db_after := db; fetch_error := None |} in
      ({| caption := cap;
          st_error := fetch_error loaded;
          body := price_body date_range filtered_data (price_data loaded) |},
       db_after loaded)
  end.

Definition price_section (selected_commodity : string)
    (price_mapping : option PriceMapping)
    (date_range : DateInput) (filtered_data : DataFrame)
    (db : Database Cells) : PricePanel * Database Cells :=
  match price_mapping with
  | Some m =>
      match ticker_symbol m with
      | Some ticker =>
          if truthy ticker
          then with_ticker selected_commodity ticker m date_range filtered_data db
          else (no_mapping, db)
      | None => (no_mapping, db)
      end
  | None => (no_mapping, db)
  end.

(** *** The page below the commodity header *)

(** The rows of the commodity kept by the sidebar's date range. *)
Definition filter_by_date (date_range : DateInput) (data : DataFrame) : DataFrame :=
  {| columns := columns data;
     rows := filter (in_range row_date date_range) (rows data) |}.

Record Page := {
  main_panel : MainPanel;
  price_panel : PricePanel;
  database : Database Cells
}.

(** What the script shows once a commodity is selected: the page, the
    warning for a commodity without rows, or the exception that stops the
    run. *)
Inductive Rendered :=
| rendered (page : Page)
| st_warning (message : string)
| raised (exception : string).

(** [data.empty] *)
Definition df_empty (data : DataFrame) : bool :=
  match columns data, rows data with
  | [], _ => true
  | _, [] => true
  | _, _ => false
  end.

(** The commodity block: the header prints the first and last report
    dates of the filtered rows with [strftime], which raises on [NaT];
    then come the dual-axis chart and the price panel. *)
Definition render (selected_commodity : string) (data : DataFrame)
    (date_range : DateInput) (short_to_technical : AliasMap)
    (left_formula right_formula : string)
    (left_axis_columns right_axis_columns : list string)
    (price_mapping : option PriceMapping) (db : Database Cells) : Rendered :=
  if df_empty data
  then st_warning ("No data available for " ++ selected_commodity)
  else
    let filtered_data := filter_by_date date_range data in
    match series_min (map row_date (rows filtered_data)),
          series_max (map row_date (rows filtered_data)) with
    | Some _, Some _ =>
        let chart :=
          main_chart left_formula right_formula left_axis_columns
                     right_axis_columns filtered_data short_to_technical in
        let '(panel, db') :=
          price_section selected_commodity price_mapping date_range
                        filtered_data db in
        rendered {| main_panel := chart; price_panel := panel; database := db' |}
    | _, _ => raised "NaTType does not support strftime"
    end.

End Page.

Arguments columns {Row} _.
Arguments rows {Row} _.
Arguments Build_DataFrame {Row} _ _.
Arguments try_eval {Row Value} df_eval data formula.
Arguments evaluate_formula {Row Value} df_eval formula data short_to_technical_map.
Arguments formula_stage {Row Value} df_eval formula data short_to_technical.
Arguments FormulaResult {Value} _.
Arguments Column {Value} _.
Arguments Build_Trace {Value} _ _ _ _ _.
Arguments x {Value} _.
Arguments ydata {Value} _.
Arguments name {Value} _.
Arguments color {Value} _.
Arguments yaxis {Value} _.
Arguments plotly_chart {Value} _ _.
Arguments info {Value} _.
Arguments formula_trace {Value} _ _ _ _ _.
Arguments column_traces {Value} _ _ _.
Arguments main_chart {Row} row_date {Value} df_eval _ _ _ _ _ _.
Arguments price_chart {Cells} _ _ _.
Arguments price_info {Cells} _.
Arguments price_raise {Cells} _.
Arguments Build_PricePanel {Cells} _ _ _.
Arguments caption {Cells} _.
Arguments st_error {Cells} _.
Arguments body {Cells} _.
Arguments Build_Loaded {Cells} _ _ _.
Arguments price_data {Cells} _.
Arguments db_after {Cells} _.
Arguments fetch_error {Cells} _.
Arguments ensure_date_column {Cells} _.
Arguments fetch_branch {Row} row_date {Cells} fetch_historical_prices _ _ _ _ _.
Arguments price_data_filtered {Cells} _ _.
Arguments xaxis_range_of {Row} row_date _.
Arguments price_body {Row} row_date {Cells} _ _ _.
Arguments no_mapping {Cells}.
Arguments with_ticker {Row} row_date {Cells} fetch_historical_prices _ _ _ _ _ _.
Arguments price_section {Row} row_date {Cells} fetch_historical_prices _ _ _ _ _.
Arguments filter_by_date {Row} row_date _ _.
Arguments Build_Page {Value Cells} _ _ _.
Arguments main_panel {Value Cells} _.
Arguments price_panel {Value Cells} _.
Arguments database {Value Cells} _.
Arguments rendered {Value Cells} _.
Arguments st_warning {Value Cells} _.
Arguments raised {Value Cells} _.
Arguments df_empty {Row} _.
Arguments render {Row} row_date {Value} df_eval {Cells} fetch_historical_prices
  _ _ _ _ _ _ _ _ _ _.

End App.

(** ** The specification's reading of two validator steps

    Two definitions written from the specification's words, to be
    compared with what [evaluate_formula] does. *)

Module Spec.
Import PyStr.

(** "every character must be one of [+-*/().,0-9A-Za-z_] or space" *)
Definition whitelisted (c : ascii) : bool :=
  mem_char c "+-*/().," || is_digit c || is_upper c || is_lower c
  || Ascii.eqb c "_" || Ascii.eqb c " ".

Definition flush (cur : string) : list string :=
  match cur with EmptyString => [] | _ => [cur] end.

(** The maximal runs of letters, digits and underscores of a text, left
    to right; [cur] is the run being read. *)
Fixpoint words_from (cur : string) (s : string) : list string :=
  match s with
  | EmptyString => flush cur
  | String c rest =>
      if is_alpha c || is_digit c || Ascii.eqb c "_"
      then words_from (cur ++ String c EmptyString) rest
      else flush cur ++ words_from EmptyString rest
  end.

Definition starts_like_identifier (w : string) : bool :=
  match w with
  | EmptyString => false
  | String c _ => is_alpha c || Ascii.eqb c "_"
  end.

(** "identifier-like substrings (alphanumeric-plus-underscore words
    starting with a letter or underscore)" *)
Definition identifier_tokens (s : string) : list string :=
  filter starts_like_identifier (words_from EmptyString s).

End Spec.

(** The result contract of [evaluate_formula]: exactly one of the two
    components is populated. *)
Definition one_populated {V : Type} (r : option V * option string) : Prop :=
  match r with
  | (Some _, None) => True
  | (None, Some _) => True
  | _ => False
  end.


(** The character set [evaluate_formula] lets through, in closed form: the
    specification's set and the two square brackets. *)
Definition whitelisted_or_bracket (c : ascii) : bool :=
  Spec.whitelisted c || Ascii.eqb c "[" || Ascii.eqb c "]".

(** The order [sorted_short_names] is meant to produce. *)
Definition longer_first (p q : string * string) : Prop :=
  String.length (fst q) <= String.length (fst p).

(** The tokens the second check of [evaluate_formula] reports: found by
    the pattern, not a column of the data, not a keyword. *)
Definition offending_tokens (data_columns : list string) (translated : string)
  : list string :=
  filter (fun col => negb (PyStr.mem_str col App.keywords))
    (filter (fun col => negb (PyStr.mem_str col data_columns))
       (Re.findall_ident translated)).

(** ** [DataFrame.eval] on float64 columns

    [evaluate_formula] hands the validated text to pandas'
    [DataFrame.eval] and has no arithmetic of its own.  This module
    describes that call, from the pandas documentation, for the formulas
    made of column names, the operators [+ - * /], signs and parentheses,
    read by Python's expression grammar, over columns of dtype float64:
    the expression is computed element by element with IEEE 754 binary64
    arithmetic (NumPy's float64, here [spec_float] at precision 53 and
    maximal exponent 1024), a missing value being NaN.  Everything else
    (numbers, calls, other dtypes, what pandas raises) is left to a
    parameter. *)

Module PandasEval.
Import PyStr.

Inductive Expr :=
| Col (name : string)
| Neg (e : Expr)
| Pos (e : Expr)
| Add (a b : Expr)
| Sub (a b : Expr)
| Mul (a b : Expr)
| Div (a b : Expr).

Inductive Token :=
| TName (name : string)
| TPlus
| TMinus
| TStar
| TSlash
| TOpen
| TClose.

(** The name being read, if any, becomes a token. *)
Definition flush (cur : option string) : list Token :=
  match cur with
  | Some name => [TName name]
  | None => []
  end.

Definition operator (c : ascii) : option Token :=
  if Ascii.eqb c "+" then Some TPlus
  else if Ascii.eqb c "-" then Some TMinus
  else if Ascii.eqb c "*" then Some TStar
  else if Ascii.eqb c "/" then Some TSlash
  else if Ascii.eqb c "(" then Some TOpen
  else if Ascii.eqb c ")" then Some TClose
  else None.

(** The tokens of the text: names, operators and parentheses, separated
    by spaces or by nothing; [None] for a text with anything else (a
    number begins with a digit or a point). *)
Fixpoint tokens (cur : option string) (s : string) : option (list Token) :=
  match s with
  | EmptyString => Some (flush cur)
  | String c rest =>
      if Re.is_ident_char c then
        match cur with
        | Some name => tokens (Some (name ++ String c "")) rest
        | None =>
            if Re.is_ident_start c then tokens (Some (String c "")) rest
            else None
        end
      else
        match (if Ascii.eqb c " " then Some [] else option_map (fun t => [t]) (operator c)) with
        | Some here =>
            match tokens None rest with
            | Some after => Some (flush cur ++ here ++ after)%list
            | None => None
            end
        | None => None
        end
  end.

(** Python's grammar for these tokens: a sum of terms, a term a product
    or quotient of factors, a factor a signed factor, a name or a sum in
    parentheses; [+ - * /] associate to the left. *)
Fixpoint parse_sum (fuel : nat) (ts : list Token) : option (Expr * list Token) :=
  match fuel with
  | O => None
  | S fuel' =>
      match parse_term fuel' ts with
      | Some (a, rest) => sum_rest fuel' a rest
      | None => None
      end
  end
with sum_rest (fuel : nat) (a : Expr) (ts : list Token)
  : option (Expr * list Token) :=
  match fuel with
  | O => None
  | S fuel' =>
      match ts with
      | TPlus :: after =>
          match parse_term fuel' after with
          | Some (b, rest) => sum_rest fuel' (Add a b) rest
          | None => None
          end
      | TMinus :: after =>
          match parse_term fuel' after with
          | Some (b, rest) => sum_rest fuel' (Sub a b) rest
          | None => None
          end
      | _ => Some (a, ts)
      end
  end
with parse_term (fuel : nat) (ts : list Token) : option (Expr * list Token) :=
  match fuel with
  | O => None
  | S fuel' =>
      match parse_factor fuel' ts with
      | Some (a, rest) => term_rest fuel' a rest
      | None => None
      end
  end
with term_rest (fuel : nat) (a : Expr) (ts : list Token)
  : option (Expr * list Token) :=
  match fuel with
  | O => None
  | S fuel' =>
      match ts with
      | TStar :: after =>
          match parse_factor fuel' after with
          | Some (b, rest) => term_rest fuel' (Mul a b) rest
          | None => None
          end
      | TSlash :: after =>
          match parse_factor fuel' after with
          | Some (b, rest) => term_rest fuel' (Div a b) rest
          | None => None
          end
      | _ => Some (a, ts)
      end
  end
with parse_factor (fuel : nat) (ts : list Token) : option (Expr * list Token) :=
  match fuel with
  | O => None
  | S fuel' =>
      match ts with
      | TMinus :: after =>
          match parse_factor fuel' after with
          | Some (a, rest) => Some (Neg a, rest)
          | None => None
          end
      | TPlus :: after =>
          match parse_factor fuel' after with
          | Some (a, rest) => Some (Pos a, rest)
          | None => None
          end
      | TName name :: rest => Some (Col name, rest)
      | TOpen :: after =>
          match parse_sum fuel' after with
          | Some (a, TClose :: rest) => Some (a, rest)
          | _ => None
          end
      | _ => None
      end
  end.

(** The expression a text denotes, when the text is in the fragment: no
    whitespace at its ends, and the whole of it one sum. *)
Definition parse (text : string) : option Expr :=
  if String.eqb (strip text) text then
    match tokens None text with
    | Some ts =>
        match parse_sum (5 * List.length ts + 5) ts with
        | Some (e, []) => Some e
        | _ => None
        end
    | None => None
    end
  else None.

(** The names the expression reads. *)
Fixpoint names (e : Expr) : list string :=
  match e with
  | Col name => [name]
  | Neg a | Pos a => names a
  | Add a b | Sub a b | Mul a b | Div a b => (names a ++ names b)%list
  end.

(** Words that Python does not read as names. *)
Definition python_keywords : list string :=
  ["False"; "None"; "True"; "and"; "as"; "assert"; "async"; "await";
   "break"; "class"; "continue"; "def"; "del"; "elif"; "else"; "except";
   "finally"; "for"; "from"; "global"; "if"; "import"; "in"; "is";
   "lambda"; "nonlocal"; "not"; "or"; "pass"; "raise"; "return"; "try";
   "while"; "with"; "yield"].

(** Every name of the expression is a column and no keyword. *)
Definition readable (columns : list string) (e : Expr) : bool :=
  forallb
    (fun name => mem_str name columns && negb (mem_str name python_keywords))
    (names e).

(** A row gives the cell of each float64 column; a missing value is
    NaN. *)
Definition FloatRow := string -> spec_float.

(** The value of the expression at one row, in binary64 arithmetic. *)
Fixpoint value (e : Expr) (row : FloatRow) : spec_float :=
  match e with
  | Col name => row name
  | Neg a => SFopp (value a row)
  | Pos a => value a row
  | Add a b => SFadd 53 1024 (value a row) (value b row)
  | Sub a b => SFsub 53 1024 (value a row) (value b row)
  | Mul a b => SFmul 53 1024 (value a row) (value b row)
  | Div a b => SFdiv 53 1024 (value a row) (value b row)
  end.

Definition is_nan (v : spec_float) : bool :=
  match v with S754_nan => true | _ => false end.

Definition is_zero (v : spec_float) : bool :=
  match v with S754_zero _ => true | _ => false end.

Definition is_infinite (v : spec_float) : bool :=
  match v with S754_infinity _ => true | _ => false end.

(** [np.isfinite] *)
Definition is_finite (v : spec_float) : bool :=
  match v with S754_zero _ | S754_finite _ _ _ => true | _ => false end.

(** [data.eval(text)]: the series of the values, row by row, for a text
    of the fragment whose names are columns; [other] stands for pandas
    on every other text. *)
Definition eval (other : App.DataFrame FloatRow -> string -> list spec_float + string)
    (data : App.DataFrame FloatRow) (text : string)
  : list spec_float + string :=
  match parse text with
  | Some e =>
      if readable (App.columns data) e
      then inl (map (value e) (App.rows data))
      else other data text
  | None => other data text
  end.

End PandasEval.

(** ** Words about text used by the properties *)

Module Text.
Import PyStr.

(** The character just before the position reached after reading [s],
    [prev] being the one before [s]. *)
Fixpoint last_char (prev : option ascii) (s : string) : option ascii :=
  match s with
  | EmptyString => prev
  | String c rest => last_char (Some c) rest
  end.

(** [typed] is [label] up to the case of its ASCII letters. *)
Fixpoint same_ignoring_case (typed label : string) : bool :=
  match typed, label with
  | EmptyString, EmptyString => true
  | String c typed', String a label' => ci_eqb a c && same_ignoring_case typed' label'
  | _, _ => false
  end.

Definition not_word (c : ascii) : bool := negb (Re.is_word c).

(** The text without its whitespace. *)
Fixpoint remove_spaces (s : string) : string :=
  match s with
  | EmptyString => EmptyString
  | String c rest =>
      if is_space c then remove_spaces rest else String c (remove_spaces rest)
  end.

(** Some operator of the text has whitespace right before or right
    after it. *)
Fixpoint spaced_operator (s : string) : bool :=
  match s with
  | EmptyString => false
  | String a rest =>
      match rest with
      | EmptyString => false
      | String b _ =>
          (is_space a && Re.is_operator b) || (Re.is_operator a && is_space b)
          || spaced_operator rest
      end
  end.

(** [r] is the beginning of [x]. *)
Definition is_prefix (r x : string) : Prop := exists rest, x = r ++ rest.

End Text.

(** ** Words about the price cache used by the properties *)

Module Cache.
Import FetchPrices.

Section Rows.
Context {Cells : Type}.

(** The order [ORDER BY DATE] leaves the rows in. *)
Definition by_date (a b : PriceRow Cells) : Prop :=
  date_leb (DATE a) (DATE b) = true.

(** The rows of [commodity_prices], none when the table is missing. *)
Definition stored_rows (db : Database Cells) : list (PriceRow Cells) :=
  match commodity_prices db with
  | Some table => prows table
  | None => []
  end.

(** The rows a call of [save_prices_to_database] hands to [to_sql]: those
    of each series that is not empty, tagged, in the order of the dict. *)
Definition written_rows (items : list (string * PriceFrame Cells))
  : list (PriceRow Cells) :=
  flat_map (fun item => if is_empty (snd item) then []
                        else prows (prepare (fst item) (snd item))) items.

End Rows.
End Cache.

(** ** More Python string operations (ASCII) *)

Module PyText.
Import PyStr.

Definition upper_char (c : ascii) : ascii :=
  if is_lower c then ascii_of_nat (code c - 32) else c.

(** [s.upper()] *)
Fixpoint upper (s : string) : string :=
  match s with
  | EmptyString => EmptyString
  | String c rest => String (upper_char c) (upper rest)
  end.

(** [s.startswith(prefix)] *)
Fixpoint startswith (s prefix : string) : bool :=
  match prefix with
  | EmptyString => true
  | String p prefix' =>
      match s with
      | EmptyString => false
      | String c s' => Ascii.eqb c p && startswith s' prefix'
      end
  end.

(** [k in s] for strings: [k] occurs in [s]. *)
Fixpoint contains (k s : string) : bool :=
  startswith s k
  || match s with
     | EmptyString => false
     | String _ rest => contains k rest
     end.

(** [s.endswith(suffix)] *)
Definition endswith (s suffix : string) : bool :=
  (String.length suffix <=? String.length s)%nat
  && String.eqb
       (substring (String.length s - String.length suffix) (String.length suffix) s)
       suffix.

(** [s[:-n]] *)
Definition drop_last (n : nat) (s : string) : string :=
  match n with
  | O => EmptyString
  | S _ => substring 0 (String.length s - n) s
  end.

(** Truthiness of a value that is a string or [None]. *)
Definition truthy_opt (o : option string) : bool :=
  match o with Some s => truthy s | None => false end.

(** [d.get(k)] for a dict written as its list of items. *)
Fixpoint dict_get {V : Type} (k : string) (d : list (string * V)) : option V :=
  match d with
  | [] => None
  | (k', v) :: rest => if String.eqb k k' then Some v else dict_get k rest
  end.

End PyText.

(** ** [commodity_ticker_mapping.py] *)

Module TickerMapping.
Import PyStr PyText.

(** The value of an entry: the futures ticker and the ETF ticker. *)
Definition Tickers := (option string * option string)%type.

Definition COMMODITY_TICKER_MAPPING : list (string * Tickers) :=
  [
    ("GOLD", (Some "GC=F", Some "GLD"));
    ("SILVER", (Some "SI=F", Some "SLV"));
    ("COPPER", (Some "HG=F", Some "CPER"));
    ("PLATINUM", (Some "PL=F", Some "PPLT"));
    ("PALLADIUM", (Some "PA=F", Some "PALL"));
    ("CRUDE OIL, LIGHT SWEET", (Some "CL=F", Some "USO"));
    ("CRUDE OIL", (Some "CL=F", Some "USO"));
    ("WTI", (Some "CL=F", Some "USO"));
    ("BRENT CRUDE", (Some "BZ=F", Some "BNO"));
    ("BRENT", (Some "BZ=F", Some "BNO"));
    ("GASOLINE", (Some "RB=F", Some "UGA"));
    ("RBOB GASOLINE", (Some "RB=F", Some "UGA"));
    ("HEATING OIL", (Some "HO=F", Some "UHN"));
    ("NATURAL GAS", (Some "NG=F", Some "UNG"));
    ("NAT GAS", (Some "NG=F", Some "UNG"));
    ("CORN", (Some "ZC=F", Some "CORN"));
    ("WHEAT", (Some "ZW=F", Some "WEAT"));
    ("SOYBEANS", (Some "ZS=F", Some "SOYB"));
    ("SOYBEAN OIL", (Some "ZL=F", None));
    ("SOYBEAN MEAL", (Some "ZM=F", None));
    ("OATS", (Some "ZO=F", None));
    ("ROUGH RICE", (Some "ZR=F", None));
    ("RICE", (Some "ZR=F", None));
    ("COFFEE", (Some "KC=F", Some "JO"));
    ("SUGAR", (Some "SB=F", Some "CANE"));
    ("COTTON", (Some "CT=F", Some "BAL"));
    ("ORANGE JUICE", (Some "OJ=F", None));
    ("COCOA", (Some "CC=F", Some "NIB"));
    ("LIVE CATTLE", (Some "LE=F", Some "COW"));
    ("CATTLE", (Some "LE=F", Some "COW"));
    ("FEEDER CATTLE", (Some "GF=F", None));
    ("FEEDER", (Some "GF=F", None));
    ("LEAN HOGS", (Some "HE=F", None));
    ("HOGS", (Some "HE=F", None));
    ("MILK", (Some "DC=F", None));
    ("CHEESE", (Some "DA=F", None));
    ("BUTTER", (Some "DB=F", None));
    ("LUMBER", (Some "LBS=F", None));
    ("RANDOM LENGTH LUMBER", (Some "LBS=F", None)) ].

Definition COMMODITY_NAME_VARIANTS : list (string * list string) :=
  [
    ("CRUDE OIL, LIGHT SWEET", ["CRUDE OIL"; "WTI CRUDE"; "LIGHT SWEET CRUDE"]);
    ("GASOLINE", ["RBOB GASOLINE"; "GASOLINE RBOB"]);
    ("NATURAL GAS", ["NAT GAS"; "HENRY HUB"; "NATURAL GAS FINANCIAL"]);
    ("LIVE CATTLE", ["CATTLE"; "LIVE CATTLE FINANCIAL"]);
    ("FEEDER CATTLE", ["FEEDER"; "FEEDER CATTLE FINANCIAL"]);
    ("LEAN HOGS", ["HOGS"; "LEAN HOGS FINANCIAL"]);
    ("MILK", ["MILK, CLASS III"; "MILK CLASS III"]);
    ("CORN", ["CORN FINANCIAL"]);
    ("WHEAT", ["WHEAT FINANCIAL"]);
    ("SOYBEANS", ["SOYBEANS FINANCIAL"]) ].

(** The choice made on an entry, the same at each of the three places:
    the futures ticker when preferred and present, else the ETF ticker,
    else the futures ticker, else nothing. *)
Definition choose (prefer_futures : bool) (tickers : Tickers) : option string :=
  let '(futures_ticker, etf_ticker) := tickers in
  if prefer_futures && truthy_opt futures_ticker then futures_ticker
  else if truthy_opt etf_ticker then etf_ticker
  else if truthy_opt futures_ticker then futures_ticker
  else None.

(** "Try partial matching": the first key that occurs in the name and
    whose entry yields a ticker. *)
Fixpoint partial_match (prefer_futures : bool) (name_upper : string)
    (items : list (string * Tickers)) : option string :=
  match items with
  | [] => None
  | (key, tickers) :: rest =>
      if contains key name_upper then
        match choose prefer_futures tickers with
        | Some ticker => Some ticker
        | None => partial_match prefer_futures name_upper rest
        end
      else partial_match prefer_futures name_upper rest
  end.

(** "Try variant matching" *)
Fixpoint variant_match (prefer_futures : bool) (name_upper : string)
    (items : list (string * list string)) : option string :=
  match items with
  | [] => None
  | (base_name, variants) :: rest =>
      if mem_str name_upper variants
         || existsb (fun variant => contains variant name_upper) variants
      then
        match dict_get base_name COMMODITY_TICKER_MAPPING with
        | Some tickers =>
            match choose prefer_futures tickers with
            | Some ticker => Some ticker
            | None => variant_match prefer_futures name_upper rest
            end
        | None => variant_match prefer_futures name_upper rest
        end
      else variant_match prefer_futures name_upper rest
  end.

Definition get_ticker_for_commodity (commodity_name : string)
    (prefer_futures : bool) : option string :=
  let name_upper := upper commodity_name in
  match dict_get name_upper COMMODITY_TICKER_MAPPING with
  | Some tickers => choose prefer_futures tickers
  | None =>
      match partial_match prefer_futures name_upper COMMODITY_TICKER_MAPPING with
      | Some ticker => Some ticker
      | None => variant_match prefer_futures name_upper COMMODITY_NAME_VARIANTS
      end
  end.

(** The first key that occurs in the name, with its entry. *)
Fixpoint first_partial (name_upper : string) (items : list (string * Tickers))
  : option Tickers :=
  match items with
  | [] => None
  | (key, tickers) :: rest =>
      if contains key name_upper then Some tickers
      else first_partial name_upper rest
  end.

(** [get_all_tickers_for_commodity]: the dict with keys ['futures'] and
    ['etf'] as a pair, or [None]. *)
Definition get_all_tickers_for_commodity (commodity_name : string)
  : option Tickers :=
  let name_upper := upper commodity_name in
  match dict_get name_upper COMMODITY_TICKER_MAPPING with
  | Some tickers => Some tickers
  | None => first_partial name_upper COMMODITY_TICKER_MAPPING
  end.

Definition suffixes_to_remove : list string :=
  [" FINANCIAL"; " - FINANCIAL"; " - ICE"; " - CME"; " - NYMEX"; " - COMEX"].

Definition remove_suffix (name suffix : string) : string :=
  if endswith name suffix then drop_last (String.length suffix) name else name.

Definition normalize_commodity_name (commodity_name : string) : string :=
  let name := strip (upper commodity_name) in
  strip (fold_left remove_suffix suffixes_to_remove name).

Definition get_all_mapped_commodities : list string :=
  map fst COMMODITY_TICKER_MAPPING.

End TickerMapping.

(** ** [commodity_types.py] *)

Module CommodityTypes.
Import PyStr PyText.

(** [any(keyword in name_upper for keyword in keywords)] *)
Definition any_in (keywords : list string) (name_upper : string) : bool :=
  existsb (fun keyword => contains keyword name_upper) keywords.

Definition metals : list string :=
    ["GOLD"; "SILVER"; "COPPER"; "ALUMINUM"; "ALUMINIUM"; "PLATINUM";
     "PALLADIUM"; "COBALT"; "LITHIUM"; "STEEL"; "SCRAP"; "HRC"; "HOT-ROLL"].

Definition oil_and_products : list string :=
    ["CRUDE"; "WTI"; "BRENT"; "GASOLINE"; "HEATING OIL"; "ULSD"; "USLD";
     "PROPANE"; "ETHANE"; "BUTANE"; "NAPHTHA"; "FUEL OIL"; "JET";
     "MARINE FUEL"; "RBOB"; "GASOLINE"; "CBOB"; "CRACK"; "BALMO"].

Definition natural_gas : list string :=
    ["NATURAL GAS"; "NAT GAS"; "HENRY HUB"; "BASIS"; "INDEX"; "CITYGATE";
     "FINANCIAL"; "PENULTIMATE"; "LD1"; "ICE"; "NYME"].

Definition power_and_emissions : list string :=
    ["ERCOT"; "PJM"; "NYISO"; "CAISO"; "MISO"; "ISONE"; "CARBON"; "RGGI";
     "REC"; "AEC"; "COMPLIANCE"; "EMISSIONS"; "OFFSET"; "VINTAGE"; "DA PEAK";
     "DA OFF"; "RT PK"; "RT OFF"; "DAY-AHEAD"; "REAL-TIME"; "HUB"; "ZONE";
     "MONTH_OFF"; "MONTH_ON"; "OFF_DAP"; "ON_DAP"].

Definition grains : list string :=
    ["CORN"; "WHEAT"; "SOYBEAN"; "CANOLA"; "OATS"; "RICE"; "ROUGH RICE"].

Definition softs : list string :=
    ["COFFEE"; "COCOA"; "SUGAR"; "COTTON"; "ORANGE JUICE";
     "FRZN CONCENTRATED"].

Definition livestock : list string :=
    ["CATTLE"; "FEEDER"; "HOGS"; "LEAN HOGS"].

Definition dairy : list string :=
    ["MILK"; "CHEESE"; "BUTTER"; "WHEY"; "DRY MILK"].

Definition other_industrial : list string :=
    ["LUMBER"; "RANDOM LENGTH"; "UREA"; "PALM OIL"].

Definition get_commodity_type (commodity_name : string) : string :=
  let name_upper := upper commodity_name in
  if any_in metals name_upper then "Metals"
  else if any_in oil_and_products name_upper then "Energy - Oil & Products"
  else if any_in natural_gas name_upper then "Natural Gas"
  else if any_in power_and_emissions name_upper then "Power & Emissions"
  else if any_in grains name_upper then "Agricultural - Grains"
  else if any_in softs name_upper then "Agricultural - Softs"
  else if any_in livestock name_upper then "Livestock"
  else if any_in dairy name_upper then "Dairy"
  else if any_in other_industrial name_upper then "Other Industrial"
  else "Other".

End CommodityTypes.

(** ** [fetch_prices.py]: fetching *)

Module Fetching.
Import PyStr PyText FetchPrices TickerMapping.

(** [d[k] = v] on a dict written as its list of items: an existing key
    keeps its place. *)
Fixpoint dict_set {V : Type} (k : string) (v : V) (d : list (string * V))
  : list (string * V) :=
  match d with
  | [] => [(k, v)]
  | (k', v') :: rest =>
      if String.eqb k k' then (k, v) :: rest else (k', v') :: dict_set k v rest
  end.

(** [col.replace(' ', '_')] *)
Fixpoint spaces_to_underscores (col : string) : string :=
  match col with
  | EmptyString => EmptyString
  | String c rest =>
      String (if Ascii.eqb c " " then "_"%char else c) (spaces_to_underscores rest)
  end.

(** The keyword arguments [fetch_historical_prices] passes to
    [Ticker.history]. *)
Inductive HistoryQuery :=
| by_period (period : string)
| by_dates (start_date end_date : string)
| from_start (start_date : string).

Section Source.
Variable Cells : Type.

(** [yf.Ticker(ticker).history(...)]: a frame indexed by date, given here
    as the name of its index and the frame of its columns, or the text of
    what it raised. *)
Variable history :
  string -> HistoryQuery -> (option string * PriceFrame Cells) + string.

(** Which [history] call is made: the period when given, else both dates,
    else the start date, else one year. *)
Definition history_query (start_date end_date period : option string)
  : HistoryQuery :=
  match period with
  | Some p =>
      if truthy p then by_period p
      else
        match start_date with
        | Some s =>
            if truthy s then
              match end_date with
              | Some e => if truthy e then by_dates s e else from_start s
              | None => from_start s
              end
            else by_period "1y"
        | None => by_period "1y"
        end
  | None =>
      match start_date with
      | Some s =>
          if truthy s then
            match end_date with
            | Some e => if truthy e then by_dates s e else from_start s
            | None => from_start s
            end
          else by_period "1y"
      | None => by_period "1y"
      end
  end.

(** [hist.reset_index(inplace=True)]: the index becomes the first column,
    under its name, or under "index" when it has none ("level_0" when
    "index" is taken); pandas refuses a label that is already a column. *)
Definition reset_index (index_name : option string) (hist : PriceFrame Cells)
  : PriceFrame Cells + string :=
  let label :=
    match index_name with
    | Some n => n
    | None => if mem_str "index" (pcolumns hist) then "level_0" else "index"
    end in
  if mem_str label (pcolumns hist) then inr "cannot insert, already exists"
  else inl {| pcolumns := label :: pcolumns hist; prows := prows hist |}.

Definition fetch_historical_prices (ticker : string)
    (start_date end_date period : option string) : PriceFrame Cells :=
  match history ticker (history_query start_date end_date period) with
  | inr _ => empty_frame
  | inl (index_name, hist) =>
      if is_empty hist then empty_frame
      else
        match reset_index index_name hist with
        | inr _ => empty_frame
        | inl hist =>
            {| pcolumns :=
                 map (fun col => upper (spaces_to_underscores col)) (pcolumns hist);
               prows := prows hist |}
        end
  end.

Definition fetch_commodity_price (commodity_name : string)
    (start_date end_date period : option string)
    (prefer_futures try_etf_fallback : bool) : PriceFrame Cells :=
  let normalized_name := normalize_commodity_name commodity_name in
  match get_ticker_for_commodity normalized_name prefer_futures with
  | None => empty_frame
  | Some ticker =>
      if negb (truthy ticker) then empty_frame
      else
        let df := fetch_historical_prices ticker start_date end_date period in
        if is_empty df && try_etf_fallback then
          match get_all_tickers_for_commodity normalized_name with
          | Some (_, Some etf_ticker) =>
              if truthy etf_ticker && negb (String.eqb etf_ticker ticker)
              then fetch_historical_prices etf_ticker start_date end_date period
              else df
          | _ => df
          end
        else df
  end.

(** [fetch_multiple_commodities], without the pause between requests: the
    dict of the frames that are not empty. *)
Definition fetch_multiple_commodities (commodity_names : list string)
    (start_date end_date period : option string)
  : list (string * PriceFrame Cells) :=
  fold_left
    (fun results commodity_name =>
       let df :=
         fetch_commodity_price commodity_name start_date end_date period
           true true in
       if negb (is_empty df) then dict_set commodity_name df results
       else results)
    commodity_names [].

(** [if ticker:] on what [get_ticker_for_commodity] returned for the
    normalized name. *)
Definition has_ticker (commodity : string) : bool :=
  truthy_opt (get_ticker_for_commodity (normalize_commodity_name commodity) true).

Definition fetch_all_available_commodities (commodity_list : list string)
    (start_date end_date period : option string)
  : list (string * PriceFrame Cells) :=
  let mapped_commodities :=
    fold_left
      (fun mapped commodity =>
         if has_ticker commodity then (mapped ++ [commodity])%list else mapped)
      commodity_list [] in
  fetch_multiple_commodities mapped_commodities start_date end_date period.

End Source.

Arguments history_query _ _ _ : clear implicits.
Arguments reset_index {Cells} _ _.
Arguments fetch_historical_prices {Cells} history _ _ _ _.
Arguments fetch_commodity_price {Cells} history _ _ _ _ _ _.
Arguments fetch_multiple_commodities {Cells} history _ _ _ _.
Arguments fetch_all_available_commodities {Cells} history _ _ _ _.

(** [fetch_all_prices.py], [find_mappable_commodities]: the lists under
    ['mapped'] and ['unmapped']. *)
Definition find_mappable_commodities (commodity_list : list string)
  : list string * list string :=
  fold_left
    (fun found commodity =>
       let '(mapped, unmapped) := found in
       if has_ticker commodity then ((mapped ++ [commodity])%list, unmapped)
       else (mapped, (unmapped ++ [commodity])%list))
    commodity_list ([], []).

End Fetching.

(** ** [commodity_price_mapping.py] *)

Module PriceMappingDb.
Import PyStr PyText TickerMapping.

(** A row of the table [commodity_price_mapping]; the two timestamps are
    instants. *)
Record MappingRow := {
  commodity_name : string;
  ticker_symbol : option string;
  ticker_type : option string;
  auto_mapped : Z;
  verified : Z;
  notes : option string;
  created_at : Z;
  updated_at : Z
}.

(** The database file as this module uses it: what
    [SELECT DISTINCT Commodity_Name FROM cot_data ORDER BY Commodity_Name]
    returns ([None] when there is no table [cot_data], a [None] name for
    NULL), and the rows of [commodity_price_mapping], [None] until the
    table is created. *)
Record Database := {
  cot_commodity_names : option (list (option string));
  commodity_price_mapping : option (list MappingRow)
}.

Definition rows_of (db : Database) : list MappingRow :=
  match commodity_price_mapping db with
  | Some rows => rows
  | None => []
  end.

Definition with_rows (db : Database) (rows : list MappingRow) : Database :=
  {| cot_commodity_names := cot_commodity_names db;
     commodity_price_mapping := Some rows |}.

(** [CREATE TABLE IF NOT EXISTS commodity_price_mapping] *)
Definition init_price_mapping_db (db : Database) : Database :=
  match commodity_price_mapping db with
  | Some _ => db
  | None => with_rows db []
  end.

(** [DELETE FROM commodity_price_mapping WHERE commodity_name = ?] *)
Definition delete_where (name : string) (rows : list MappingRow)
  : list MappingRow :=
  filter (fun row => negb (String.eqb (commodity_name row) name)) rows.

(** [WHERE commodity_name = ?], [fetchone] *)
Definition select_where (name : string) (rows : list MappingRow)
  : option MappingRow :=
  find (fun row => String.eqb (commodity_name row) name) rows.

(** [INSERT OR REPLACE]: [commodity_name] is the primary key, the row that
    holds the key is deleted and the new row inserted. *)
Definition insert_or_replace (row : MappingRow) (rows : list MappingRow)
  : list MappingRow :=
  (delete_where (commodity_name row) rows ++ [row])%list.

(** [INSERT OR IGNORE]: nothing is inserted when the key is held. *)
Definition insert_or_ignore (row : MappingRow) (rows : list MappingRow)
  : list MappingRow :=
  match select_where (commodity_name row) rows with
  | Some _ => rows
  | None => (rows ++ [row])%list
  end.

(** The entries of [mappings]: commodity name, ticker symbol and ticker
    type; ['auto_mapped'] is 1 and ['verified'] is 0 in each. *)
Definition Mapping := (string * string * string)%type.

(** "Map each commodity" *)
Fixpoint map_each (all_commodities : list (option string))
    (mappings : list Mapping) : list Mapping + string :=
  match all_commodities with
  | [] => inl mappings
  | None :: _ => inr "'NoneType' object has no attribute 'upper'"
  | Some commodity :: rest =>
      let normalized := normalize_commodity_name commodity in
      match get_ticker_for_commodity normalized true with
      | Some ticker =>
          if truthy ticker then
            let ticker_type :=
              if contains "=F" ticker then "futures" else "etf" in
            map_each rest (mappings ++ [(commodity, ticker, ticker_type)])%list
          else map_each rest mappings
      | None => map_each rest mappings
      end
  end.

(** The row either [INSERT] of [auto_map_commodities] writes: the columns
    it does not name take their defaults, NULL for [notes] and
    [CURRENT_TIMESTAMP] for the timestamps. *)
Definition auto_row (mapping : Mapping) (now : Z) : MappingRow :=
  let '(commodity, ticker, type) := mapping in
  {| commodity_name := commodity;
     ticker_symbol := Some ticker;
     ticker_type := Some type;
     auto_mapped := 1;
     verified := 0;
     notes := None;
     created_at := now;
     updated_at := now |}.

(** "Save to database"; [clock] gives the [CURRENT_TIMESTAMP] of the
    statement that writes a commodity. *)
Definition save_mappings (overwrite_existing : bool) (clock : string -> Z)
    (mappings : list Mapping) (rows : list MappingRow) : list MappingRow :=
  fold_left
    (fun rows mapping =>
       let row := auto_row mapping (clock (fst (fst mapping))) in
       if overwrite_existing then insert_or_replace row rows
       else insert_or_ignore row rows)
    mappings rows.

(** [auto_map_commodities]: the database it leaves and the count it
    returns, or what it raised. *)
Definition auto_map_commodities (overwrite_existing : bool)
    (clock : string -> Z) (db : Database) : Database * (nat + string) :=
  let db := init_price_mapping_db db in
  match cot_commodity_names db with
  | None => (db, inr "no such table: cot_data")
  | Some all_commodities =>
      match map_each all_commodities [] with
      | inr raised => (db, inr raised)
      | inl mappings =>
          (with_rows db
             (save_mappings overwrite_existing clock mappings (rows_of db)),
           inl (List.length mappings))
      end
  end.

Definition get_price_mapping (name : string) (db : Database)
  : Database * option MappingRow :=
  let db := init_price_mapping_db db in
  (db, select_where name (rows_of db)).

(** [update_price_mapping] at the instant [now]. *)
Definition update_price_mapping (name : string)
    (symbol type : option string) (is_verified : bool)
    (note : option string) (now : Z) (db : Database) : Database :=
  let db := init_price_mapping_db db in
  match symbol with
  | None => with_rows db (delete_where name (rows_of db))
  | Some _ =>
      with_rows db
        (insert_or_replace
           {| commodity_name := name;
              ticker_symbol := symbol;
              ticker_type := type;
              auto_mapped := 0;
              verified := if is_verified then 1 else 0;
              notes := note;
              created_at := now;
              updated_at := now |}
           (rows_of db))
  end.

Definition get_ticker_for_commodity_from_db (name : string) (db : Database)
  : Database * option string :=
  let '(db, mapping) := get_price_mapping name db in
  (db,
   match mapping with
   | Some row =>
       if truthy_opt (ticker_symbol row) then ticker_symbol row else None
   | None => None
   end).

End PriceMappingDb.

Module AutoMap.
Import PyStr PyText TickerMapping PriceMappingDb.

(** The entry that the mapping loop of [auto_map_commodities] appends for
    a commodity, if it appends one. *)
Definition auto_mapping (commodity : string) : option Mapping :=
  match get_ticker_for_commodity (normalize_commodity_name commodity) true with
  | Some ticker =>
      if truthy ticker
      then Some (commodity, ticker,
                 if contains "=F" ticker then "futures" else "etf")
      else None
  | None => None
  end.

Definition entries (commodity : string) : list Mapping :=
  match auto_mapping commodity with
  | Some mapping => [mapping]
  | None => []
  end.

End AutoMap.

(** ** [vintage_groups.py] *)

Module VintageGroups.
Import PyStr PyText.

(** A group key: the base name and the exchange. *)
Definition GroupKey := (string * string)%type.

Record Group := {
  base_name : string;
  exchange : string;
  commodities : list string;
  vintage_pattern : string;
  description : string
}.

Definition VINTAGE_GROUPS : list (GroupKey * Group) :=
  [
    (("CALIF CARBON ALLOWANCE", "ICE FUTURES ENERGY DIV"),
     {| base_name := "CALIF CARBON ALLOWANCE";
        exchange := "ICE FUTURES ENERGY DIV";
        commodities :=
          [ "CALIF CARBON ALLOWANCE V2022";
            "CALIF CARBON ALLOWANCE V2023";
            "CALIF CARBON ALLOWANCE V2024";
            "CALIF CARBON ALLOWANCE V2025" ];
        vintage_pattern := "V{YYYY}";
        description := "California Carbon Allowance with vintage years" |});
    (("CALIF CARBON ALLOWANCE", "CHICAGO MERCANTILE EXCHANGE"),
     {| base_name := "CALIF CARBON ALLOWANCE";
        exchange := "CHICAGO MERCANTILE EXCHANGE";
        commodities :=
          [ "CALIF CARBON ALLOWANCE V2022";
            "CALIF CARBON ALLOWANCE V2023";
            "CALIF CARBON ALLOWANCE V2024";
            "CALIF CARBON ALLOWANCE V2025" ];
        vintage_pattern := "V{YYYY}";
        description := "California Carbon Allowance with vintage years" |});
    (("CALIF CARBON ALL", "ICE FUTURES ENERGY DIV"),
     {| base_name := "CALIF CARBON ALL";
        exchange := "ICE FUTURES ENERGY DIV";
        commodities :=
          [ "CALIF CARBON ALL VINTAGE 2025";
            "CALIF CARBON ALL VINTAGE 2026" ];
        vintage_pattern := "VINTAGE {YYYY}";
        description := "California Carbon All vintage series" |});
    (("CALIF CARBON", "ICE FUTURES ENERGY DIV"),
     {| base_name := "CALIF CARBON";
        exchange := "ICE FUTURES ENERGY DIV";
        commodities :=
          [ "CALIF CARBON 21";
            "CALIF CARBON 22";
            "CALIF CARBON 23";
            "CALIF CARBON ALL VINTAGE 2025";
            "CALIF CARBON ALL VINTAGE 2026";
            "CALIF CARBON ALLOWANCE V2022";
            "CALIF CARBON ALLOWANCE V2023";
            "CALIF CARBON ALLOWANCE V2024";
            "CALIF CARBON ALLOWANCE V2025";
            "CALIF CARBON VINTAGE 2021";
            "CALIF CARBON VINTAGE SPEC 2028" ];
        vintage_pattern := "Mixed (V{YYYY}, {YY}, VINTAGE {YYYY})";
        description := "California Carbon - various vintage formats" |});
    (("RGGI", "ICE FUTURES ENERGY DIV"),
     {| base_name := "RGGI";
        exchange := "ICE FUTURES ENERGY DIV";
        commodities :=
          [ "RGGI VINTAGE 2021";
            "RGGI V2022-ICE";
            "RGGI VINTAGE 2022";
            "RGGI V2023";
            "RGGI V2024";
            "RGGI V2025";
            "RGGI V2026" ];
        vintage_pattern := "V{YYYY} or VINTAGE {YYYY}";
        description := "Regional Greenhouse Gas Initiative credits" |});
    (("NEW JERSEY RECs CLASS 2", "ICE FUTURES ENERGY DIV"),
     {| base_name := "NEW JERSEY RECs CLASS 2";
        exchange := "ICE FUTURES ENERGY DIV";
        commodities :=
          [ "NEW JERSEY RECs CLASS 2 V2025";
            "NEW JERSEY RECs CLASS 2 V2026";
            "NEW JERSEY RECs CLASS 2 V2027" ];
        vintage_pattern := "V{YYYY}";
        description := "New Jersey Renewable Energy Certificates Class 2" |});
    (("PENNSYLVANIA AEC TIER 2", "ICE FUTURES ENERGY DIV"),
     {| base_name := "PENNSYLVANIA AEC TIER 2";
        exchange := "ICE FUTURES ENERGY DIV";
        commodities :=
          [ "PENNSYLVANIA AEC TIER 2-V2024";
            "PENNSYLVANIA AEC TIER 2-V2025";
            "PENNSYLVANIA AEC TIER 2-V2026";
            "PENNSYLVANIA AEC TIER 2-V2027";
            "PENNSYLVANIA AEC TIER 2-V2028" ];
        vintage_pattern := "V{YYYY}";
        description := "Pennsylvania Alternative Energy Credit Tier 2" |});
    (("PJM TRI-Q RECs CLASS 1", "ICE FUTURES ENERGY DIV"),
     {| base_name := "PJM TRI-Q RECs CLASS 1";
        exchange := "ICE FUTURES ENERGY DIV";
        commodities :=
          [ "PJM TRI-Q RECs CLASS 1 V2022";
            "PJM TRI-Q RECs CLASS 1 V2023" ];
        vintage_pattern := "V{YYYY}";
        description := "PJM Tri-Qualified Renewable Energy Certificates Class 1" |});
    (("TX GREEN-E REC", "ICE FUTURES ENERGY DIV"),
     {| base_name := "TX GREEN-E REC";
        exchange := "ICE FUTURES ENERGY DIV";
        commodities :=
          [ "TX GREEN-E REC V22 BACK HALF";
            "TX GREEN-E REC V22 FRONT HALF";
            "TX GREEN-E REC V23 BACK HALF";
            "TX GREEN-E REC V23 FRONT HALF";
            "TX GREEN-E REC V24 BACK HALF";
            "TX GREEN-E REC V24 FRONT HALF";
            "TX GREEN-E REC V25 BACK HALF";
            "TX GREEN-E REC V25 FRONT HALF" ];
        vintage_pattern := "V{YY} {HALF}";
        description := "Texas Green-E Renewable Energy Certificates with vintage and half-year" |});
    (("TX REC CRS", "ICE FUTURES ENERGY DIV"),
     {| base_name := "TX REC CRS";
        exchange := "ICE FUTURES ENERGY DIV";
        commodities :=
          [ "TX REC CRS V26 BACK HALF";
            "TX REC CRS V26 FRONT HALF";
            "TX REC CRS V27 BACK HALF";
            "TX REC CRS V27 FRONT HALF";
            "TX REC CRS V28 BACK HALF";
            "TX REC CRS V28 FRONT HALF";
            "TX REC CRS V29 BACK HALF";
            "TX REC CRS V29 FRONT HALF";
            "TX REC CRS V30 BACK HALF";
            "TX REC CRS V30 FRONT HALF" ];
        vintage_pattern := "V{YY} {HALF}";
        description := "Texas Renewable Energy Credit CRS with vintage and half-year" |});
    (("WASHINGTON CARBON", "ICE FUTURES ENERGY DIV"),
     {| base_name := "WASHINGTON CARBON";
        exchange := "ICE FUTURES ENERGY DIV";
        commodities :=
          [ "WASHINGTON CARBON V2023";
            "WASHINGTON CARBON V2024" ];
        vintage_pattern := "V{YYYY}";
        description := "Washington Carbon Allowance" |});
    (("WASHINGTON CARBON ALL", "ICE FUTURES ENERGY DIV"),
     {| base_name := "WASHINGTON CARBON ALL";
        exchange := "ICE FUTURES ENERGY DIV";
        commodities :=
          [ "WASHINGTON CARBON ALL V2024";
            "WASHINGTON CARBON ALL V2025" ];
        vintage_pattern := "V{YYYY}";
        description := "Washington Carbon All vintage series" |})
  ].

Record CrossExchange := {
  exchanges : list string;
  cross_description : string;
  base_commodity : string
}.

Definition CROSS_EXCHANGE_COMMODITIES : list (string * CrossExchange) :=
  [
    ("CALIF CARBON ALLOWANCE",
     {| exchanges := [ "ICE FUTURES ENERGY DIV"; "CHICAGO MERCANTILE EXCHANGE" ];
        cross_description := "California Carbon Allowance traded on multiple exchanges";
        base_commodity := "CALIF CARBON ALLOWANCE" |})
  ].

(** Equality of two tuples of strings. *)
Definition key_eqb (a b : string * string) : bool :=
  String.eqb (fst a) (fst b) && String.eqb (snd a) (snd b).

(** [d[k] = v] and [d.get(k)] for a dict with tuples as keys, written as
    its list of items: an existing key keeps its place. *)
Fixpoint pair_set {V : Type} (k : string * string) (v : V)
    (d : list ((string * string) * V)) : list ((string * string) * V) :=
  match d with
  | [] => [(k, v)]
  | (k', v') :: rest =>
      if key_eqb k k' then (k, v) :: rest else (k', v') :: pair_set k v rest
  end.

Fixpoint pair_get {V : Type} (k : string * string)
    (d : list ((string * string) * V)) : option V :=
  match d with
  | [] => None
  | (k', v) :: rest => if key_eqb k k' then Some v else pair_get k rest
  end.

(** The loop that fills [COMMODITY_EXCHANGE_TO_GROUP]. *)
Definition reverse_mapping (groups : list (GroupKey * Group))
  : list ((string * string) * GroupKey) :=
  fold_left
    (fun index (item : GroupKey * Group) =>
       let '(group_key, group_data) := item in
       let '(_, exchange) := group_key in
       fold_left
         (fun index commodity => pair_set (commodity, exchange) group_key index)
         (commodities group_data) index)
    groups [].

Definition COMMODITY_EXCHANGE_TO_GROUP : list ((string * string) * GroupKey) :=
  Eval vm_compute in reverse_mapping VINTAGE_GROUPS.

(** The first item of the reverse mapping whose commodity is the name. *)
Fixpoint first_match (commodity_name : string)
    (items : list ((string * string) * GroupKey)) : option GroupKey :=
  match items with
  | [] => None
  | ((comm, _), group_key) :: rest =>
      if String.eqb comm commodity_name then Some group_key
      else first_match commodity_name rest
  end.

Definition get_vintage_group (commodity_name : string)
    (exchange : option string) : option GroupKey :=
  match exchange with
  | Some exch =>
      if truthy exch
      then pair_get (commodity_name, exch) COMMODITY_EXCHANGE_TO_GROUP
      else first_match commodity_name COMMODITY_EXCHANGE_TO_GROUP
  | None => first_match commodity_name COMMODITY_EXCHANGE_TO_GROUP
  end.

Definition is_vintage_commodity (commodity_name : string)
    (exchange : option string) : bool :=
  let with_any_exchange :=
    existsb (fun item : (string * string) * GroupKey =>
               String.eqb (fst (fst item)) commodity_name)
      COMMODITY_EXCHANGE_TO_GROUP in
  match exchange with
  | Some exch =>
      if truthy exch
      then existsb (fun item : (string * string) * GroupKey =>
                      key_eqb (commodity_name, exch) (fst item))
             COMMODITY_EXCHANGE_TO_GROUP
      else with_any_exchange
  | None => with_any_exchange
  end.

Definition get_group_commodities (group_key : GroupKey) : list string :=
  match pair_get group_key VINTAGE_GROUPS with
  | Some group_data => commodities group_data
  | None => []
  end.

(** [exchanges.add(exchange)] on a set written as the list of its
    elements. *)
Definition set_add (x : string) (elements : list string) : list string :=
  if mem_str x elements then elements else (elements ++ [x])%list.

(** [sorted(...)] of strings: insertion by code points. *)
Fixpoint insert_sorted (x : string) (l : list string) : list string :=
  match l with
  | [] => [x]
  | y :: rest =>
      if String.leb x y then x :: y :: rest else y :: insert_sorted x rest
  end.

Definition sorted (l : list string) : list string :=
  fold_right insert_sorted [] l.

Definition get_exchanges_for_commodity (base_commodity_name : string)
  : list string :=
  let exchanges :=
    fold_left
      (fun exchanges (item : GroupKey * Group) =>
         let '((base_name, exchange), _) := item in
         if String.eqb base_name base_commodity_name
         then set_add exchange exchanges
         else exchanges)
      VINTAGE_GROUPS [] in
  sorted exchanges.

Definition get_cross_exchange_commodities (base_commodity_name : string)
  : option CrossExchange :=
  dict_get base_commodity_name CROSS_EXCHANGE_COMMODITIES.

(** [\d{n}] at the start of [s]: the digits and the text after them. *)
Fixpoint digits (n : nat) (s : string) : option (string * string) :=
  match n with
  | O => Some (EmptyString, s)
  | S n' =>
      match s with
      | EmptyString => None
      | String c rest =>
          if is_digit c then
            match digits n' rest with
            | Some (group, rest') => Some (String c group, rest')
            | None => None
            end
          else None
      end
  end.

(** [V(\d{n})] at the start of [s], ignoring case. *)
Definition v_digits (n : nat) (s : string) : option (string * string) :=
  match s with
  | EmptyString => None
  | String c rest => if ci_eqb "V" c then digits n rest else None
  end.

(** The last character of a group that is not empty. *)
Fixpoint last (prev : option ascii) (s : string) : option ascii :=
  match s with
  | EmptyString => prev
  | String c rest => last (Some c) rest
  end.

(** The six patterns, each tried at one position: [prev] is the character
    before the position, [s] the text from it on; the result is group 1. *)
Definition Pattern := option ascii -> string -> option string.

(** [V(\d{4})] *)
Definition v_four_digits : Pattern :=
  fun prev s => option_map fst (v_digits 4 s).

(** [VINTAGE\s+(\d{4})] *)
Definition vintage_four_digits : Pattern :=
  fun prev s =>
    match Re.match_literal "VINTAGE" s prev with
    | Some (_, rest) =>
        match rest with
        | EmptyString => None
        | String c _ =>
            if is_space c then option_map fst (digits 4 (lstrip rest)) else None
        end
    | None => None
    end.

(** [V(\d{2})\s+] *)
Definition v_two_digits_space : Pattern :=
  fun prev s =>
    match v_digits 2 s with
    | Some (group, String c _) => if is_space c then Some group else None
    | _ => None
    end.

(** [V(\d{2})$]: [$] is the end of the text or the place before a last
    newline. *)
Definition v_two_digits_end : Pattern :=
  fun prev s =>
    match v_digits 2 s with
    | Some (group, rest) =>
        if String.eqb rest "" || String.eqb rest (String "010" "")
        then Some group else None
    | None => None
    end.

(** [\b(\d{n})\b] *)
Definition standalone_digits (n : nat) : Pattern :=
  fun prev s =>
    if Re.boundary prev (Re.head s) then
      match digits n s with
      | Some (group, rest) =>
          if Re.boundary (last prev group) (Re.head rest) then Some group
          else None
      | None => None
      end
    else None.

(** [re.search]: the match at the leftmost position that has one. *)
Fixpoint search (pattern : Pattern) (prev : option ascii) (s : string)
  : option string :=
  match pattern prev s with
  | Some group => Some group
  | None =>
      match s with
      | EmptyString => None
      | String c rest => search pattern (Some c) rest
      end
  end.

Definition patterns : list (Pattern * nat) :=
  [ (v_four_digits, 4%nat);
    (vintage_four_digits, 4%nat);
    (v_two_digits_space, 2%nat);
    (v_two_digits_end, 2%nat);
    (standalone_digits 4, 4%nat);
    (standalone_digits 2, 2%nat) ].

(** [int(year)] of a text of digits. *)
Definition int (year : string) : nat :=
  fold_left (fun n c => (10 * n + (code c - 48))%nat) (list_ascii_of_string year) 0%nat.

(** The loop over the patterns: the year, [None], or what was raised. *)
Fixpoint first_year (patterns : list (Pattern * nat)) (commodity_name : string)
  : option string + string :=
  match patterns with
  | [] => inl None
  | (pattern, digits) :: rest =>
      match search pattern None commodity_name with
      | Some year =>
          if (digits =? 2)%nat then
            let year_int := int year in
            if (20 <=? year_int)%nat && (year_int <=? 99)%nat
            then inl (Some ("20" ++ year))
            else if (year_int <? 20)%nat
                 then inr "Unknown format code 'd' for object of type 'str'"
                 else inl (Some year)
          else inl (Some year)
      | None => first_year rest commodity_name
      end
  end.

Definition extract_vintage_year (commodity_name : string)
  : option string + string :=
  first_year patterns commodity_name.

End VintageGroups.

(** ** Sample inputs

    Small concrete inputs at which the properties below are evaluated.
    Dates are day numbers.  [Sample.df_eval] stands in for [DataFrame.eval]
    on the one expression the samples evaluate; [Sample.fetch] stands in
    for the price source. *)

Module Sample.
Import FetchPrices.

Definition data : App.DataFrame Z :=
  {| App.columns :=
       ["As_of_Date_In_Form_YYMMDD"; "Open_Interest_All";
        "M_Money_Positions_Long_ALL"];
     App.rows := [3; 10; 17]%Z |}.

Definition short_to_technical : AliasMap :=
  Translator.build_short_to_technical
    ["Open_Interest_All"; "M_Money_Positions_Long_ALL"].

Definition df_eval (d : App.DataFrame Z) (formula : string) : list Z + string :=
  if String.eqb formula "Open_Interest_All+1"
  then inl (map (fun _ => 1%Z) (App.rows d))
  else inr "invalid syntax".

Definition price (day : Z) : PriceRow nat :=
  {| DATE := Some day; Commodity_Name := Some "GOLD"; cells := 1800 |}.

(** Daily prices around weekly report dates. *)
Definition price_data : PriceFrame nat :=
  {| pcolumns := ["DATE"; "CLOSE"; "Commodity_Name"];
     prows := map price [3; 4; 5; 10; 17; 18]%Z |}.

Definition fetched_row (day : Z) : PriceRow nat :=
  {| DATE := Some day; Commodity_Name := None; cells := 1800 |}.

Definition series : PriceFrame nat :=
  {| pcolumns := ["DATE"; "CLOSE"]; prows := [fetched_row 3; fetched_row 4] |}.

Definition fetch (ticker : string) (start_date end_date : Z) : PriceFrame nat :=
  if String.eqb ticker "GC=F" then series else empty_frame.

Definition mapping : App.PriceMapping :=
  {| App.ticker_symbol := Some "GC=F";
     App.ticker_type := Some "futures";
     App.verified := true |}.

(** A database in which no price was ever saved. *)
Definition fresh : Database nat := {| commodity_prices := None |}.

Definition stored_row (day : Z) : PriceRow nat :=
  {| DATE := Some day; Commodity_Name := Some "GOLD"; cells := 1800 |}.

Definition saved_once : Database nat :=
  {| commodity_prices :=
       Some {| pcolumns := ["DATE"; "CLOSE"; "Commodity_Name"];
               prows := [stored_row 3; stored_row 4] |} |}.

Definition saved_twice : Database nat :=
  {| commodity_prices :=
       Some {| pcolumns := ["DATE"; "CLOSE"; "Commodity_Name"];
               prows := [stored_row 3; stored_row 4; stored_row 3; stored_row 4] |} |}.

(** The integer [n] as a float64. *)
Definition number (n : Z) : spec_float := binary_normalize 53 1024 n 0 false.

(** Positions with a week of zero open interest. *)
Definition positions_row (mm_long mm_short open_interest : Z)
  : PandasEval.FloatRow :=
  fun column =>
    if String.eqb column "MM_Long" then number mm_long
    else if String.eqb column "MM_Short" then number mm_short
    else if String.eqb column "Open_Interest_All" then number open_interest
    else S754_nan.

Definition positions : App.DataFrame PandasEval.FloatRow :=
  {| App.columns := ["MM_Long"; "MM_Short"; "Open_Interest_All"];
     App.rows := [positions_row 5 3 0; positions_row 5 3 4; positions_row 3 3 0] |}.

(** A stand-in for [DataFrame.eval] outside the arithmetic fragment. *)
Definition unsupported (d : App.DataFrame PandasEval.FloatRow) (text : string)
  : list spec_float + string :=
  inr "not supported".


(** [Sample.df_eval], refusing text with a character outside the
    whitelist. *)
Definition guarded_eval (d : App.DataFrame Z) (formula : string) : list Z + string :=
  if PyStr.all_chars whitelisted_or_bracket formula
  then df_eval d formula
  else inr "unexpected character".

(** A price source that is down. *)
Definition no_source (ticker : string) (start_date end_date : Z) : PriceFrame nat :=
  empty_frame.

Definition silver_row (day : Z) : PriceRow nat :=
  {| DATE := Some day; Commodity_Name := Some "SILVER"; cells := 23 |}.

Definition silver_only : Database nat :=
  {| commodity_prices :=
       Some {| pcolumns := ["DATE"; "CLOSE"; "Commodity_Name"];
               prows := [silver_row 4; silver_row 3] |} |}.

Definition silver_and_gold : Database nat :=
  {| commodity_prices :=
       Some {| pcolumns := ["DATE"; "CLOSE"; "Commodity_Name"];
               prows := [silver_row 4; silver_row 3; stored_row 3; stored_row 4] |} |}.

Definition cached_gold : PriceFrame nat :=
  {| pcolumns := ["DATE"; "CLOSE"; "Commodity_Name"];
     prows := [stored_row 3; stored_row 4] |}.

(** A price source that has no futures quotes and an ETF series indexed
    by "Date". *)
Definition yahoo (ticker : string) (query : Fetching.HistoryQuery)
  : (option string * PriceFrame nat) + string :=
  if String.eqb ticker "GLD" then
    inl (Some "Date",
         {| pcolumns := ["Close"; "Stock Splits"];
            prows := [fetched_row 3; fetched_row 4] |})
  else if String.eqb ticker "GC=F" then inr "possibly delisted"
  else inl (None, empty_frame).

(** A database with three commodities in [cot_data] and one mapping, made
    by hand. *)
Definition silver_mapping : PriceMappingDb.MappingRow :=
  {| PriceMappingDb.commodity_name := "SILVER";
     PriceMappingDb.ticker_symbol := Some "SLV";
     PriceMappingDb.ticker_type := Some "etf";
     PriceMappingDb.auto_mapped := 0;
     PriceMappingDb.verified := 1;
     PriceMappingDb.notes := Some "checked";
     PriceMappingDb.created_at := 5;
     PriceMappingDb.updated_at := 5 |}.

Definition mapped_db : PriceMappingDb.Database :=
  {| PriceMappingDb.cot_commodity_names :=
       Some (map Some ["GOLD - COMEX"; "SILVER"; "WIDGETS"]);
     PriceMappingDb.commodity_price_mapping := Some [silver_mapping] |}.

Definition clock (commodity : string) : Z := 9.

End Sample.

(** * Properties *)

(** ** Characters *)

Ltac each_char c :=
  destruct c as [[] [] [] [] [] [] [] []]; vm_compute; try reflexivity; try discriminate.

Lemma allowed_chars_closed_form (c : ascii) :
  PyStr.mem_char c App.allowed_chars = whitelisted_or_bracket c.
Proof. each_char c. Qed.

Lemma is_word_lower (c : ascii) : Re.is_word (PyStr.lower c) = Re.is_word c.
Proof. each_char c. Qed.

Lemma ci_eqb_word (a b : ascii) :
  PyStr.ci_eqb a b = true -> Re.is_word a = Re.is_word b.
Proof.
  unfold PyStr.ci_eqb. intros H. apply Ascii.eqb_eq in H.
  rewrite <- (is_word_lower a), <- (is_word_lower b), H. reflexivity.
Qed.

Lemma ident_start_is_word (c : ascii) :
  Re.is_ident_start c = true -> Re.is_word c = true.
Proof.
  unfold Re.is_ident_start, Re.is_word. intros H.
  apply orb_true_iff in H as [H | H]; rewrite H; simpl; auto using orb_true_r.
Qed.

Lemma all_chars_ext (p q : ascii -> bool) (s : string) :
  (forall c, p c = q c) -> PyStr.all_chars p s = PyStr.all_chars q s.
Proof.
  intros E. induction s as [|c s IH]; simpl; [reflexivity|].
  rewrite E, IH. reflexivity.
Qed.

Lemma truthy_false (s : string) : PyStr.truthy s = false <-> s = "".
Proof. destruct s; simpl; split; congruence. Qed.

Lemma blank_test (formula : string) :
  negb (PyStr.truthy formula) || negb (PyStr.truthy (PyStr.strip formula)) = true
  <-> PyStr.strip formula = "".
Proof.
  rewrite orb_true_iff, !negb_true_iff, !truthy_false. split.
  - intros [-> | H]; [reflexivity | exact H].
  - auto.
Qed.

Lemma not_blank_test (formula : string) :
  PyStr.strip formula <> "" ->
  negb (PyStr.truthy formula) || negb (PyStr.truthy (PyStr.strip formula)) = false.
Proof.
  intros H. apply not_true_is_false. rewrite blank_test. exact H.
Qed.

(** ** The search loops end within their fuel *)

Lemma match_literal_length (label : string) :
  forall s prev last rest,
    Re.match_literal label s prev = Some (last, rest) ->
    String.length rest + String.length label = String.length s.
Proof.
  induction label as [|a label IH]; simpl; intros s prev last rest H.
  - inversion H; subst. lia.
  - destruct s as [|c s]; [discriminate|].
    destruct (PyStr.ci_eqb a c); [|discriminate].
    apply IH in H. simpl. lia.
Qed.

Lemma match_word_length (label : string) (prev : option ascii) (s : string)
    (last : option ascii) (rest : string) :
  Re.match_word label prev s = Some (last, rest) ->
  String.length rest + String.length label = String.length s.
Proof.
  unfold Re.match_word. destruct (Re.boundary prev (Re.head s)); [|discriminate].
  destruct (Re.match_literal label s prev) as [[l r]|] eqn:E; [|discriminate].
  destruct (Re.boundary l (Re.head r)); [|discriminate].
  intros H; inversion H; subst. eapply match_literal_length, E.
Qed.

(** The substitution loop ends before its fuel does: any fuel above the
    length of the text gives the same result. *)
Lemma sub_word_from_fuel (label repl : string) (fuel : nat) :
  forall fuel' prev s,
    String.length s < fuel -> String.length s < fuel' ->
    Re.sub_word_from fuel label repl prev s
    = Re.sub_word_from fuel' label repl prev s.
Proof.
  induction fuel as [|fuel IH]; intros [|fuel'] prev s H H'; try lia.
  cbn [Re.sub_word_from]. cbv zeta.
  destruct (Re.match_word label prev s) as [[last rest]|] eqn:E.
  - destruct label as [|a label].
    + destruct s as [|c s]; [reflexivity|].
      simpl in H, H'. rewrite (IH fuel') by lia. reflexivity.
    + apply match_word_length in E. simpl in E.
      rewrite (IH fuel') by lia. reflexivity.
  - destruct s as [|c s]; [reflexivity|].
    simpl in H, H'. rewrite (IH fuel') by lia. reflexivity.
Qed.

Lemma lstrip_length (s : string) :
  String.length (PyStr.lstrip s) <= String.length s.
Proof.
  induction s as [|c s IH]; simpl; [lia|].
  destruct (PyStr.is_space c); simpl; lia.
Qed.

Lemma sub_operator_spaces_from_fuel (fuel : nat) :
  forall fuel' s,
    String.length s < fuel -> String.length s < fuel' ->
    Re.sub_operator_spaces_from fuel s = Re.sub_operator_spaces_from fuel' s.
Proof.
  induction fuel as [|fuel IH]; intros [|fuel'] s H H'; try lia.
  cbn [Re.sub_operator_spaces_from].
  destruct s as [|c s]; [reflexivity|].
  pose proof (lstrip_length (String c s)) as Hl.
  destruct (PyStr.lstrip (String c s)) as [|o after] eqn:E.
  - simpl in H, H'. rewrite (IH fuel') by lia. reflexivity.
  - pose proof (lstrip_length after) as Ha. simpl in H, H', Hl.
    destruct (Re.is_operator o); rewrite (IH fuel') by lia; reflexivity.
Qed.

(** ** The translator *)

Lemma insert_longest_first_perm (p : string * string) (l : AliasMap) :
  Permutation (p :: l) (Translator.insert_longest_first p l).
Proof.
  induction l as [|q l IH]; simpl; [reflexivity|].
  destruct (String.length (fst q) <=? String.length (fst p))%nat; [reflexivity|].
  rewrite perm_swap. constructor. exact IH.
Qed.

Lemma insert_longest_first_sorted (p : string * string) (l : AliasMap) :
  StronglySorted longer_first l ->
  StronglySorted longer_first (Translator.insert_longest_first p l).
Proof.
  induction 1 as [|q l Hs IH Hq]; simpl.
  - repeat constructor.
  - destruct (String.length (fst q) <=? String.length (fst p))%nat eqn:E.
    + apply Nat.leb_le in E. constructor; [constructor; assumption|].
      constructor; [exact E|].
      rewrite Forall_forall in *. intros r Hr. specialize (Hq r Hr).
      unfold longer_first in *. lia.
    + apply Nat.leb_gt in E. constructor; [exact IH|].
      eapply Permutation_Forall; [apply insert_longest_first_perm|].
      constructor; [unfold longer_first; lia | exact Hq].
Qed.

(** The sort does what its comment says: the entries of the map, longest
    short name first. *)
Lemma sorted_short_names_longest_first (m : AliasMap) :
  StronglySorted longer_first (Translator.sorted_short_names m)
  /\ Permutation m (Translator.sorted_short_names m).
Proof.
  unfold Translator.sorted_short_names. induction m as [|p m [IHs IHp]]; simpl.
  - split; constructor.
  - split.
    + apply insert_longest_first_sorted, IHs.
    + rewrite <- insert_longest_first_perm. constructor. exact IHp.
Qed.

(** Where the pattern goes wrong: a short name that begins with a
    character outside [\w] cannot match at the start of the text or after
    another such character, because [\b] asks for a word character on one
    side. *)
Lemma match_word_needs_word_edge (c : ascii) (label : string)
    (prev : option ascii) (s : string) :
  Re.is_word c = false ->
  Re.word_opt prev = false ->
  Re.match_word (String c label) prev s = None.
Proof.
  intros Hc Hp. unfold Re.match_word, Re.boundary. rewrite Hp. simpl xorb.
  destruct s as [|a s]; simpl; [reflexivity|].
  destruct (Re.is_word a) eqn:Ha; [|reflexivity].
  destruct (PyStr.ci_eqb c a) eqn:E; [|reflexivity].
  apply ci_eqb_word in E. congruence.
Qed.

(** C1 (the code at the claim's own input).  With the aliases "OI" and
    "% OI MM Long", translating "% OI MM Long - OI" does not replace the
    long label as a unit: its pattern never matches, and "OI" is then
    substituted inside it. *)
Theorem C1_long_label_is_corrupted :
  Translator.convert_short_names_to_technical "% OI MM Long - OI"
    [("OI", "Open_Interest_All"); ("% OI MM Long", "Pct_of_OI_M_Money_Long_All")]
  = "% Open_Interest_All MM Long - Open_Interest_All".
Proof. vm_compute. reflexivity. Qed.

(** The example formula of the sidebar's own right-axis input, with the
    short names of [COLUMN_MAPPING]: the percent labels are not resolved. *)
Example sidebar_example_is_not_translated :
  Translator.convert_short_names_to_technical "% OI MM Long - % OI MM Short"
    (Translator.build_short_to_technical
       ["Open_Interest_All"; "M_Money_Positions_Long_ALL";
        "M_Money_Positions_Short_ALL"; "Pct_of_OI_M_Money_Long_All";
        "Pct_of_OI_M_Money_Short_All"])
  = "% OI M_Money_Positions_Long_ALL - % OI M_Money_Positions_Short_ALL".
Proof. vm_compute. reflexivity. Qed.

Example translate_plain :
  Translator.convert_short_names_to_technical "(mm long - MM Short) / Open Interest"
    (Translator.build_short_to_technical
       ["Open_Interest_All"; "M_Money_Positions_Long_ALL";
        "M_Money_Positions_Short_ALL"])
  = "(M_Money_Positions_Long_ALL - M_Money_Positions_Short_ALL) / Open_Interest_All".
Proof. vm_compute. reflexivity. Qed.

(** ** The token pattern *)

Lemma span_length (p : ascii -> bool) (s : string) :
  forall prev run last rest,
    Re.span p prev s = (run, last, rest) ->
    String.length rest <= String.length s.
Proof.
  induction s as [|c s IH]; simpl; intros prev run last rest H.
  - inversion H. simpl. lia.
  - destruct (p c).
    + destruct (Re.span p (Some c) s) as [[run' last'] rest'] eqn:E.
      inversion H; subst. apply IH in E. lia.
    + inversion H; subst. simpl. lia.
Qed.

Lemma span_stops (p : ascii -> bool) (s : string) :
  forall prev run last rest,
    Re.span p prev s = (run, last, rest) ->
    match rest with EmptyString => True | String c _ => p c = false end.
Proof.
  induction s as [|c s IH]; simpl; intros prev run last rest H.
  - inversion H. exact I.
  - destruct (p c) eqn:Hc.
    + destruct (Re.span p (Some c) s) as [[run' last'] rest'] eqn:E.
      inversion H; subst. eapply IH, E.
    + inversion H; subst. exact Hc.
Qed.

Lemma span_last_word (s : string) :
  forall prev run last rest,
    Re.span Re.is_ident_char prev s = (run, last, rest) ->
    Re.word_opt prev = true -> Re.word_opt last = true.
Proof.
  induction s as [|c s IH]; simpl; intros prev run last rest H Hp.
  - inversion H; subst. exact Hp.
  - destruct (Re.is_ident_char c) eqn:Hc.
    + destruct (Re.span Re.is_ident_char (Some c) s) as [[run' last'] rest'] eqn:E.
      inversion H; subst. eapply IH; [exact E|]. exact Hc.
    + inversion H; subst. exact Hp.
Qed.

Lemma append_assoc_char (cur : string) (c : ascii) (run : string) :
  (cur ++ String c EmptyString) ++ run = cur ++ String c run.
Proof. induction cur; simpl; congruence. Qed.

Lemma append_empty_r (s : string) : s ++ "" = s.
Proof. induction s; simpl; congruence. Qed.

Lemma words_from_span (s : string) :
  forall prev run last rest cur,
    Re.span Re.is_ident_char prev s = (run, last, rest) ->
    Spec.words_from cur s = Spec.words_from (cur ++ run) rest.
Proof.
  induction s as [|c s IH]; simpl; intros prev run last rest cur H.
  - inversion H; subst. rewrite append_empty_r. reflexivity.
  - change (PyStr.is_alpha c || PyStr.is_digit c || (c =? "_")%char)
      with (Re.is_ident_char c) in *.
    destruct (Re.is_ident_char c) eqn:Hc.
    + destruct (Re.span Re.is_ident_char (Some c) s) as [[run' last'] rest'] eqn:E.
      inversion H; subst. rewrite (IH _ _ _ _ _ E), append_assoc_char. reflexivity.
    + inversion H; subst. rewrite append_empty_r. simpl.
      change (PyStr.is_alpha c || PyStr.is_digit c || (c =? "_")%char)
        with (Re.is_ident_char c).
      rewrite Hc. reflexivity.
Qed.

Lemma words_from_stopped (cur rest : string) :
  match rest with EmptyString => True | String c _ => Re.is_ident_char c = false end ->
  Spec.words_from cur rest = (Spec.flush cur ++ Spec.words_from "" rest)%list.
Proof.
  destruct rest as [|c r]; simpl; intros H.
  - rewrite app_nil_r. reflexivity.
  - change (PyStr.is_alpha c || PyStr.is_digit c || (c =? "_")%char)
      with (Re.is_ident_char c).
    rewrite H. reflexivity.
Qed.

Lemma findall_ident_from_words (fuel : nat) :
  forall prev s,
    String.length s < fuel ->
    Re.findall_ident_from fuel prev s =
      filter Spec.starts_like_identifier
        (Spec.words_from ""
           (if Re.word_opt prev then snd (Re.span Re.is_ident_char prev s) else s)).
Proof.
  induction fuel as [|fuel IH]; intros prev s Hlen; [lia|].
  destruct s as [|c s].
  - simpl. destruct (Re.word_opt prev); reflexivity.
  - simpl in Hlen. cbn [Re.findall_ident_from].
    unfold Re.boundary. cbn [Re.word_opt].
    destruct (Re.word_opt prev) eqn:Hp; destruct (Re.is_word c) eqn:Hc; cbn [xorb andb].
    + (* inside a word *)
      rewrite IH by lia. cbn [Re.word_opt]. rewrite Hc.
      cbn [Re.span]. change (Re.is_ident_char c) with (Re.is_word c). rewrite Hc.
      destruct (Re.span Re.is_ident_char (Some c) s) as [[run last] rest]. reflexivity.
    + (* the word before has ended *)
      assert (Hs : Re.is_ident_start c = false).
      { destruct (Re.is_ident_start c) eqn:E; [|reflexivity].
        apply ident_start_is_word in E. congruence. }
      rewrite Hs. rewrite IH by lia. cbn [Re.word_opt]. rewrite Hc.
      cbn [Re.span]. change (Re.is_ident_char c) with (Re.is_word c). rewrite Hc.
      cbn [snd Spec.words_from].
      change (PyStr.is_alpha c || PyStr.is_digit c || (c =? "_")%char)
        with (Re.is_word c). rewrite Hc. reflexivity.
    + (* a word starts here *)
      destruct (Re.span Re.is_ident_char (Some c) s) as [[run last] rest] eqn:E.
      pose proof (span_length _ _ _ _ _ _ E) as Hl.
      pose proof (span_stops _ _ _ _ _ _ E) as Hstop.
      pose proof (span_last_word _ _ _ _ _ E Hc) as Hlast.
      cbn [Spec.words_from].
      change (PyStr.is_alpha c || PyStr.is_digit c || (c =? "_")%char)
        with (Re.is_word c). rewrite Hc.
      rewrite (words_from_span _ _ _ _ _ _ E), (words_from_stopped _ _ Hstop).
      cbn [append Spec.flush app filter Spec.starts_like_identifier].
      change (PyStr.is_alpha c || (c =? "_")%char) with (Re.is_ident_start c).
      assert (Hrest : snd (Re.span Re.is_ident_char last rest) = rest).
      { destruct rest as [|d r]; [reflexivity|]. cbn [Re.span]. rewrite Hstop. reflexivity. }
      destruct (Re.is_ident_start c) eqn:Hs.
      * assert (Hb : xorb (Re.word_opt last) (Re.word_opt (Re.head rest)) = true).
        { rewrite Hlast. destruct rest as [|d r]; [reflexivity|].
          cbn [Re.head Re.word_opt]. change (Re.is_word d) with (Re.is_ident_char d).
          rewrite Hstop. reflexivity. }
        rewrite Hb. rewrite IH by lia. rewrite Hlast, Hrest. reflexivity.
      * rewrite IH by lia. cbn [Re.word_opt]. rewrite Hc.
        rewrite E. reflexivity.
    + (* between words *)
      rewrite IH by lia. cbn [Re.word_opt]. rewrite Hc.
      cbn [Spec.words_from].
      change (PyStr.is_alpha c || PyStr.is_digit c || (c =? "_")%char)
        with (Re.is_word c). rewrite Hc. reflexivity.
Qed.

(** The pattern of the validator finds exactly the words the
    specification describes. *)
Lemma findall_ident_is_identifier_tokens (s : string) :
  Re.findall_ident s = Spec.identifier_tokens s.
Proof.
  unfold Re.findall_ident, Spec.identifier_tokens.
  rewrite findall_ident_from_words by lia. reflexivity.
Qed.

(** ** The validator and the evaluator *)

Section Evaluator.
Context {Row Value : Type}.
Variable df_eval : App.DataFrame Row -> string -> Value + string.

(** [evaluate_formula] on a formula that is not blank, stage by stage. *)
Lemma evaluate_formula_stages (formula : string) (data : App.DataFrame Row)
    (m : AliasMap) :
  PyStr.strip formula <> "" ->
  App.evaluate_formula df_eval formula data m =
    let translated :=
      Translator.convert_short_names_to_technical (PyStr.strip formula) m in
    if PyStr.all_chars (fun c => PyStr.mem_char c App.allowed_chars) translated
    then
      match offending_tokens (App.columns data) translated with
      | [] => App.try_eval df_eval data translated
      | _ :: _ =>
          (None,
           Some ("Columns not found: "
                 ++ PyStr.join ", " (offending_tokens (App.columns data) translated)))
      end
    else (None, Some "Invalid characters in formula").
Proof.
  intros Hnb. unfold App.evaluate_formula, offending_tokens.
  rewrite (not_blank_test _ Hnb). cbv zeta.
  destruct (PyStr.all_chars _ _); simpl negb; cbv iota; [|reflexivity].
  destruct (filter _ (Re.findall_ident _)) as [|t ts] eqn:E; [reflexivity|].
  destruct (filter _ (t :: ts)); reflexivity.
Qed.

Lemma evaluate_formula_blank (formula : string) (data : App.DataFrame Row)
    (m : AliasMap) :
  PyStr.strip formula = "" ->
  App.evaluate_formula df_eval formula data m = (None, None).
Proof.
  intros Hb. unfold App.evaluate_formula.
  apply blank_test in Hb. rewrite Hb. reflexivity.
Qed.

Lemma try_eval_one_populated (data : App.DataFrame Row) (formula : string) :
  one_populated (App.try_eval df_eval data formula).
Proof. unfold App.try_eval. destruct (df_eval _ _); exact I. Qed.

(** C2 (amended).  A formula that is blank (empty once trimmed) is a
    no-op and yields neither a series nor an error; every other formula
    yields exactly one of the two. *)
Theorem C2_result_contract (formula : string) (data : App.DataFrame Row)
    (m : AliasMap) :
  (PyStr.strip formula = "" ->
   App.evaluate_formula df_eval formula data m = (None, None))
  /\ (PyStr.strip formula <> "" ->
      one_populated (App.evaluate_formula df_eval formula data m)).
Proof.
  split; [apply evaluate_formula_blank|].
  intros Hnb. rewrite (evaluate_formula_stages _ _ _ Hnb). cbv zeta.
  destruct (PyStr.all_chars _ _); [|exact I].
  destruct (offending_tokens _ _); [apply try_eval_one_populated | exact I].
Qed.

(** C4 (amended).  A formula that is not blank is rejected with
    "Invalid characters in formula" exactly when its translation holds a
    character other than [+ - * / ( ) [ ] . ,], a digit, a letter, an
    underscore or a space.  The condition does not mention [data.eval]:
    the rejection comes before any evaluation. *)
Theorem C4_character_whitelist (formula : string) (data : App.DataFrame Row)
    (m : AliasMap) :
  PyStr.strip formula <> "" ->
  (App.evaluate_formula df_eval formula data m
     = (None, Some "Invalid characters in formula")
   <-> PyStr.all_chars whitelisted_or_bracket
         (Translator.convert_short_names_to_technical (PyStr.strip formula) m)
       = false).
Proof.
  intros Hnb. rewrite (evaluate_formula_stages _ _ _ Hnb). cbv zeta.
  rewrite (all_chars_ext _ whitelisted_or_bracket _ allowed_chars_closed_form).
  destruct (PyStr.all_chars whitelisted_or_bracket _).
  - split; [|discriminate]. intros H. exfalso.
    destruct (offending_tokens _ _).
    + unfold App.try_eval in H. destruct (df_eval _ _); discriminate H.
    + discriminate H.
  - split; reflexivity.
Qed.

End Evaluator.

(** ** Unresolved column references *)

Lemma filter_twice {A : Type} (p q : A -> bool) (l : list A) :
  filter q (filter p l) = filter (fun a => p a && q a) l.
Proof.
  induction l as [|a l IH]; simpl; [reflexivity|].
  destruct (p a); simpl; [destruct (q a)|]; rewrite IH; reflexivity.
Qed.

Lemma append_assoc (a b c : string) : (a ++ b) ++ c = a ++ (b ++ c).
Proof. induction a; simpl; congruence. Qed.

(** Every element of a joined list is spelled out in the result. *)
Lemma join_names_each (sep : string) (xs : list string) (t : string) :
  In t xs -> exists before after, PyStr.join sep xs = before ++ t ++ after.
Proof.
  induction xs as [|a xs IH]; [intros []|].
  intros [-> | Hin].
  - destruct xs as [|b xs].
    + exists "", "". simpl. rewrite append_empty_r. reflexivity.
    + exists "", (sep ++ PyStr.join sep (b :: xs)). reflexivity.
  - destruct xs as [|b xs]; [destruct Hin|].
    destruct (IH Hin) as (before & after & E).
    exists (a ++ sep ++ before), after.
    change (PyStr.join sep (a :: b :: xs)) with (a ++ sep ++ PyStr.join sep (b :: xs)).
    rewrite E, !append_assoc. reflexivity.
Qed.

Section TokenCheck.
Context {Row Value : Type}.
Variable df_eval : App.DataFrame Row -> string -> Value + string.

(** C5.  For a formula whose translation passes the character check, the
    offending tokens are the identifier-like words (runs of letters,
    digits and underscores that start with a letter or an underscore)
    that are neither a column of the data nor one of [min], [max],
    [sum], [abs], [round].  If there is one, the formula is rejected with
    "Columns not found: " followed by all of them, each spelled out;
    if there is none, the formula goes on to evaluation. *)
Theorem C5_unresolved_columns (formula : string) (data : App.DataFrame Row)
    (m : AliasMap) :
  PyStr.strip formula <> "" ->
  let translated :=
    Translator.convert_short_names_to_technical (PyStr.strip formula) m in
  PyStr.all_chars whitelisted_or_bracket translated = true ->
  let offending :=
    filter (fun tok => negb (PyStr.mem_str tok (App.columns data))
                       && negb (PyStr.mem_str tok App.keywords))
           (Spec.identifier_tokens translated) in
  (offending <> [] ->
   App.evaluate_formula df_eval formula data m
     = (None, Some ("Columns not found: " ++ PyStr.join ", " offending))
   /\ forall tok, In tok offending ->
        exists before after,
          "Columns not found: " ++ PyStr.join ", " offending
            = "Columns not found: " ++ before ++ tok ++ after)
  /\ (offending = [] ->
      App.evaluate_formula df_eval formula data m
        = App.try_eval df_eval data translated).
Proof.
  intros Hnb translated Hchars offending.
  rewrite (evaluate_formula_stages _ _ _ _ Hnb). cbv zeta.
  fold translated.
  rewrite (all_chars_ext _ whitelisted_or_bracket _ allowed_chars_closed_form), Hchars.
  assert (E : offending_tokens (App.columns data) translated = offending).
  { unfold offending_tokens, offending.
    rewrite filter_twice, findall_ident_is_identifier_tokens. reflexivity. }
  rewrite E. split.
  - intros Hne. split.
    + destruct offending; [contradiction|reflexivity].
    + intros tok Hin. destruct (join_names_each ", " offending tok Hin) as (b & a & J).
      exists b, a. rewrite J. reflexivity.
  - intros ->. reflexivity.
Qed.

(** The two rejections the specification lists: the formula is already
    written with technical names, so the alias map is empty. *)
Example drop_table_is_rejected (data : App.DataFrame Row) :
  App.evaluate_formula df_eval "Open_Interest_All; DROP TABLE x" data []
  = (None, Some "Invalid characters in formula").
Proof.
  rewrite evaluate_formula_stages by (vm_compute; discriminate).
  reflexivity.
Qed.

Example not_a_real_column_is_rejected (data : App.DataFrame Row) :
  PyStr.mem_str "NotARealColumn" (App.columns data) = false ->
  App.evaluate_formula df_eval "NotARealColumn + 1" data []
  = (None, Some "Columns not found: NotARealColumn").
Proof.
  intros H. rewrite evaluate_formula_stages by (vm_compute; discriminate).
  cbv zeta.
  change (Translator.convert_short_names_to_technical
            (PyStr.strip "NotARealColumn + 1") [])
    with "NotARealColumn + 1".
  change (PyStr.all_chars (fun c => PyStr.mem_char c App.allowed_chars)
            "NotARealColumn + 1") with true.
  unfold offending_tokens.
  change (Re.findall_ident "NotARealColumn + 1") with ["NotARealColumn"].
  cbn [filter]. rewrite H. reflexivity.
Qed.

End TokenCheck.

(** ** Row-wise evaluation *)

Lemma value_of_a_missing_input (e : PandasEval.Expr) (row : PandasEval.FloatRow)
    (column : string) :
  In column (PandasEval.names e) ->
  PandasEval.is_nan (row column) = true ->
  PandasEval.value e row = S754_nan.
Proof.
  induction e as [name|a IH|a IH|a IHa b IHb|a IHa b IHb|a IHa b IHb|a IHa b IHb];
    cbn [PandasEval.names PandasEval.value]; intros Hin Hnan.
  - destruct Hin as [<- | []]. destruct (row name); try discriminate. reflexivity.
  - rewrite (IH Hin Hnan). reflexivity.
  - exact (IH Hin Hnan).
  - apply in_app_or in Hin. destruct Hin as [H | H].
    + rewrite (IHa H Hnan). reflexivity.
    + rewrite (IHb H Hnan). destruct (PandasEval.value a row); reflexivity.
  - apply in_app_or in Hin. destruct Hin as [H | H].
    + rewrite (IHa H Hnan). reflexivity.
    + rewrite (IHb H Hnan). destruct (PandasEval.value a row); reflexivity.
  - apply in_app_or in Hin. destruct Hin as [H | H].
    + rewrite (IHa H Hnan). reflexivity.
    + rewrite (IHb H Hnan). destruct (PandasEval.value a row); reflexivity.
  - apply in_app_or in Hin. destruct Hin as [H | H].
    + rewrite (IHa H Hnan). reflexivity.
    + rewrite (IHb H Hnan). destruct (PandasEval.value a row); reflexivity.
Qed.

Lemma quotient_by_nan (dividend : spec_float) :
  SFdiv 53 1024 dividend S754_nan = S754_nan.
Proof. destruct dividend; reflexivity. Qed.

Lemma quotient_by_zero (dividend : spec_float) (s : bool) :
  SFdiv 53 1024 dividend (S754_zero s)
  = match dividend with
    | S754_zero _ | S754_nan => S754_nan
    | S754_infinity sx | S754_finite sx _ _ => S754_infinity (xorb sx s)
    end.
Proof. destruct dividend; reflexivity. Qed.


(** ** The dual-axis chart *)

Section Composer.
Context {Row Value Cells : Type}.
Variable row_date : Row -> Timestamp.
Variable df_eval : App.DataFrame Row -> string -> Value + string.
Variable fetch_historical_prices : string -> Z -> Z -> FetchPrices.PriceFrame Cells.

(** An error message of [evaluate_formula] is never the empty string. *)
Lemma evaluate_formula_error_truthy (formula : string)
    (data : App.DataFrame Row) (m : AliasMap) (r : option Value) (e : string) :
  App.evaluate_formula df_eval formula data m = (r, Some e) ->
  r = None /\ PyStr.truthy e = true.
Proof.
  destruct (string_dec (PyStr.strip formula) "") as [Hb | Hnb].
  - rewrite (evaluate_formula_blank _ _ _ _ Hb). discriminate.
  - rewrite (evaluate_formula_stages _ _ _ _ Hnb). cbv zeta.
    destruct (PyStr.all_chars _ _).
    + destruct (offending_tokens _ _).
      * unfold App.try_eval. destruct (df_eval _ _); intros H; inversion H.
        split; reflexivity.
      * intros H; inversion H. split; reflexivity.
    + intros H; inversion H. split; reflexivity.
Qed.

(** The per-axis block keeps what [evaluate_formula] returned. *)
Lemma formula_stage_eq (formula : string) (data : App.DataFrame Row)
    (m : AliasMap) :
  App.formula_stage df_eval formula data m
  = App.evaluate_formula df_eval formula data m.
Proof.
  unfold App.formula_stage. destruct (PyStr.truthy formula) eqn:T.
  - destruct (App.evaluate_formula df_eval formula data m) as [r [e|]] eqn:E;
      [|reflexivity].
    destruct (evaluate_formula_error_truthy _ _ _ _ _ E) as [-> ->]. reflexivity.
  - apply truthy_false in T. subst formula.
    rewrite evaluate_formula_blank; reflexivity.
Qed.

(** C6.  The composer shows the prompt exactly when no column is
    selected on either axis and neither formula produced a series;
    otherwise it emits a figure, which then has one trace per selected
    column and per evaluated formula, so at least one. *)
Theorem C6_nothing_to_render (left_formula right_formula : string)
    (left_axis_columns right_axis_columns : list string)
    (filtered_data : App.DataFrame Row) (m : AliasMap) :
  let series f := fst (App.evaluate_formula df_eval f filtered_data m) in
  let nothing :=
    left_axis_columns = [] /\ right_axis_columns = []
    /\ series left_formula = None /\ series right_formula = None in
  let shown :=
    App.main_chart row_date df_eval left_formula right_formula
      left_axis_columns right_axis_columns filtered_data m in
  (nothing ->
   shown = App.info "Select columns or enter formulas in the sidebar to visualize")
  /\ (~ nothing ->
      exists traces errors,
        shown = App.plotly_chart traces errors
        /\ traces <> []
        /\ List.length traces
           = ((if App.is_some (series left_formula) then 1 else 0)
              + List.length left_axis_columns
              + (if App.is_some (series right_formula) then 1 else 0)
              + List.length right_axis_columns)%nat).
Proof.
  intros series nothing shown. subst series nothing shown. cbv beta.
  unfold App.main_chart. rewrite !formula_stage_eq.
  destruct (App.evaluate_formula df_eval left_formula filtered_data m) as [l le].
  destruct (App.evaluate_formula df_eval right_formula filtered_data m) as [r re].
  cbn [fst]. split.
  - intros (-> & -> & -> & ->). reflexivity.
  - intros Hn.
    assert (Hsome : App.nonempty left_axis_columns || App.is_some l
                    || (App.nonempty right_axis_columns || App.is_some r) = true).
    { destruct left_axis_columns, right_axis_columns, l, r; try reflexivity.
      exfalso. apply Hn. repeat split. }
    rewrite Hsome. eexists _, _. split; [reflexivity|]. split.
    + destruct l; [discriminate|]. destruct left_axis_columns; [|discriminate].
      destruct r; [discriminate|]. destruct right_axis_columns; [|discriminate].
      discriminate Hsome.
    + unfold App.column_traces, App.formula_trace.
      rewrite !length_app, !length_map. destruct l, r; simpl; lia.
Qed.


End Composer.

(** ** The price window *)

Lemma series_min_spec (ts : list Timestamp) (lo : Z) :
  Frame.series_min ts = Some lo ->
  In (Some lo) ts /\ forall t, In (Some t) ts -> (lo <= t)%Z.
Proof.
  revert lo. induction ts as [|[x|] ts IH]; simpl; intros lo H.
  - discriminate.
  - destruct (Frame.series_min ts) as [m|] eqn:E.
    + inversion H; subst. destruct (IH m eq_refl) as [Hin Hle]. split.
      * destruct (Z.min_spec x m) as [[_ ->] | [_ ->]]; auto.
      * intros t [Ht | Ht]; [inversion Ht; lia | specialize (Hle t Ht); lia].
    + inversion H; subst. split; [auto|].
      intros t [Ht | Ht]; [inversion Ht; lia|].
      exfalso. clear -E Ht. induction ts as [|[y|] ts IH]; simpl in *.
      * destruct Ht.
      * destruct (Frame.series_min ts); discriminate.
      * destruct Ht as [Ht | Ht]; [discriminate | auto].
  - destruct (IH lo H) as [Hin Hle]. split; [auto|].
    intros t [Ht | Ht]; [discriminate | auto].
Qed.

Lemma series_max_spec (ts : list Timestamp) (hi : Z) :
  Frame.series_max ts = Some hi ->
  In (Some hi) ts /\ forall t, In (Some t) ts -> (t <= hi)%Z.
Proof.
  revert hi. induction ts as [|[x|] ts IH]; simpl; intros hi H.
  - discriminate.
  - destruct (Frame.series_max ts) as [m|] eqn:E.
    + inversion H; subst. destruct (IH m eq_refl) as [Hin Hle]. split.
      * destruct (Z.max_spec x m) as [[_ ->] | [_ ->]]; auto.
      * intros t [Ht | Ht]; [inversion Ht; lia | specialize (Hle t Ht); lia].
    + inversion H; subst. split; [auto|].
      intros t [Ht | Ht]; [inversion Ht; lia|].
      exfalso. clear -E Ht. induction ts as [|[y|] ts IH]; simpl in *.
      * destruct Ht.
      * destruct (Frame.series_max ts); discriminate.
      * destruct Ht as [Ht | Ht]; [discriminate | auto].
  - destruct (IH hi H) as [Hin Hle]. split; [auto|].
    intros t [Ht | Ht]; [discriminate | auto].
Qed.

Lemma series_min_some (ts : list Timestamp) (t : Z) :
  In (Some t) ts -> exists lo, Frame.series_min ts = Some lo.
Proof.
  induction ts as [|[x|] ts IH]; simpl; intros H.
  - destruct H.
  - destruct (Frame.series_min ts); eauto.
  - destruct H as [H | H]; [discriminate | auto].
Qed.

Lemma series_max_some (ts : list Timestamp) (t : Z) :
  In (Some t) ts -> exists hi, Frame.series_max ts = Some hi.
Proof.
  induction ts as [|[x|] ts IH]; simpl; intros H.
  - destruct H.
  - destruct (Frame.series_max ts); eauto.
  - destruct H as [H | H]; [discriminate | auto].
Qed.

Lemma in_range_pair {A : Type} (date : A -> Timestamp) (d0 d1 : Z) (r : A) :
  Frame.in_range date [d0; d1] r = true
  <-> exists t, date r = Some t /\ (d0 <= t <= d1)%Z.
Proof.
  unfold Frame.in_range, Frame.ge_date, Frame.le_date.
  destruct (date r) as [t|].
  - rewrite andb_true_iff, !Z.leb_le. split.
    + intros [H0 H1]. exists t. auto with zarith.
    + intros (t' & E & H). inversion E; subst. lia.
  - split; [discriminate|]. intros (t & E & _). discriminate.
Qed.

Lemma mem_str_nonempty (x : string) (l : list string) :
  PyStr.mem_str x l = true -> l <> [].
Proof. destruct l; [discriminate | discriminate]. Qed.

Lemma is_empty_false {Cells : Type} (df : FetchPrices.PriceFrame Cells) :
  FetchPrices.pcolumns df <> [] -> FetchPrices.prows df <> [] ->
  FetchPrices.is_empty df = false.
Proof.
  unfold FetchPrices.is_empty.
  destruct (FetchPrices.pcolumns df), (FetchPrices.prows df); congruence.
Qed.

Section PriceWindow.
Context {Row Cells : Type}.
Variable row_date : Row -> Timestamp.

(** C7 (amended).  With a complete range [d0, d1] picked in the sidebar
    and a price frame that has its DATE and CLOSE columns: the rows shown
    are exactly the price rows whose date lies in [d0, d1], compared by
    value; when there is one, the figure is drawn over them, and its x
    axis is set to the first and last report dates of the positioning
    rows kept by the same range, whatever the price rows are.  That
    pinned range lies inside [d0, d1] and its ends are report dates. *)
Theorem C7_price_window (d0 d1 : Z) (data : App.DataFrame Row)
    (price_data : FetchPrices.PriceFrame Cells) :
  let filtered_data := App.filter_by_date row_date [d0; d1] data in
  let shown := App.price_data_filtered [d0; d1] price_data in
  PyStr.mem_str "DATE" (FetchPrices.pcolumns price_data) = true ->
  PyStr.mem_str "CLOSE" (FetchPrices.pcolumns price_data) = true ->
  (forall r, In r (FetchPrices.prows shown) <->
             In r (FetchPrices.prows price_data)
             /\ exists t, FetchPrices.DATE r = Some t /\ (d0 <= t <= d1)%Z)
  /\ (FetchPrices.prows shown <> [] ->
      App.price_body row_date [d0; d1] filtered_data price_data
      = App.price_chart (map FetchPrices.DATE (FetchPrices.prows shown))
          (map FetchPrices.cells (FetchPrices.prows shown))
          (Frame.series_min (map row_date (App.rows filtered_data)),
           Frame.series_max (map row_date (App.rows filtered_data))))
  /\ (App.rows filtered_data <> [] ->
      exists lo hi,
        App.xaxis_range_of row_date filtered_data = (Some lo, Some hi)
        /\ (d0 <= lo <= hi)%Z /\ (hi <= d1)%Z
        /\ (exists r, In r (App.rows data) /\ row_date r = Some lo)
        /\ (exists r, In r (App.rows data) /\ row_date r = Some hi)).
Proof.
  intros filtered_data shown Hdate Hclose. split; [|split].
  - intros r. unfold shown, App.price_data_filtered. cbn [FetchPrices.prows].
    rewrite filter_In, in_range_pair. reflexivity.
  - intros Hne. unfold App.price_body.
    assert (Hrows : FetchPrices.prows price_data <> []).
    { intros E. apply Hne. unfold shown, App.price_data_filtered.
      cbn [FetchPrices.prows]. rewrite E. reflexivity. }
    rewrite (is_empty_false price_data (mem_str_nonempty _ _ Hdate) Hrows).
    cbn [negb App.needs_date_column andb]. rewrite Hdate. cbn [negb].
    fold shown.
    rewrite (is_empty_false shown (mem_str_nonempty _ _ Hdate) Hne).
    cbn [negb andb]. unfold shown at 1 2. cbn [App.price_data_filtered FetchPrices.pcolumns].
    rewrite Hclose, Hdate. reflexivity.
  - intros Hne. unfold App.xaxis_range_of.
    assert (Hall : forall t, In (Some t) (map row_date (App.rows filtered_data)) ->
              (d0 <= t <= d1)%Z /\ exists r, In r (App.rows data) /\ row_date r = Some t).
    { intros t Ht. apply in_map_iff in Ht as (r & Er & Hr).
      unfold filtered_data, App.filter_by_date in Hr. cbn [App.rows] in Hr.
      apply filter_In in Hr as [Hin Hr]. apply in_range_pair in Hr as (t' & Et & Hb).
      assert (t' = t) by congruence. subst t'. split; [exact Hb | eauto]. }
    assert (Hsome : exists t, In (Some t) (map row_date (App.rows filtered_data))).
    { destruct (App.rows filtered_data) as [|r rs] eqn:E; [contradiction|].
      assert (Hr : In r (App.rows filtered_data)) by (rewrite E; left; reflexivity).
      unfold filtered_data, App.filter_by_date in Hr. cbn [App.rows] in Hr.
      apply filter_In in Hr as [_ Hr]. apply in_range_pair in Hr as (t & Et & _).
      exists t. rewrite <- Et. left. reflexivity. }
    destruct Hsome as [t Ht].
    destruct (series_min_some _ _ Ht) as [lo Elo].
    destruct (series_max_some _ _ Ht) as [hi Ehi].
    destruct (series_min_spec _ _ Elo) as [Hlo Hle].
    destruct (series_max_spec _ _ Ehi) as [Hhi Hge].
    exists lo, hi. rewrite Elo, Ehi.
    destruct (Hall lo Hlo) as [Blo Rlo]. destruct (Hall hi Hhi) as [Bhi Rhi].
    specialize (Hle hi Hhi).
    repeat split; try lia; assumption.
Qed.

End PriceWindow.

(** C7 (as stated, refuted).  Report dates 3, 10 and 17, the range 4 to 17
    picked in the sidebar, daily prices: the rows of days 4 and 5 are
    shown, while the x axis is pinned to 10..17, the span of the report
    dates the range leaves.  No single [minDate, maxDate] is both the
    window of the rows shown and the pinned range. *)
Lemma C7_window_and_pinned_range_differ :
  App.price_body Some [4; 17]%Z (App.filter_by_date Some [4; 17]%Z Sample.data)
    Sample.price_data
  = App.price_chart [Some 4; Some 5; Some 10; Some 17]%Z [1800; 1800; 1800; 1800]%nat
      (Some 10, Some 17)%Z
  /\ ~ (forall t, In (Some t) [Some 4; Some 5; Some 10; Some 17]%Z -> (10 <= t <= 17)%Z).
Proof.
  split; [vm_compute; reflexivity|].
  intros H. specialize (H 4%Z (or_introl eq_refl)). lia.
Qed.

(** ** The price cache *)

Section PriceCache.
Context {Cells : Type}.
Import FetchPrices.

Lemma mem_str_refl (x : string) (l : list string) :
  In x l -> PyStr.mem_str x l = true.
Proof.
  induction l as [|y l IH]; simpl; [intros []|].
  intros [-> | H]; [rewrite String.eqb_refl; reflexivity|].
  rewrite (IH H). apply orb_true_r.
Qed.

Lemma columns_fit_themselves (cols : list string) :
  forallb (fun c => PyStr.mem_str c cols) cols = true.
Proof. apply forallb_forall. intros c Hc. apply mem_str_refl, Hc. Qed.

Lemma prepare_rows (commodity_name : string) (df : PriceFrame Cells) :
  prows (prepare commodity_name df)
  = map (fun r => {| DATE := DATE r; Commodity_Name := Some commodity_name;
                     cells := cells r |}) (prows df).
Proof.
  unfold prepare. destruct (_ && _); reflexivity.
Qed.

Lemma stored_rows_carry_the_name (commodity_name : string) (df : PriceFrame Cells) :
  filter (name_is commodity_name) (prows (prepare commodity_name df))
  = prows (prepare commodity_name df).
Proof.
  rewrite prepare_rows. induction (prows df) as [|r l IH]; simpl; [reflexivity|].
  unfold name_is at 1. cbn [Commodity_Name]. rewrite String.eqb_refl, IH.
  reflexivity.
Qed.

(** What one successful save of one non-empty series leaves behind. *)
Lemma save_one (commodity_name : string) (series : PriceFrame Cells)
    (db db1 : Database Cells) :
  is_empty series = false ->
  save_prices_to_database [(commodity_name, series)] db = (db1, None) ->
  exists table,
    commodity_prices db1 = Some table
    /\ create_index db1 = None
    /\ forallb (fun c => PyStr.mem_str c (pcolumns table))
         (pcolumns (prepare commodity_name series)) = true
    /\ prows table
       = (match commodity_prices db with
          | Some old => prows old
          | None => []
          end ++ prows (prepare commodity_name series))%list.
Proof.
  intros Hne. unfold save_prices_to_database, save_loop. rewrite Hne.
  unfold to_sql_append. destruct (commodity_prices db) as [old|] eqn:Eold.
  - destruct (forallb _ _) eqn:Efit.
    + destruct (create_index _) eqn:Eidx; intros H; inversion H; subst.
      eexists. repeat split; try reflexivity; assumption.
    + intros H; inversion H.
  - destruct (create_index _) eqn:Eidx; intros H; inversion H; subst.
    eexists. repeat split; try reflexivity; try assumption.
    apply columns_fit_themselves.
Qed.

(** C8 (amended).  Saving appends.  After a save of a non-empty series
    has succeeded, saving the same series again succeeds too and stores
    every row of the series a second time after the rows already there:
    the rows kept for the commodity are those of the first save followed
    by the series once more. *)
Theorem C8_saving_twice_duplicates (commodity_name : string)
    (series : PriceFrame Cells) (db db1 : Database Cells) :
  is_empty series = false ->
  save_prices_to_database [(commodity_name, series)] db = (db1, None) ->
  exists table1 table2,
    commodity_prices db1 = Some table1
    /\ save_prices_to_database [(commodity_name, series)] db1
       = ({| commodity_prices := Some table2 |}, None)
    /\ pcolumns table2 = pcolumns table1
    /\ prows table2
       = (prows table1 ++ prows (prepare commodity_name series))%list
    /\ filter (name_is commodity_name) (prows table2)
       = (filter (name_is commodity_name) (prows table1)
          ++ prows (prepare commodity_name series))%list
    /\ List.length (prows (prepare commodity_name series))
       = List.length (prows series)
    /\ prows series <> [].
Proof.
  intros Hne Hsave.
  destruct (save_one _ _ _ _ Hne Hsave) as (table1 & Et & Eidx & Efit & _).
  exists table1,
    {| pcolumns := pcolumns table1;
       prows := prows table1 ++ prows (prepare commodity_name series) |}.
  split; [exact Et|]. split; [|split; [reflexivity|split; [reflexivity|split]]].
  - unfold save_prices_to_database, save_loop. rewrite Hne.
    unfold to_sql_append. rewrite Et, Efit.
    unfold create_index in *. rewrite Et in Eidx. cbn [commodity_prices pcolumns].
    rewrite Eidx. reflexivity.
  - cbn [prows]. rewrite filter_app, stored_rows_carry_the_name. reflexivity.
  - split.
    + rewrite prepare_rows, length_map. reflexivity.
    + unfold is_empty in Hne. intros E. rewrite E in Hne.
      destruct (pcolumns series); discriminate.
Qed.

Section CacheMiss.
Context {Row : Type}.
Variable row_date : Row -> Timestamp.
Variable fetch_historical_prices : string -> Z -> Z -> PriceFrame Cells.

(** C10.  With no [commodity_prices] table the read returns the empty
    frame for every commodity name, raising nothing; the panel then
    takes it for a cache miss and asks the price source for the
    ticker over the span of the positioning rows.  What it shows and
    what it stores depend on that answer alone. *)
Theorem C10_missing_table_is_a_cache_miss
    (commodity_name : option string) (selected_commodity ticker : string)
    (m : App.PriceMapping) (date_range : Frame.DateInput)
    (filtered_data : App.DataFrame Row) (db : Database Cells)
    (price_start price_end : Z) :
  commodity_prices db = None ->
  App.ticker_symbol m = Some ticker ->
  PyStr.truthy ticker = true ->
  Frame.series_min (map row_date (App.rows filtered_data)) = Some price_start ->
  Frame.series_max (map row_date (App.rows filtered_data)) = Some price_end ->
  get_commodity_prices_from_db commodity_name db = inl empty_frame
  /\ is_empty (@empty_frame Cells) = true
  /\ let fetched := fetch_historical_prices ticker price_start price_end in
     let cap := Some (App.verified m, ticker, App.ticker_type m) in
     App.price_section row_date fetch_historical_prices selected_commodity
       (Some m) date_range filtered_data db
     = if is_empty fetched
       then ({| App.caption := cap; App.st_error := None;
                App.body := App.price_info
                  "No price data available. The ticker may not be valid or Yahoo Finance API may be unavailable." |},
             db)
       else
         let saved :=
           save_prices_to_database
             [(selected_commodity, App.ensure_date_column fetched)] db in
         ({| App.caption := cap;
             App.st_error := option_map (App.could_not_fetch ticker) (snd saved);
             App.body :=
               App.price_body row_date date_range filtered_data
                 (prepare selected_commodity (App.ensure_date_column fetched)) |},
          fst saved).
Proof.
  intros Hdb Hm Ht Hs He.
  assert (Hget : forall n, get_commodity_prices_from_db n db
                           = inl (@empty_frame Cells)).
  { intros n. unfold get_commodity_prices_from_db. rewrite Hdb. reflexivity. }
  split; [apply Hget|]. split; [reflexivity|].
  cbv zeta. unfold App.price_section. rewrite Hm, Ht.
  unfold App.with_ticker. rewrite Hget.
  change (is_empty (@empty_frame Cells)) with true. cbv iota.
  unfold App.fetch_branch. rewrite Hs, He.
  destruct (is_empty (fetch_historical_prices ticker price_start price_end))
    eqn:Ef; cbn [negb].
  - cbn [App.fetch_error App.price_data App.db_after].
    unfold App.price_body. rewrite Ef. reflexivity.
  - destruct (save_prices_to_database _ db) as [db' raised].
    reflexivity.
Qed.

End CacheMiss.
End PriceCache.

(** ** The properties at the sample inputs *)

(** C2 (as stated, refuted).  A formula of spaces returns neither a series
    nor an error. *)
Lemma C2_blank_formula_returns_nothing :
  ~ one_populated
      (App.evaluate_formula Sample.df_eval "   " Sample.data Sample.short_to_technical).
Proof. vm_compute. exact (fun contra => contra). Qed.

(** C2 at a formula that evaluates. *)
Lemma C2_result_contract_witness :
  PyStr.strip " Open Interest + 1 " <> ""
  /\ one_populated
       (App.evaluate_formula Sample.df_eval " Open Interest + 1 " Sample.data
          Sample.short_to_technical).
Proof.
  assert (H : PyStr.strip " Open Interest + 1 " <> "") by (vm_compute; discriminate).
  split; [exact H|].
  exact (proj2 (C2_result_contract Sample.df_eval " Open Interest + 1 " Sample.data
                  Sample.short_to_technical) H).
Defined.

(** C4 (as stated, refuted).  A square bracket is not in the
    specification's character set, and the formula "[1]" is not rejected
    for its characters: it reaches evaluation. *)
Lemma C4_brackets_pass_the_whitelist :
  PyStr.all_chars Spec.whitelisted "[1]" = false
  /\ App.evaluate_formula Sample.df_eval "[1]" Sample.data Sample.short_to_technical
     = App.try_eval Sample.df_eval Sample.data "[1]"
  /\ App.evaluate_formula Sample.df_eval "[1]" Sample.data Sample.short_to_technical
     <> (None, Some "Invalid characters in formula").
Proof.
  split; [reflexivity|]. split; [reflexivity|]. vm_compute. discriminate.
Qed.

(** C4 at the formula with a semicolon. *)
Lemma C4_character_whitelist_witness :
  PyStr.strip "Open_Interest_All; DROP TABLE x" <> ""
  /\ App.evaluate_formula Sample.df_eval "Open_Interest_All; DROP TABLE x"
       Sample.data []
     = (None, Some "Invalid characters in formula").
Proof.
  assert (H : PyStr.strip "Open_Interest_All; DROP TABLE x" <> "")
    by (vm_compute; discriminate).
  split; [exact H|].
  apply (proj2 (C4_character_whitelist Sample.df_eval
                  "Open_Interest_All; DROP TABLE x" Sample.data [] H)).
  reflexivity.
Defined.

(** C5 at a formula with one unknown name, one keyword and one column. *)
Lemma C5_unresolved_columns_witness :
  PyStr.strip "NotARealColumn + max(Open Interest, 1)" <> ""
  /\ PyStr.all_chars whitelisted_or_bracket
       (Translator.convert_short_names_to_technical
          (PyStr.strip "NotARealColumn + max(Open Interest, 1)")
          Sample.short_to_technical) = true
  /\ App.evaluate_formula Sample.df_eval "NotARealColumn + max(Open Interest, 1)"
       Sample.data Sample.short_to_technical
     = (None, Some "Columns not found: NotARealColumn").
Proof.
  assert (H1 : PyStr.strip "NotARealColumn + max(Open Interest, 1)" <> "")
    by (vm_compute; discriminate).
  assert (H2 : PyStr.all_chars whitelisted_or_bracket
                 (Translator.convert_short_names_to_technical
                    (PyStr.strip "NotARealColumn + max(Open Interest, 1)")
                    Sample.short_to_technical) = true)
    by (vm_compute; reflexivity).
  split; [exact H1|]. split; [exact H2|].
  refine (proj1 (proj1 (C5_unresolved_columns Sample.df_eval
                          "NotARealColumn + max(Open Interest, 1)" Sample.data
                          Sample.short_to_technical H1 H2) _)).
  vm_compute. discriminate.
Defined.

(** C6 with nothing selected and a formula that fails, and with one column
    selected. *)
Lemma C6_nothing_to_render_witness :
  App.main_chart Some Sample.df_eval "" "NoSuchColumn" [] [] Sample.data
    Sample.short_to_technical
  = App.info "Select columns or enter formulas in the sidebar to visualize"
  /\ exists traces errors,
       App.main_chart Some Sample.df_eval "" "" ["Open_Interest_All"] []
         Sample.data Sample.short_to_technical
       = App.plotly_chart traces errors
       /\ traces <> [].
Proof.
  split.
  - apply (proj1 (C6_nothing_to_render Some Sample.df_eval "" "NoSuchColumn" [] []
                    Sample.data Sample.short_to_technical)).
    repeat split.
  - destruct (proj2 (C6_nothing_to_render Some Sample.df_eval "" ""
                       ["Open_Interest_All"] [] Sample.data
                       Sample.short_to_technical))
      as (traces & errors & E & Hne & _).
    + intros (contra & _). discriminate contra.
    + exists traces, errors. split; [exact E | exact Hne].
Defined.

(** C7 at the sample prices with the range 4 to 17. *)
Lemma C7_price_window_witness :
  PyStr.mem_str "DATE" (FetchPrices.pcolumns Sample.price_data) = true
  /\ PyStr.mem_str "CLOSE" (FetchPrices.pcolumns Sample.price_data) = true
  /\ forall r,
       In r (FetchPrices.prows (App.price_data_filtered [4; 17]%Z Sample.price_data))
       <-> In r (FetchPrices.prows Sample.price_data)
           /\ exists t, FetchPrices.DATE r = Some t /\ (4 <= t <= 17)%Z.
Proof.
  split; [reflexivity|]. split; [reflexivity|].
  exact (proj1 (C7_price_window (fun day : Z => Some day) 4 17 Sample.data
                  Sample.price_data eq_refl eq_refl)).
Defined.

(** C8 (as stated, refuted).  One fetched series of two rows saved twice
    into a fresh database: the second save leaves four rows, and the read
    returns all four. *)
Lemma C8_second_save_duplicates_rows :
  FetchPrices.save_prices_to_database [("GOLD", Sample.series)] Sample.fresh
  = (Sample.saved_once, None)
  /\ FetchPrices.save_prices_to_database [("GOLD", Sample.series)] Sample.saved_once
     = (Sample.saved_twice, None)
  /\ FetchPrices.get_commodity_prices_from_db (Some "GOLD") Sample.saved_twice
     <> FetchPrices.get_commodity_prices_from_db (Some "GOLD") Sample.saved_once
  /\ FetchPrices.get_commodity_prices_from_db (Some "GOLD") Sample.saved_twice
     = inl {| FetchPrices.pcolumns := ["DATE"; "CLOSE"; "Commodity_Name"];
              FetchPrices.prows :=
                [Sample.stored_row 3; Sample.stored_row 3;
                 Sample.stored_row 4; Sample.stored_row 4] |}.
Proof.
  split; [reflexivity|]. split; [reflexivity|]. split; [|reflexivity].
  vm_compute. discriminate.
Qed.

(** C8 at the sample series saved into a fresh database. *)
Lemma C8_saving_twice_duplicates_witness :
  FetchPrices.is_empty Sample.series = false
  /\ FetchPrices.save_prices_to_database [("GOLD", Sample.series)] Sample.fresh
     = (Sample.saved_once, None)
  /\ exists table1 table2,
       FetchPrices.commodity_prices Sample.saved_once = Some table1
       /\ FetchPrices.save_prices_to_database [("GOLD", Sample.series)]
            Sample.saved_once
          = ({| FetchPrices.commodity_prices := Some table2 |}, None)
       /\ FetchPrices.prows table2
          = (FetchPrices.prows table1
             ++ FetchPrices.prows (FetchPrices.prepare "GOLD" Sample.series))%list.
Proof.
  split; [reflexivity|]. split; [reflexivity|].
  destruct (C8_saving_twice_duplicates "GOLD" Sample.series Sample.fresh
              Sample.saved_once eq_refl eq_refl)
    as (table1 & table2 & E1 & E2 & _ & E3 & _).
  exists table1, table2. split; [exact E1|]. split; [exact E2 | exact E3].
Defined.





(** C10 at a fresh database: the fetched series ends up stored. *)
Lemma C10_missing_table_is_a_cache_miss_witness :
  FetchPrices.commodity_prices Sample.fresh = None
  /\ FetchPrices.get_commodity_prices_from_db (Some "GOLD") Sample.fresh
     = inl FetchPrices.empty_frame
  /\ snd (App.price_section (fun day : Z => Some day) Sample.fetch "GOLD"
            (Some Sample.mapping) [3; 17]%Z
            (App.filter_by_date (fun day : Z => Some day) [3; 17]%Z Sample.data)
            Sample.fresh)
     = Sample.saved_once.
Proof.
  split; [reflexivity|].
  pose proof (C10_missing_table_is_a_cache_miss (fun day : Z => Some day)
                Sample.fetch (Some "GOLD") "GOLD" "GC=F" Sample.mapping [3; 17]%Z
                (App.filter_by_date (fun day : Z => Some day) [3; 17]%Z Sample.data)
                Sample.fresh 3 17 eq_refl eq_refl eq_refl eq_refl eq_refl)
    as (Hread & _ & Hpanel).
  split; [exact Hread|].
  rewrite Hpanel. reflexivity.
Defined.

(** ** Trimming *)

Lemma lstrip_head (s : string) (c : ascii) (rest : string) :
  PyStr.lstrip s = String c rest -> PyStr.is_space c = false.
Proof.
  induction s as [|a s IH]; simpl; [discriminate|].
  destruct (PyStr.is_space a) eqn:E; [exact IH|].
  intros H; inversion H; subst. exact E.
Qed.

Lemma rstrip_keeps_head (c : ascii) (s : string) :
  PyStr.is_space c = false ->
  exists kept, PyStr.rstrip (String c s) = String c kept.
Proof.
  intros Hc. simpl. destruct (PyStr.rstrip s); rewrite ?Hc; eauto.
Qed.

Lemma rstrip_idempotent (s : string) :
  PyStr.rstrip (PyStr.rstrip s) = PyStr.rstrip s.
Proof.
  induction s as [|c s IH]; [reflexivity|].
  simpl. destruct (PyStr.rstrip s) as [|d kept] eqn:E.
  - destruct (PyStr.is_space c) eqn:Hc; [reflexivity|].
    simpl. rewrite Hc. reflexivity.
  - change (PyStr.rstrip (String c (String d kept)))
      with (match PyStr.rstrip (String d kept) with
            | EmptyString => if PyStr.is_space c then EmptyString else String c EmptyString
            | String a k => String c (String a k)
            end).
    rewrite IH. reflexivity.
Qed.

Lemma strip_idempotent (s : string) :
  PyStr.strip (PyStr.strip s) = PyStr.strip s.
Proof.
  unfold PyStr.strip. destruct (PyStr.lstrip s) as [|c t] eqn:E; [reflexivity|].
  pose proof (lstrip_head _ _ _ E) as Hc.
  destruct (rstrip_keeps_head c t Hc) as [kept Ek]. rewrite Ek.
  simpl PyStr.lstrip. rewrite Hc. rewrite <- Ek. apply rstrip_idempotent.
Qed.

Section Trimmed.
Context {Row Value : Type}.
Variable df_eval : App.DataFrame Row -> string -> Value + string.

(** X1.  Whitespace before and after a formula changes nothing:
    the trimmed formula gets the same result or the same error. *)
Theorem evaluate_formula_ignores_outer_whitespace (formula : string)
    (data : App.DataFrame Row) (m : AliasMap) :
  App.evaluate_formula df_eval (PyStr.strip formula) data m
  = App.evaluate_formula df_eval formula data m.
Proof.
  destruct (string_dec (PyStr.strip formula) "") as [Hb | Hnb].
  - rewrite (evaluate_formula_blank df_eval formula _ _ Hb).
    apply evaluate_formula_blank. rewrite strip_idempotent. exact Hb.
  - rewrite (evaluate_formula_stages df_eval formula _ _ Hnb).
    rewrite evaluate_formula_stages by (rewrite strip_idempotent; exact Hnb).
    rewrite strip_idempotent. reflexivity.
Qed.
End Trimmed.

(** ** What reaches the evaluator *)

Lemma all_chars_lstrip (p : ascii -> bool) (s : string) :
  PyStr.all_chars p s = true -> PyStr.all_chars p (PyStr.lstrip s) = true.
Proof.
  induction s as [|c s IH]; simpl; [reflexivity|].
  intros H. apply andb_true_iff in H as [Hc Hs].
  destruct (PyStr.is_space c); [auto|]. simpl. rewrite Hc, Hs. reflexivity.
Qed.

Lemma all_chars_sub_operator_spaces_from (p : ascii -> bool) (fuel : nat) :
  forall s, PyStr.all_chars p s = true ->
            PyStr.all_chars p (Re.sub_operator_spaces_from fuel s) = true.
Proof.
  induction fuel as [|fuel IH]; intros s H; [exact H|].
  cbn [Re.sub_operator_spaces_from]. destruct s as [|c s]; [reflexivity|].
  pose proof (all_chars_lstrip p _ H) as Hl.
  simpl in H. apply andb_true_iff in H as [Hc Hs].
  destruct (PyStr.lstrip (String c s)) as [|o after] eqn:E.
  - simpl. rewrite Hc. apply IH, Hs.
  - simpl in Hl. apply andb_true_iff in Hl as [Ho Ha].
    destruct (Re.is_operator o); simpl.
    + rewrite Ho. apply IH, all_chars_lstrip, Ha.
    + rewrite Hc. apply IH, Hs.
Qed.

Section Guarded.
Context {Row Value : Type}.

(** X2.  [data.eval] is only ever handed text made of whitelisted
    characters: two evaluators that agree on such text give
    [evaluate_formula] the same outcome on every formula. *)
Theorem only_whitelisted_text_is_evaluated
    (df_eval1 df_eval2 : App.DataFrame Row -> string -> Value + string)
    (formula : string) (data : App.DataFrame Row) (m : AliasMap) :
  (forall text,
      PyStr.all_chars whitelisted_or_bracket text = true ->
      df_eval1 data text = df_eval2 data text) ->
  App.evaluate_formula df_eval1 formula data m
  = App.evaluate_formula df_eval2 formula data m.
Proof.
  intros Hagree.
  destruct (string_dec (PyStr.strip formula) "") as [Hb | Hnb].
  - rewrite !evaluate_formula_blank by exact Hb. reflexivity.
  - rewrite !evaluate_formula_stages by exact Hnb. cbv zeta.
    rewrite (all_chars_ext _ whitelisted_or_bracket _ allowed_chars_closed_form).
    destruct (PyStr.all_chars whitelisted_or_bracket _) eqn:Hw; [|reflexivity].
    destruct (offending_tokens _ _); [|reflexivity].
    unfold App.try_eval. rewrite Hagree; [reflexivity|].
    apply all_chars_sub_operator_spaces_from, Hw.
Qed.
End Guarded.

(** ** Whole-word translation *)

Lemma sub_word_copies_non_words (label repl : string) (fuel : nat) :
  forall prev s,
    Re.word_opt prev = false ->
    PyStr.all_chars Text.not_word s = true ->
    Re.sub_word_from fuel label repl prev s = s.
Proof.
  induction fuel as [|fuel IH]; intros prev s Hp Hs; [reflexivity|].
  cbn [Re.sub_word_from]. cbv zeta.
  assert (Hm : Re.match_word label prev s = None).
  { unfold Re.match_word, Re.boundary. rewrite Hp.
    destruct s as [|c s]; [reflexivity|].
    simpl in Hs. apply andb_true_iff in Hs as [Hc _].
    unfold Text.not_word in Hc. apply negb_true_iff in Hc.
    cbn [Re.head Re.word_opt]. rewrite Hc. reflexivity. }
  rewrite Hm. destruct s as [|c s]; [reflexivity|].
  simpl in Hs. apply andb_true_iff in Hs as [Hc Hs].
  rewrite IH; [reflexivity| |exact Hs].
  unfold Text.not_word in Hc. apply negb_true_iff in Hc. exact Hc.
Qed.

Lemma sub_word_skips_non_word_prefix (label repl : string) (pre : string) :
  forall fuel prev rest,
    Re.word_opt prev = false ->
    PyStr.all_chars Text.not_word pre = true ->
    String.length (pre ++ rest) < fuel ->
    exists fuel' prev',
      Re.word_opt prev' = false
      /\ String.length rest < fuel'
      /\ Re.sub_word_from fuel label repl prev (pre ++ rest)
         = pre ++ Re.sub_word_from fuel' label repl prev' rest.
Proof.
  induction pre as [|c pre IH]; intros fuel prev rest Hp Hpre Hlen.
  - exists fuel, prev. auto.
  - simpl in Hpre. apply andb_true_iff in Hpre as [Hc Hpre].
    unfold Text.not_word in Hc. apply negb_true_iff in Hc.
    destruct fuel as [|fuel]; [simpl in Hlen; lia|].
    simpl in Hlen.
    destruct (IH fuel (Some c) rest Hc Hpre ltac:(lia)) as (fuel' & prev' & H1 & H2 & H3).
    exists fuel', prev'. split; [exact H1|]. split; [exact H2|].
    cbn [append Re.sub_word_from]. cbv zeta.
    assert (Hm : Re.match_word label prev (String c (pre ++ rest)) = None).
    { unfold Re.match_word, Re.boundary. rewrite Hp.
      cbn [Re.head Re.word_opt]. rewrite Hc. reflexivity. }
    rewrite Hm, H3. reflexivity.
Qed.

Lemma same_ignoring_case_edges (typed label : string) :
  Text.same_ignoring_case typed label = true ->
  forall prev,
    Re.word_opt (Re.head typed) = Re.word_opt (Re.head label)
    /\ (forall prev', Re.word_opt prev = Re.word_opt prev' ->
          Re.word_opt (Text.last_char prev typed)
          = Re.word_opt (Text.last_char prev' label)).
Proof.
  revert label. induction typed as [|c typed IH]; intros [|a label] H prev;
    try discriminate.
  - split; [reflexivity|]. intros prev' E. exact E.
  - simpl in H. apply andb_true_iff in H as [Hac H].
    apply ci_eqb_word in Hac. split.
    + cbn [Re.head Re.word_opt]. congruence.
    + intros prev' _. cbn [Text.last_char].
      apply (proj2 (IH label H (Some c))). cbn [Re.word_opt]. congruence.
Qed.

Lemma match_literal_typed (post : string) (label : string) :
  forall typed prev,
    Text.same_ignoring_case typed label = true ->
    Re.match_literal label (typed ++ post) prev
    = Some (Text.last_char prev typed, post).
Proof.
  induction label as [|a label IH]; intros [|c typed] prev H; try discriminate.
  - reflexivity.
  - simpl in H. apply andb_true_iff in H as [Hac H].
    cbn [append Re.match_literal Text.last_char]. rewrite Hac. apply IH, H.
Qed.

Lemma head_non_word (post : string) :
  PyStr.all_chars Text.not_word post = true ->
  Re.word_opt (Re.head post) = false.
Proof.
  destruct post as [|d post]; [reflexivity|]. simpl.
  intros H. apply andb_true_iff in H as [Hd _].
  unfold Text.not_word in Hd. apply negb_true_iff in Hd. exact Hd.
Qed.

Lemma sub_word_after_match (label repl : string) (fuel : nat)
    (last : option ascii) (post : string) :
  Re.word_opt (Re.head label) = true ->
  Re.word_opt last = true ->
  PyStr.all_chars Text.not_word post = true ->
  Re.sub_word_from fuel label repl last post = post.
Proof.
  intros Hl Hlast Hpost. destruct fuel as [|fuel]; [reflexivity|].
  cbn [Re.sub_word_from]. cbv zeta.
  destruct label as [|a label]; [discriminate|]. cbn [Re.head Re.word_opt] in Hl.
  assert (Hm : Re.match_word (String a label) last post = None).
  { unfold Re.match_word. destruct (Re.boundary last (Re.head post)); [|reflexivity].
    destruct post as [|d post]; [reflexivity|].
    cbn [Re.match_literal].
    destruct (PyStr.ci_eqb a d) eqn:E; [|reflexivity].
    apply ci_eqb_word in E. pose proof (head_non_word _ Hpost) as Hd.
    cbn [Re.head Re.word_opt] in Hd. congruence. }
  rewrite Hm. destruct post as [|d post]; [reflexivity|].
  pose proof (head_non_word _ Hpost) as Hd. cbn [Re.head] in Hd.
  simpl in Hpost. apply andb_true_iff in Hpost as [_ Hpost].
  rewrite sub_word_copies_non_words; auto.
Qed.

Lemma length_append_le (a b : string) :
  String.length b <= String.length (a ++ b).
Proof. induction a; simpl; lia. Qed.

(** X3.  With one alias whose short name begins and ends with a
    letter, a digit or an underscore: the short name typed in any letter
    case, between text free of such characters (brackets, operators,
    spaces), is replaced by the technical name and the rest is left as it
    is. *)
Theorem whole_word_is_translated (label tech typed pre post : string) :
  Re.word_opt (Re.head label) = true ->
  Re.word_opt (Text.last_char None label) = true ->
  Text.same_ignoring_case typed label = true ->
  PyStr.all_chars Text.not_word pre = true ->
  PyStr.all_chars Text.not_word post = true ->
  Translator.convert_short_names_to_technical (pre ++ typed ++ post) [(label, tech)]
  = pre ++ tech ++ post.
Proof.
  intros Hhead Hlast Hsame Hpre Hpost.
  unfold Translator.convert_short_names_to_technical. cbn [Translator.sorted_short_names
    fold_right Translator.insert_longest_first fold_left fst snd].
  unfold Re.sub_word.
  destruct (sub_word_skips_non_word_prefix label tech pre
              (S (String.length (pre ++ typed ++ post))) None (typed ++ post)
              eq_refl Hpre ltac:(lia))
    as (fuel & prev & Hprev & Hfuel & ->).
  f_equal.
  destruct fuel as [|fuel]; [lia|].
  cbn [Re.sub_word_from]. cbv zeta.
  destruct (same_ignoring_case_edges _ _ Hsame prev) as [Eh El].
  assert (Elast : Re.word_opt (Text.last_char prev typed) = true).
  { destruct label as [|a label]; [discriminate|].
    destruct typed as [|c typed]; [discriminate|].
    cbn [Text.last_char] in *. simpl in Hsame.
    apply andb_true_iff in Hsame as [Hac Hsame].
    rewrite (proj2 (same_ignoring_case_edges _ _ Hsame (Some c)) (Some a)); [exact Hlast|].
    cbn [Re.word_opt]. symmetry. apply ci_eqb_word, Hac. }
  assert (Hm : Re.match_word label prev (typed ++ post)
               = Some (Text.last_char prev typed, post)).
  { unfold Re.match_word, Re.boundary. rewrite Hprev.
    assert (Hth : Re.word_opt (Re.head (typed ++ post)) = true).
    { destruct typed as [|c typed]; [destruct label; discriminate|].
      cbn [append Re.head]. cbn [Re.head] in Eh. congruence. }
    rewrite Hth. cbn [xorb]. rewrite (match_literal_typed post label typed prev Hsame).
    rewrite Elast, (head_non_word _ Hpost). reflexivity. }
  rewrite Hm. destruct label as [|a label]; [discriminate|].
  rewrite sub_word_after_match; auto.
Qed.

(** ** Spaces around operators *)

Lemma operator_is_not_space (c : ascii) :
  Re.is_operator c = true -> PyStr.is_space c = false.
Proof.
  destruct c as [[] [] [] [] [] [] [] []]; vm_compute; try reflexivity; discriminate.
Qed.

Lemma remove_spaces_lstrip (s : string) :
  Text.remove_spaces (PyStr.lstrip s) = Text.remove_spaces s.
Proof.
  induction s as [|c s IH]; [reflexivity|]. simpl.
  destruct (PyStr.is_space c) eqn:E; [exact IH|]. simpl. rewrite E. reflexivity.
Qed.

Lemma lstrip_length' (s : string) :
  String.length (PyStr.lstrip s) <= String.length s.
Proof.
  induction s as [|c s IH]; simpl; [lia|].
  destruct (PyStr.is_space c); simpl; lia.
Qed.

Lemma sub_operator_spaces_from_keeps_the_rest (fuel : nat) :
  forall s, String.length s < fuel ->
            Text.remove_spaces (Re.sub_operator_spaces_from fuel s)
            = Text.remove_spaces s.
Proof.
  induction fuel as [|fuel IH]; intros s Hlen; [lia|].
  cbn [Re.sub_operator_spaces_from]. destruct s as [|c s]; [reflexivity|].
  simpl in Hlen.
  pose proof (lstrip_length' (String c s)) as Hl.
  pose proof (remove_spaces_lstrip (String c s)) as Hr.
  destruct (PyStr.lstrip (String c s)) as [|o after] eqn:E.
  - cbn [Text.remove_spaces]. rewrite IH by lia. reflexivity.
  - destruct (Re.is_operator o) eqn:Ho.
    + pose proof (lstrip_length' after) as Ha. simpl in Hl.
      rewrite <- Hr. cbn [Text.remove_spaces].
      rewrite (operator_is_not_space _ Ho).
      rewrite IH by lia. rewrite remove_spaces_lstrip. reflexivity.
    + cbn [Text.remove_spaces]. rewrite IH by lia. reflexivity.
Qed.

Lemma lstrip_fixed (c : ascii) (s : string) :
  PyStr.is_space c = false -> PyStr.lstrip (String c s) = String c s.
Proof. intros H. simpl. rewrite H. reflexivity. Qed.

Lemma lstrip_idempotent (s : string) :
  PyStr.lstrip (PyStr.lstrip s) = PyStr.lstrip s.
Proof.
  destruct (PyStr.lstrip s) as [|c t] eqn:E; [reflexivity|].
  apply lstrip_fixed. eapply lstrip_head, E.
Qed.

(** The first character of the result: the operator that follows the
    leading whitespace when there is one, the first character of the text
    otherwise. *)
Lemma sub_operator_spaces_from_head (fuel : nat) (s : string) :
  Re.head (Re.sub_operator_spaces_from (S fuel) s)
  = match PyStr.lstrip s with
    | String o _ => if Re.is_operator o then Some o else Re.head s
    | EmptyString => Re.head s
    end.
Proof.
  cbn [Re.sub_operator_spaces_from]. destruct s as [|c s]; [reflexivity|].
  destruct (PyStr.lstrip (String c s)) as [|o after]; [reflexivity|].
  destruct (Re.is_operator o); reflexivity.
Qed.

Lemma spaced_operator_cons (a : ascii) (out : string) :
  Text.spaced_operator out = false ->
  match Re.head out with
  | Some b => (PyStr.is_space a && Re.is_operator b)
              || (Re.is_operator a && PyStr.is_space b) = false
  | None => True
  end ->
  Text.spaced_operator (String a out) = false.
Proof.
  intros Hout Hpair. destruct out as [|b out]; [reflexivity|].
  cbn [Re.head] in Hpair. cbn [Text.spaced_operator].
  cbn [Text.spaced_operator] in Hout.
  rewrite Hpair. exact Hout.
Qed.

Lemma sub_operator_spaces_from_tight (fuel : nat) :
  forall s, String.length s < fuel ->
            Text.spaced_operator (Re.sub_operator_spaces_from fuel s) = false.
Proof.
  induction fuel as [|fuel IH]; intros s Hlen; [lia|].
  destruct s as [|c s]; [reflexivity|]. simpl in Hlen.
  cbn [Re.sub_operator_spaces_from].
  pose proof (lstrip_length' (String c s)) as Hl.
  destruct (PyStr.lstrip (String c s)) as [|o after] eqn:E.
  - (* only whitespace is left *)
    apply spaced_operator_cons; [apply IH; lia|].
    destruct fuel as [|fuel]; [lia|]. rewrite sub_operator_spaces_from_head.
    assert (Hc : PyStr.is_space c = true).
    { simpl in E. destruct (PyStr.is_space c); [reflexivity | discriminate]. }
    assert (Es : PyStr.lstrip s = "").
    { simpl in E. rewrite Hc in E. exact E. }
    rewrite Es. destruct s as [|b s]; [exact I|]. cbn [Re.head].
    assert (Hb : PyStr.is_space b = true).
    { simpl in Es. destruct (PyStr.is_space b); [reflexivity | discriminate]. }
    destruct (Re.is_operator b) eqn:Ho.
    + apply operator_is_not_space in Ho. congruence.
    + destruct (Re.is_operator c) eqn:Hoc.
      * apply operator_is_not_space in Hoc. congruence.
      * rewrite andb_false_r. reflexivity.
  - pose proof (lstrip_head _ _ _ E) as Hos.
    destruct (Re.is_operator o) eqn:Ho.
    + (* the operator is kept, the whitespace around it goes *)
      pose proof (lstrip_length' after) as Ha. simpl in Hl.
      apply spaced_operator_cons; [apply IH; lia|].
      destruct fuel as [|fuel]; [lia|]. rewrite sub_operator_spaces_from_head.
      rewrite lstrip_idempotent.
      destruct (PyStr.lstrip after) as [|b t] eqn:Eb; [exact I|].
      pose proof (lstrip_head _ _ _ Eb) as Hb. cbn [Re.head].
      rewrite Hos. destruct (Re.is_operator b); rewrite Hb, andb_false_r; reflexivity.
    + (* no operator after the whitespace: the character is kept *)
      apply spaced_operator_cons; [apply IH; lia|].
      destruct fuel as [|fuel]; [lia|]. rewrite sub_operator_spaces_from_head.
      destruct (PyStr.is_space c) eqn:Hc.
      * assert (Es : PyStr.lstrip s = String o after).
        { simpl in E. rewrite Hc in E. exact E. }
        rewrite Es, Ho.
        destruct s as [|b s]; [exact I|]. cbn [Re.head].
        assert (Hb : Re.is_operator b = false).
        { simpl in Es. destruct (PyStr.is_space b) eqn:Hsb.
          - destruct (Re.is_operator b) eqn:Hob; [|reflexivity].
            apply operator_is_not_space in Hob. congruence.
          - inversion Es; subst. exact Ho. }
        rewrite Hb, andb_false_r.
        destruct (Re.is_operator c) eqn:Hoc; [|reflexivity].
        apply operator_is_not_space in Hoc. congruence.
      * assert (Ec : c = o).
        { simpl in E. rewrite Hc in E. inversion E. reflexivity. }
        subst o. rewrite Ho.
        destruct (match PyStr.lstrip s with
                  | "" => Re.head s
                  | String o _ => if Re.is_operator o then Some o else Re.head s
                  end); [reflexivity | exact I].
Qed.

(** X4.  After the clean-up before evaluation no operator has
    whitespace right before or right after it, and nothing but whitespace
    was removed: the other characters are all there, in their order. *)
Theorem operator_spacing_is_normalised (s : string) :
  Text.spaced_operator (Re.sub_operator_spaces s) = false
  /\ Text.remove_spaces (Re.sub_operator_spaces s) = Text.remove_spaces s.
Proof.
  unfold Re.sub_operator_spaces. split.
  - apply sub_operator_spaces_from_tight. lia.
  - apply sub_operator_spaces_from_keeps_the_rest. lia.
Qed.

(** ** Short names and back *)

Lemma lookup_dict_set_same (k v : string) (d : AliasMap) :
  ColumnMapping.lookup k (Translator.dict_set k v d) = Some v.
Proof.
  induction d as [|[k0 v0] d IH]; simpl.
  - rewrite String.eqb_refl. reflexivity.
  - destruct (String.eqb k k0) eqn:E; simpl.
    + rewrite String.eqb_refl. reflexivity.
    + rewrite E. exact IH.
Qed.

Lemma lookup_dict_set_other (k k' v : string) (d : AliasMap) :
  k <> k' ->
  ColumnMapping.lookup k (Translator.dict_set k' v d) = ColumnMapping.lookup k d.
Proof.
  intros Hne. apply String.eqb_neq in Hne.
  induction d as [|[k0 v0] d IH]; simpl.
  - rewrite Hne. reflexivity.
  - destruct (String.eqb k' k0) eqn:E; simpl.
    + apply String.eqb_eq in E. subst k0. rewrite Hne. reflexivity.
    + rewrite IH. reflexivity.
Qed.

Lemma short_names_fold_other (cols : list string) :
  forall (d : AliasMap) (k : string),
    ~ In k (map ColumnMapping.get_short_name cols) ->
    ColumnMapping.lookup k
      (fold_left (fun d col => Translator.dict_set (ColumnMapping.get_short_name col) col d)
                 cols d)
    = ColumnMapping.lookup k d.
Proof.
  induction cols as [|c cols IH]; intros d k Hk; [reflexivity|].
  simpl in *. rewrite IH by tauto.
  apply lookup_dict_set_other. intros E. apply Hk. left. symmetry. exact E.
Qed.

Lemma short_names_fold_found (cols : list string) :
  forall (d : AliasMap) (col : string),
    NoDup (map ColumnMapping.get_short_name cols) ->
    In col cols ->
    ColumnMapping.lookup (ColumnMapping.get_short_name col)
      (fold_left (fun d col => Translator.dict_set (ColumnMapping.get_short_name col) col d)
                 cols d)
    = Some col.
Proof.
  induction cols as [|c cols IH]; intros d col Hnd Hin; [destruct Hin|].
  simpl in Hnd. inversion Hnd as [|? ? Hnotin Hnd']; subst.
  destruct Hin as [-> | Hin].
  - simpl. rewrite short_names_fold_other by exact Hnotin.
    apply lookup_dict_set_same.
  - simpl. apply IH; assumption.
Qed.

(** X5.  When the numeric columns have pairwise different short
    names, the dict built from them gives back, for the short names of any
    selection of columns, exactly those columns in the same order. *)
Theorem short_name_selects_its_column (numeric_columns chosen : list string) :
  NoDup (map ColumnMapping.get_short_name numeric_columns) ->
  incl chosen numeric_columns ->
  map (fun short =>
         ColumnMapping.lookup short
           (Translator.build_short_to_technical numeric_columns))
      (map ColumnMapping.get_short_name chosen)
  = map Some chosen.
Proof.
  intros Hnd Hincl. rewrite map_map. apply map_ext_in. intros col Hcol.
  unfold Translator.build_short_to_technical.
  apply short_names_fold_found; auto.
Qed.

(** ** Reading the price cache *)

Section CacheReads.
Context {Cells : Type}.
Import FetchPrices.

Lemma date_leb_total (a b : Timestamp) :
  date_leb a b = false -> date_leb b a = true.
Proof.
  destruct a as [x|], b as [y|]; simpl; try reflexivity; try discriminate.
  intros H. apply Z.leb_gt in H. apply Z.leb_le. lia.
Qed.

Lemma date_leb_trans (a b c : Timestamp) :
  date_leb a b = true -> date_leb b c = true -> date_leb a c = true.
Proof.
  destruct a as [x|], b as [y|], c as [z|]; simpl; try reflexivity; try discriminate.
  intros H1 H2. apply Z.leb_le in H1, H2. apply Z.leb_le. lia.
Qed.

Lemma insert_by_date_perm (r : PriceRow Cells) (l : list (PriceRow Cells)) :
  Permutation (r :: l) (insert_by_date r l).
Proof.
  induction l as [|q l IH]; simpl; [reflexivity|].
  destruct (date_leb (DATE r) (DATE q)); [reflexivity|].
  rewrite perm_swap. constructor. exact IH.
Qed.

Lemma order_by_date_perm (l : list (PriceRow Cells)) :
  Permutation l (order_by_date l).
Proof.
  unfold order_by_date. induction l as [|r l IH]; simpl; [constructor|].
  rewrite <- insert_by_date_perm. constructor. exact IH.
Qed.

Lemma insert_by_date_sorted (r : PriceRow Cells) (l : list (PriceRow Cells)) :
  StronglySorted Cache.by_date l -> StronglySorted Cache.by_date (insert_by_date r l).
Proof.
  induction 1 as [|q l Hs IH Hq]; simpl.
  - repeat constructor.
  - destruct (date_leb (DATE r) (DATE q)) eqn:E.
    + constructor; [constructor; assumption|].
      constructor; [exact E|].
      rewrite Forall_forall in *. intros x Hx. specialize (Hq x Hx).
      unfold Cache.by_date in *. eapply date_leb_trans; eauto.
    + constructor; [exact IH|].
      eapply Permutation_Forall; [apply insert_by_date_perm|].
      constructor; [|exact Hq]. unfold Cache.by_date. apply date_leb_total, E.
Qed.

Lemma order_by_date_sorted (l : list (PriceRow Cells)) :
  StronglySorted Cache.by_date (order_by_date l).
Proof.
  unfold order_by_date. induction l as [|r l IH]; simpl; [constructor|].
  apply insert_by_date_sorted, IH.
Qed.

Lemma read_named (commodity_name : string) (db : Database Cells)
    (table : PriceFrame Cells) :
  PyStr.truthy commodity_name = true ->
  commodity_prices db = Some table ->
  PyStr.mem_str "Commodity_Name" (pcolumns table) = true ->
  PyStr.mem_str "DATE" (pcolumns table) = true ->
  get_commodity_prices_from_db (Some commodity_name) db
  = inl {| pcolumns := pcolumns table;
           prows := order_by_date (filter (name_is commodity_name) (prows table)) |}.
Proof.
  intros Ht Hdb Hn Hd. unfold get_commodity_prices_from_db, read_sql_query.
  rewrite Hdb, Ht. cbn [negb]. rewrite Hn, Hd. reflexivity.
Qed.

(** X6.  Reading the cache for a commodity returns the stored
    rows of that commodity and no other, each once per stored copy, in
    ascending date order (rows without a date first), under the columns
    of the table. *)
Theorem cached_prices_come_back_sorted (commodity_name : string)
    (db : Database Cells) (table : PriceFrame Cells) :
  PyStr.truthy commodity_name = true ->
  commodity_prices db = Some table ->
  PyStr.mem_str "Commodity_Name" (pcolumns table) = true ->
  PyStr.mem_str "DATE" (pcolumns table) = true ->
  exists frame,
    get_commodity_prices_from_db (Some commodity_name) db = inl frame
    /\ pcolumns frame = pcolumns table
    /\ Permutation (prows frame) (filter (name_is commodity_name) (prows table))
    /\ StronglySorted Cache.by_date (prows frame)
    /\ (forall r, In r (prows frame) ->
                  Commodity_Name r = Some commodity_name).
Proof.
  intros Ht Hdb Hn Hd. eexists. split; [apply read_named; eassumption|].
  cbn [pcolumns prows]. split; [reflexivity|]. split; [|split].
  - symmetry. apply order_by_date_perm.
  - apply order_by_date_sorted.
  - intros r Hr. eapply Permutation_in in Hr; [|symmetry; apply order_by_date_perm].
    apply filter_In in Hr as [_ Hr]. unfold name_is in Hr.
    destruct (Commodity_Name r) as [n|]; [|discriminate].
    apply String.eqb_eq in Hr. subst. reflexivity.
Qed.

(** ** Writing the price cache *)

Lemma save_loop_appends (items : list (string * PriceFrame Cells)) :
  forall db db',
    save_loop items db = (db', None) ->
    Cache.stored_rows db' = (Cache.stored_rows db ++ Cache.written_rows items)%list
    /\ (forall table, commodity_prices db = Some table ->
          exists table', commodity_prices db' = Some table'
                         /\ pcolumns table' = pcolumns table).
Proof.
  induction items as [|[n df] items IH]; intros db db' H.
  - inversion H; subst. unfold Cache.written_rows. simpl. rewrite app_nil_r.
    split; [reflexivity|]. eauto.
  - simpl in H. unfold Cache.written_rows. cbn [flat_map fst snd].
    fold (Cache.written_rows items).
    destruct (is_empty df) eqn:Ee.
    + apply IH in H. exact H.
    + destruct (to_sql_append (prepare n df) db) as [db1|e] eqn:Es; [|discriminate].
      apply IH in H as [Hrows Hcols].
      unfold to_sql_append in Es.
      destruct (commodity_prices db) as [table|] eqn:Edb.
      * destruct (forallb _ _); [|discriminate]. inversion Es; subst db1.
        split.
        -- rewrite Hrows. unfold Cache.stored_rows. rewrite Edb. cbn [commodity_prices prows].
           rewrite app_assoc. reflexivity.
        -- intros t Et. inversion Et; subst t.
           destruct (Hcols _ eq_refl) as (t' & E1 & E2). eauto.
      * inversion Es; subst db1. split.
        -- rewrite Hrows. unfold Cache.stored_rows. rewrite Edb. reflexivity.
        -- intros t Et. discriminate.
Qed.

Lemma saving_appends_each_series_in_turn_aux
    (prices_dict : list (string * PriceFrame Cells)) (db db' : Database Cells) :
  save_prices_to_database prices_dict db = (db', None) ->
  exists table',
    commodity_prices db' = Some table'
    /\ prows table' = (Cache.stored_rows db ++ Cache.written_rows prices_dict)%list
    /\ PyStr.mem_str "Commodity_Name" (pcolumns table') = true
    /\ PyStr.mem_str "DATE" (pcolumns table') = true
    /\ (forall table, commodity_prices db = Some table ->
                      pcolumns table' = pcolumns table).
Proof.
  unfold save_prices_to_database.
  destruct (save_loop prices_dict db) as [db1 [e|]] eqn:El; [discriminate|].
  destruct (create_index db1) eqn:Ei; [discriminate|].
  intros H; inversion H; subst db'.
  destruct (save_loop_appends _ _ _ El) as [Hrows Hcols].
  unfold create_index in Ei. unfold Cache.stored_rows at 1 in Hrows.
  destruct (commodity_prices db1) as [table'|]; [|discriminate].
  exists table'. split; [reflexivity|]. split; [exact Hrows|].
  destruct (PyStr.mem_str "Commodity_Name" (pcolumns table')) eqn:E1; [|discriminate].
  destruct (PyStr.mem_str "DATE" (pcolumns table')) eqn:E2; [|discriminate].
  split; [reflexivity|]. split; [reflexivity|].
  intros table Et. destruct (Hcols _ Et) as (t' & E & Ec).
  inversion E; subst. exact Ec.
Qed.

(** X7.  A save that succeeds leaves a table that holds the rows
    it had, followed by the rows of each non-empty series of the dict, in
    the dict's order, each tagged with its commodity name; empty series
    add nothing and an existing table keeps its columns. *)
Theorem saving_appends_each_series_in_turn
    (prices_dict : list (string * PriceFrame Cells)) (db db' : Database Cells) :
  save_prices_to_database prices_dict db = (db', None) ->
  exists table',
    commodity_prices db' = Some table'
    /\ prows table' = (Cache.stored_rows db ++ Cache.written_rows prices_dict)%list
    /\ (forall table, commodity_prices db = Some table ->
                      pcolumns table' = pcolumns table).
Proof.
  intros H.
  destruct (saving_appends_each_series_in_turn_aux _ _ _ H)
    as (table' & E & Hrows & _ & _ & Hcols).
  exists table'. auto.
Qed.

(** X8.  Saving a dict with nothing to write (no entry, or only
    empty frames) into a database without the price table does not
    return: creating the index raises, and the database is as before. *)
Theorem saving_nothing_without_table_raises
    (prices_dict : list (string * PriceFrame Cells)) (db : Database Cells) :
  commodity_prices db = None ->
  forallb (fun item => is_empty (snd item)) prices_dict = true ->
  exists e, save_prices_to_database prices_dict db = (db, Some e).
Proof.
  intros Hdb Hall. unfold save_prices_to_database.
  assert (El : save_loop prices_dict db = (db, None)).
  { induction prices_dict as [|[n df] items IH]; [reflexivity|].
    simpl in Hall. apply andb_true_iff in Hall as [He Hall].
    simpl. rewrite He. apply IH, Hall. }
  rewrite El. unfold create_index. rewrite Hdb. eauto.
Qed.

Lemma written_rows_named (items : list (string * PriceFrame Cells))
    (other : string) :
  (forall item, In item items -> fst item <> other) ->
  filter (name_is other) (Cache.written_rows items) = [].
Proof.
  intros Hother. unfold Cache.written_rows.
  induction items as [|[n df] items IH]; [reflexivity|].
  cbn [flat_map fst snd]. rewrite filter_app, IH.
  - rewrite app_nil_r. destruct (is_empty df); [reflexivity|].
    rewrite prepare_rows.
    assert (Hn : n <> other) by (apply (Hother (n, df)); left; reflexivity).
    induction (prows df) as [|r l IHl]; [reflexivity|].
    simpl. unfold name_is at 1. cbn [Commodity_Name].
    apply String.eqb_neq in Hn. rewrite Hn. exact IHl.
  - intros item Hin. apply Hother. right. exact Hin.
Qed.

(** X9.  A save that succeeds does not change what the cache
    returns for a commodity that is not a key of the saved dict. *)
Theorem saving_leaves_other_commodities_alone
    (prices_dict : list (string * PriceFrame Cells)) (db db' : Database Cells)
    (other : string) (before : PriceFrame Cells) :
  save_prices_to_database prices_dict db = (db', None) ->
  (forall item, In item prices_dict -> fst item <> other) ->
  PyStr.truthy other = true ->
  get_commodity_prices_from_db (Some other) db = inl before ->
  exists after,
    get_commodity_prices_from_db (Some other) db' = inl after
    /\ prows after = prows before.
Proof.
  intros Hsave Hother Ht Hbefore.
  destruct (saving_appends_each_series_in_turn_aux prices_dict db db' Hsave)
    as (table' & Edb' & Hrows & Hn & Hd & Hcols).
  eexists. split; [apply read_named; eassumption|].
  cbn [prows]. rewrite Hrows, filter_app, written_rows_named by exact Hother.
  rewrite app_nil_r. unfold Cache.stored_rows.
  unfold get_commodity_prices_from_db, read_sql_query in Hbefore.
  destruct (commodity_prices db) as [table|] eqn:Edb.
  - rewrite Ht in Hbefore. cbn [negb] in Hbefore.
    destruct (_ && _) in Hbefore; [|discriminate].
    inversion Hbefore; subst. reflexivity.
  - cbn [negb] in Hbefore. inversion Hbefore; subst. reflexivity.
Qed.

End CacheReads.

(** ** The price panel and its cache *)

Section PanelCache.
Context {Row Cells : Type}.
Variable row_date : Row -> Timestamp.
Import FetchPrices.

Lemma price_section_on_a_hit
    (fetch_historical_prices : string -> Z -> Z -> PriceFrame Cells)
    (selected_commodity : string) (price_mapping : option App.PriceMapping)
    (date_range : Frame.DateInput) (filtered_data : App.DataFrame Row)
    (db : Database Cells) (cached : PriceFrame Cells) :
  get_commodity_prices_from_db (Some selected_commodity) db = inl cached ->
  is_empty cached = false ->
  App.price_section row_date fetch_historical_prices selected_commodity
    price_mapping date_range filtered_data db
  = (match price_mapping with
     | Some m =>
         match App.ticker_symbol m with
         | Some ticker =>
             if PyStr.truthy ticker
             then {| App.caption := Some (App.verified m, ticker, App.ticker_type m);
                     App.st_error := None;
                     App.body := App.price_body row_date date_range filtered_data cached |}
             else App.no_mapping
         | None => App.no_mapping
         end
     | None => App.no_mapping
     end, db).
Proof.
  intros Hget Hne. unfold App.price_section.
  destruct price_mapping as [m|]; [|reflexivity].
  destruct (App.ticker_symbol m) as [ticker|]; [|reflexivity].
  destruct (PyStr.truthy ticker); [|reflexivity].
  unfold App.with_ticker. rewrite Hget, Hne. reflexivity.
Qed.

(** X10.  When the cache holds rows for the selected commodity the
    price panel does not depend on the price source, leaves the database
    as it is and reports no fetch error. *)
Theorem cached_prices_are_not_fetched_again
    (fetch1 fetch2 : string -> Z -> Z -> PriceFrame Cells)
    (selected_commodity : string) (price_mapping : option App.PriceMapping)
    (date_range : Frame.DateInput) (filtered_data : App.DataFrame Row)
    (db : Database Cells) (cached : PriceFrame Cells) :
  get_commodity_prices_from_db (Some selected_commodity) db = inl cached ->
  is_empty cached = false ->
  App.price_section row_date fetch1 selected_commodity price_mapping date_range
    filtered_data db
  = App.price_section row_date fetch2 selected_commodity price_mapping date_range
      filtered_data db
  /\ snd (App.price_section row_date fetch1 selected_commodity price_mapping
            date_range filtered_data db) = db
  /\ App.st_error (fst (App.price_section row_date fetch1 selected_commodity
                          price_mapping date_range filtered_data db)) = None.
Proof.
  intros Hget Hne.
  rewrite !(price_section_on_a_hit _ _ _ _ _ _ _ Hget Hne).
  split; [reflexivity|]. split; [reflexivity|].
  cbn [fst]. destruct price_mapping as [m|]; [|reflexivity].
  destruct (App.ticker_symbol m) as [ticker|]; [|reflexivity].
  destruct (PyStr.truthy ticker); reflexivity.
Qed.

Lemma ensure_date_column_rows (df : PriceFrame Cells) :
  prows (App.ensure_date_column df) = prows df.
Proof.
  unfold App.ensure_date_column.
  repeat (destruct (PyStr.mem_str _ _); [reflexivity|]). reflexivity.
Qed.

Lemma mem_str_app (x : string) (l l' : list string) :
  PyStr.mem_str x (l ++ l') = PyStr.mem_str x l || PyStr.mem_str x l'.
Proof.
  induction l as [|y l IH]; simpl; [reflexivity|].
  rewrite IH, orb_assoc. reflexivity.
Qed.

Lemma prepare_with_date (commodity_name : string) (df : PriceFrame Cells) :
  PyStr.mem_str "DATE" (pcolumns df) = true ->
  PyStr.mem_str "DATE" (pcolumns (prepare commodity_name df)) = true
  /\ PyStr.mem_str "Commodity_Name" (pcolumns (prepare commodity_name df)) = true.
Proof.
  intros Hd. unfold prepare.
  assert (Hd' : PyStr.mem_str "DATE"
                  (pcolumns (set_commodity_name commodity_name df)) = true).
  { unfold set_commodity_name. cbn [pcolumns].
    destruct (PyStr.mem_str "Commodity_Name" (pcolumns df)); [exact Hd|].
    rewrite mem_str_app, Hd. reflexivity. }
  rewrite Hd'. cbn [negb andb]. split; [exact Hd'|].
  unfold set_commodity_name. cbn [pcolumns].
  destruct (PyStr.mem_str "Commodity_Name" (pcolumns df)) eqn:E; [exact E|].
  rewrite mem_str_app. simpl. apply orb_true_r.
Qed.

(** X11.  On a first visit with no price table, a fetch that
    returns rows with a date column is written to the cache without
    error; the cache then returns those rows tagged with the commodity,
    and the next visit draws the panel from them whatever the price
    source answers. *)
Theorem fetched_prices_are_served_from_the_cache
    (fetch_historical_prices : string -> Z -> Z -> PriceFrame Cells)
    (selected_commodity ticker : string) (m : App.PriceMapping)
    (date_range : Frame.DateInput) (filtered_data : App.DataFrame Row)
    (db : Database Cells) (price_start price_end : Z) :
  commodity_prices db = None ->
  App.ticker_symbol m = Some ticker ->
  PyStr.truthy ticker = true ->
  PyStr.truthy selected_commodity = true ->
  Frame.series_min (map row_date (App.rows filtered_data)) = Some price_start ->
  Frame.series_max (map row_date (App.rows filtered_data)) = Some price_end ->
  let fetched :=
    App.ensure_date_column (fetch_historical_prices ticker price_start price_end) in
  is_empty (fetch_historical_prices ticker price_start price_end) = false ->
  PyStr.mem_str "DATE" (pcolumns fetched) = true ->
  let first_visit :=
    App.price_section row_date fetch_historical_prices selected_commodity (Some m)
      date_range filtered_data db in
  App.st_error (fst first_visit) = None
  /\ commodity_prices (snd first_visit) = Some (prepare selected_commodity fetched)
  /\ exists cached,
       get_commodity_prices_from_db (Some selected_commodity) (snd first_visit)
       = inl cached
       /\ is_empty cached = false
       /\ Permutation (prows cached) (prows (prepare selected_commodity fetched))
       /\ forall other_source,
            App.price_section row_date other_source selected_commodity (Some m)
              date_range filtered_data (snd first_visit)
            = ({| App.caption := Some (App.verified m, ticker, App.ticker_type m);
                  App.st_error := None;
                  App.body :=
                    App.price_body row_date date_range filtered_data cached |},
               snd first_visit).
Proof.
  intros Hdb Hm Ht Hname Hs He fetched Hne Hdate first_visit.
  destruct (prepare_with_date selected_commodity fetched Hdate) as [Hd Hn].
  assert (Hrows : prows fetched <> []).
  { unfold fetched. rewrite ensure_date_column_rows.
    unfold is_empty in Hne. intros E. rewrite E in Hne.
    destruct (pcolumns _); discriminate. }
  assert (Hne' : is_empty fetched = false).
  { apply is_empty_false; [|exact Hrows]. eapply mem_str_nonempty, Hdate. }
  assert (Hsave : save_prices_to_database [(selected_commodity, fetched)] db
                  = ({| commodity_prices := Some (prepare selected_commodity fetched) |},
                     None)).
  { unfold save_prices_to_database, save_loop. rewrite Hne'.
    unfold to_sql_append. rewrite Hdb. unfold create_index.
    cbn [commodity_prices]. rewrite Hn, Hd. reflexivity. }
  assert (Hfirst : first_visit
                   = ({| App.caption := Some (App.verified m, ticker, App.ticker_type m);
                         App.st_error := None;
                         App.body :=
                           App.price_body row_date date_range filtered_data
                             (prepare selected_commodity fetched) |},
                      {| commodity_prices := Some (prepare selected_commodity fetched) |})).
  { unfold first_visit, App.price_section. rewrite Hm, Ht.
    unfold App.with_ticker, get_commodity_prices_from_db. rewrite Hdb.
    cbn [negb]. change (is_empty (@empty_frame Cells)) with true. cbv iota.
    unfold App.fetch_branch. rewrite Hs, He, Hne. cbn [negb].
    fold fetched. rewrite Hsave. reflexivity. }
  rewrite Hfirst. cbn [fst snd App.st_error commodity_prices].
  split; [reflexivity|]. split; [reflexivity|].
  pose proof (read_named selected_commodity
                {| commodity_prices := Some (prepare selected_commodity fetched) |}
                _ Hname eq_refl Hn Hd) as Hread.
  rewrite stored_rows_carry_the_name in Hread.
  eexists. split; [exact Hread|].
  assert (Hperm : Permutation (order_by_date (prows (prepare selected_commodity fetched)))
                              (prows (prepare selected_commodity fetched))).
  { symmetry. apply order_by_date_perm. }
  assert (Hcached : is_empty
            {| pcolumns := pcolumns (prepare selected_commodity fetched);
               prows := order_by_date (prows (prepare selected_commodity fetched)) |}
            = false).
  { apply is_empty_false; cbn [pcolumns prows].
    - eapply mem_str_nonempty, Hd.
    - intros E. rewrite E in Hperm. apply Permutation_nil in Hperm.
      rewrite prepare_rows in Hperm. apply map_eq_nil in Hperm. contradiction. }
  split; [exact Hcached|]. split; [exact Hperm|].
  intros other_source.
  rewrite (price_section_on_a_hit _ _ _ _ _ _ _ Hread Hcached).
  rewrite Hm, Ht. reflexivity.
Qed.

End PanelCache.

(** ** Upper case *)

Lemma upper_char_idempotent (c : ascii) :
  PyText.upper_char (PyText.upper_char c) = PyText.upper_char c.
Proof. each_char c. Qed.

Lemma upper_idempotent (s : string) : PyText.upper (PyText.upper s) = PyText.upper s.
Proof.
  induction s as [|c s IH]; simpl; [reflexivity|].
  rewrite upper_char_idempotent, IH. reflexivity.
Qed.

(** ** Tickers *)

Lemma dict_get_In {V : Type} (k : string) (d : list (string * V)) (v : V) :
  PyText.dict_get k d = Some v -> In (k, v) d.
Proof.
  induction d as [|[k' v'] d IH]; simpl; [discriminate|].
  destruct (String.eqb k k') eqn:E.
  - apply String.eqb_eq in E. intros H; inversion H; subst. left. reflexivity.
  - intros H. right. apply IH, H.
Qed.

Lemma every_entry_has_a_futures_ticker (key : string) (tickers : TickerMapping.Tickers) :
  In (key, tickers) TickerMapping.COMMODITY_TICKER_MAPPING ->
  exists futures,
    fst tickers = Some futures
    /\ PyStr.truthy futures = true
    /\ PyText.contains "=F" futures = true.
Proof.
  assert (H : forallb (fun entry : string * TickerMapping.Tickers =>
                         match fst (snd entry) with
                         | Some f => PyStr.truthy f && PyText.contains "=F" f
                         | None => false
                         end) TickerMapping.COMMODITY_TICKER_MAPPING = true)
    by (vm_compute; reflexivity).
  rewrite forallb_forall in H. intros Hin. specialize (H _ Hin). cbn [fst snd] in H.
  destruct (fst tickers) as [f|]; [|discriminate].
  apply andb_true_iff in H as [H1 H2]. eauto.
Qed.

Lemma choose_futures (tickers : TickerMapping.Tickers) (futures : string) :
  fst tickers = Some futures -> PyStr.truthy futures = true ->
  TickerMapping.choose true tickers = Some futures
  /\ TickerMapping.choose false tickers
     = if PyText.truthy_opt (snd tickers) then snd tickers else Some futures.
Proof.
  destruct tickers as [f e]. cbn [fst snd]. intros -> Ht.
  unfold TickerMapping.choose. cbn [PyText.truthy_opt andb]. rewrite Ht.
  split; [reflexivity|]. destruct (PyText.truthy_opt e); reflexivity.
Qed.

Lemma partial_match_first (prefer_futures : bool) (name_upper : string)
    (items : list (string * TickerMapping.Tickers)) :
  (forall key tickers, In (key, tickers) items ->
     exists futures, fst tickers = Some futures /\ PyStr.truthy futures = true) ->
  TickerMapping.partial_match prefer_futures name_upper items
  = match TickerMapping.first_partial name_upper items with
    | Some tickers => TickerMapping.choose prefer_futures tickers
    | None => None
    end.
Proof.
  induction items as [|[key tickers] items IH]; intros Hall; [reflexivity|].
  simpl. destruct (PyText.contains key name_upper).
  - destruct (Hall key tickers (or_introl eq_refl)) as (f & Ef & Tf).
    destruct (choose_futures tickers f Ef Tf) as [Ct Cf].
    destruct prefer_futures.
    + rewrite Ct. reflexivity.
    + rewrite Cf. destruct (PyText.truthy_opt (snd tickers)) eqn:E.
      * destruct (snd tickers); [reflexivity | discriminate].
      * reflexivity.
  - apply IH. intros k t Hin. apply (Hall k t). right. exact Hin.
Qed.

Lemma first_partial_In (name_upper : string)
    (items : list (string * TickerMapping.Tickers)) (tickers : TickerMapping.Tickers) :
  TickerMapping.first_partial name_upper items = Some tickers ->
  exists key, In (key, tickers) items /\ PyText.contains key name_upper = true.
Proof.
  induction items as [|[key t] items IH]; simpl; [discriminate|].
  destruct (PyText.contains key name_upper) eqn:E.
  - intros H; inversion H; subst. exists key. auto.
  - intros H. destruct (IH H) as (k & Hin & Hc). exists k. auto.
Qed.

Lemma variant_match_In (prefer_futures : bool) (name_upper : string)
    (items : list (string * list string)) (ticker : string) :
  TickerMapping.variant_match prefer_futures name_upper items = Some ticker ->
  exists base tickers,
    In (base, tickers) TickerMapping.COMMODITY_TICKER_MAPPING
    /\ TickerMapping.choose prefer_futures tickers = Some ticker.
Proof.
  induction items as [|[base variants] items IH];
    cbn [TickerMapping.variant_match]; [discriminate|].
  destruct (_ || _); [|exact IH].
  destruct (PyText.dict_get base TickerMapping.COMMODITY_TICKER_MAPPING)
    as [tickers|] eqn:Eg; [|exact IH].
  destruct (TickerMapping.choose prefer_futures tickers) as [t|] eqn:Ec; [|exact IH].
  intros H; inversion H; subst. exists base, tickers. split; [|exact Ec].
  apply dict_get_In, Eg.
Qed.

Lemma table_entries_have_futures :
  forall key tickers,
    In (key, tickers) TickerMapping.COMMODITY_TICKER_MAPPING ->
    exists futures, fst tickers = Some futures /\ PyStr.truthy futures = true.
Proof.
  intros key tickers Hin.
  destruct (every_entry_has_a_futures_ticker key tickers Hin) as (f & E & T & _).
  eauto.
Qed.

(** The ticker returned comes from an entry of the table, by the choice
    made at each of the three places. *)
Lemma get_ticker_from_an_entry (commodity_name : string) (prefer_futures : bool)
    (ticker : string) :
  TickerMapping.get_ticker_for_commodity commodity_name prefer_futures = Some ticker ->
  exists key tickers,
    In (key, tickers) TickerMapping.COMMODITY_TICKER_MAPPING
    /\ TickerMapping.choose prefer_futures tickers = Some ticker.
Proof.
  unfold TickerMapping.get_ticker_for_commodity. cbv zeta.
  destruct (PyText.dict_get _ _) as [tickers|] eqn:Eg.
  - intros H. eexists _, tickers. split; [apply dict_get_In, Eg | exact H].
  - rewrite partial_match_first by apply table_entries_have_futures.
    destruct (TickerMapping.first_partial _ _) as [tickers|] eqn:Ep.
    + destruct (first_partial_In _ _ _ Ep) as (key & Hin & _).
      destruct (table_entries_have_futures _ _ Hin) as (f & Ef & Tf).
      destruct (choose_futures tickers f Ef Tf) as [Ct Cf].
      assert (Hsome : exists t, TickerMapping.choose prefer_futures tickers = Some t).
      { destruct prefer_futures; [eauto|]. rewrite Cf.
        destruct (PyText.truthy_opt (snd tickers)) eqn:E; [|eauto].
        destruct (snd tickers); [eauto | discriminate]. }
      destruct Hsome as [t Et]. rewrite Et. intros H; inversion H; subst. eauto.
    + apply variant_match_In.
Qed.

(** X12. The ticker [get_ticker_for_commodity] prefers is always the
    futures ticker of an entry of the table, and it contains "=F": with
    [prefer_futures] the ETF ticker is never returned. *)
Theorem preferred_ticker_is_a_futures_ticker (commodity_name ticker : string) :
  TickerMapping.get_ticker_for_commodity commodity_name true = Some ticker ->
  PyText.contains "=F" ticker = true
  /\ exists key etf,
       In (key, (Some ticker, etf)) TickerMapping.COMMODITY_TICKER_MAPPING.
Proof.
  intros H. destruct (get_ticker_from_an_entry _ _ _ H) as (key & tickers & Hin & Hc).
  destruct (every_entry_has_a_futures_ticker _ _ Hin) as (f & Ef & Tf & Cf).
  destruct (choose_futures tickers f Ef Tf) as [Ct _].
  rewrite Ct in Hc. inversion Hc; subst f. split; [exact Cf|].
  exists key, (snd tickers). destruct tickers as [a b]. cbn [fst snd] in *.
  subst a. exact Hin.
Qed.

(** X13. When [get_all_tickers_for_commodity] finds the pair of a name,
    [get_ticker_for_commodity] returns from that same pair: its futures
    ticker when futures are preferred, else its ETF ticker when it has
    one. *)
Theorem both_lookups_agree (commodity_name : string)
    (futures etf : option string) :
  TickerMapping.get_all_tickers_for_commodity commodity_name = Some (futures, etf) ->
  TickerMapping.get_ticker_for_commodity commodity_name true = futures
  /\ TickerMapping.get_ticker_for_commodity commodity_name false
     = (if PyText.truthy_opt etf then etf else futures).
Proof.
  unfold TickerMapping.get_all_tickers_for_commodity,
         TickerMapping.get_ticker_for_commodity. cbv zeta.
  assert (Hentry : forall key, In (key, (futures, etf)) TickerMapping.COMMODITY_TICKER_MAPPING ->
            TickerMapping.choose true (futures, etf) = futures
            /\ TickerMapping.choose false (futures, etf)
               = (if PyText.truthy_opt etf then etf else futures)).
  { intros key Hin. destruct (table_entries_have_futures _ _ Hin) as (f & Ef & Tf).
    cbn [fst] in Ef. subst futures.
    destruct (choose_futures (Some f, etf) f eq_refl Tf) as [Ct Cf].
    cbn [snd] in Cf. auto. }
  destruct (PyText.dict_get _ _) as [tickers|] eqn:Eg.
  - intros H; inversion H; subst. eapply Hentry, dict_get_In, Eg.
  - intros Hp. rewrite !partial_match_first by apply table_entries_have_futures.
    rewrite Hp. destruct (first_partial_In _ _ _ Hp) as (key & Hin & _).
    destruct (Hentry key Hin) as [Ct Cf]. rewrite Ct, Cf.
    destruct (table_entries_have_futures _ _ Hin) as (f & Ef & Tf).
    cbn [fst] in Ef. subst futures. split; [reflexivity|].
    destruct (PyText.truthy_opt etf) eqn:E; [|reflexivity].
    destruct etf; [reflexivity | discriminate].
Qed.

(** X14. A name that is, in upper case, a key of the table gets the
    tickers of that key, whatever other keys occur in it. *)
Theorem listed_name_gets_its_own_ticker (commodity_name key : string)
    (tickers : TickerMapping.Tickers) :
  PyText.upper commodity_name = key ->
  In (key, tickers) TickerMapping.COMMODITY_TICKER_MAPPING ->
  TickerMapping.get_ticker_for_commodity commodity_name true = fst tickers
  /\ TickerMapping.get_all_tickers_for_commodity commodity_name = Some tickers.
Proof.
  intros Hup Hin.
  assert (Hget : PyText.dict_get key TickerMapping.COMMODITY_TICKER_MAPPING = Some tickers).
  { assert (H : forallb (fun entry : string * TickerMapping.Tickers =>
                 match PyText.dict_get (fst entry) TickerMapping.COMMODITY_TICKER_MAPPING with
                 | Some (f, e) =>
                     match f, fst (snd entry) with
                     | Some a, Some b => String.eqb a b
                     | None, None => true
                     | _, _ => false
                     end
                     && match e, snd (snd entry) with
                        | Some a, Some b => String.eqb a b
                        | None, None => true
                        | _, _ => false
                        end
                 | None => false
                 end) TickerMapping.COMMODITY_TICKER_MAPPING = true)
      by (vm_compute; reflexivity).
    rewrite forallb_forall in H. specialize (H _ Hin). cbn [fst snd] in H.
    destruct (PyText.dict_get key _) as [[f e]|]; [|discriminate].
    destruct tickers as [f' e']. cbn [fst snd] in H.
    apply andb_true_iff in H as [H1 H2].
    f_equal. f_equal.
    - destruct f, f'; try discriminate; [|reflexivity].
      apply String.eqb_eq in H1. congruence.
    - destruct e, e'; try discriminate; [|reflexivity].
      apply String.eqb_eq in H2. congruence. }
  unfold TickerMapping.get_ticker_for_commodity,
         TickerMapping.get_all_tickers_for_commodity. cbv zeta.
  rewrite Hup, Hget. split; [|reflexivity].
  destruct (table_entries_have_futures _ _ Hin) as (f & Ef & Tf).
  destruct (choose_futures tickers f Ef Tf) as [Ct _]. rewrite Ct, Ef. reflexivity.
Qed.

(** ** Normalized commodity names *)

Lemma upper_cons_fixed (c : ascii) (s : string) :
  PyText.upper (String c s) = String c s ->
  PyText.upper_char c = c /\ PyText.upper s = s.
Proof. simpl. intros H. inversion H as [[H1 H2]]. rewrite H1, H2. auto. Qed.

Lemma upper_lstrip (s : string) :
  PyText.upper s = s -> PyText.upper (PyStr.lstrip s) = PyStr.lstrip s.
Proof.
  induction s as [|c s IH]; [reflexivity|]. intros H.
  destruct (upper_cons_fixed _ _ H) as [Hc Hs]. simpl PyStr.lstrip.
  destruct (PyStr.is_space c); [apply IH, Hs | exact H].
Qed.

Lemma upper_rstrip (s : string) :
  PyText.upper s = s -> PyText.upper (PyStr.rstrip s) = PyStr.rstrip s.
Proof.
  induction s as [|c s IH]; [reflexivity|]. intros H.
  destruct (upper_cons_fixed _ _ H) as [Hc Hs]. specialize (IH Hs).
  simpl PyStr.rstrip. destruct (PyStr.rstrip s) as [|d kept].
  - destruct (PyStr.is_space c); [reflexivity|]. simpl. rewrite Hc. reflexivity.
  - change (PyText.upper (String c (String d kept)))
      with (String (PyText.upper_char c) (PyText.upper (String d kept))).
    rewrite Hc, IH. reflexivity.
Qed.

Lemma upper_strip (s : string) :
  PyText.upper s = s -> PyText.upper (PyStr.strip s) = PyStr.strip s.
Proof. intros H. apply upper_rstrip, upper_lstrip, H. Qed.

Lemma upper_substring (s : string) :
  forall n m, PyText.upper s = s ->
              PyText.upper (substring n m s) = substring n m s.
Proof.
  induction s as [|c s IH]; intros n m H.
  - destruct n, m; reflexivity.
  - destruct (upper_cons_fixed _ _ H) as [Hc Hs].
    destruct n as [|n]; destruct m as [|m]; simpl; auto.
    rewrite Hc, IH by exact Hs. reflexivity.
Qed.

Lemma upper_remove_suffix (name suffix : string) :
  PyText.upper name = name ->
  PyText.upper (TickerMapping.remove_suffix name suffix)
  = TickerMapping.remove_suffix name suffix.
Proof.
  intros H. unfold TickerMapping.remove_suffix, PyText.drop_last.
  destruct (PyText.endswith name suffix); [|exact H].
  destruct (String.length suffix); [reflexivity|]. apply upper_substring, H.
Qed.

Lemma is_prefix_refl (x : string) : Text.is_prefix x x.
Proof. exists "". rewrite append_empty_r. reflexivity. Qed.

Lemma is_prefix_trans (a b c : string) :
  Text.is_prefix a b -> Text.is_prefix b c -> Text.is_prefix a c.
Proof.
  intros [r1 ->] [r2 ->]. exists (r1 ++ r2). apply append_assoc.
Qed.

Lemma substring_is_prefix (s : string) :
  forall m, Text.is_prefix (substring 0 m s) s.
Proof.
  induction s as [|c s IH]; intros [|m]; simpl.
  - exists "". reflexivity.
  - exists "". reflexivity.
  - exists (String c s). reflexivity.
  - destruct (IH m) as [rest E]. exists rest. simpl. rewrite <- E. reflexivity.
Qed.

Lemma rstrip_is_prefix (s : string) : Text.is_prefix (PyStr.rstrip s) s.
Proof.
  induction s as [|c s [rest E]]; [exists ""; reflexivity|].
  simpl. destruct (PyStr.rstrip s) as [|d kept].
  - destruct (PyStr.is_space c).
    + exists (String c s). reflexivity.
    + exists s. reflexivity.
  - exists rest. simpl. simpl in E. rewrite <- E. reflexivity.
Qed.

Lemma remove_suffix_is_prefix (name suffix : string) :
  Text.is_prefix (TickerMapping.remove_suffix name suffix) name.
Proof.
  unfold TickerMapping.remove_suffix, PyText.drop_last.
  destruct (PyText.endswith name suffix); [|apply is_prefix_refl].
  destruct (String.length suffix); [exists name; reflexivity|].
  apply substring_is_prefix.
Qed.

Lemma lstrip_strip (s : string) :
  PyStr.lstrip (PyStr.strip s) = PyStr.strip s.
Proof.
  unfold PyStr.strip. destruct (PyStr.lstrip s) as [|c t] eqn:E; [reflexivity|].
  pose proof (lstrip_head _ _ _ E) as Hc.
  destruct (rstrip_keeps_head c t Hc) as [kept ->]. apply lstrip_fixed, Hc.
Qed.

Lemma lstrip_of_prefix (p x : string) :
  PyStr.lstrip x = x -> Text.is_prefix p x -> PyStr.lstrip p = p.
Proof.
  intros Hx [rest ->]. destruct p as [|c p]; [reflexivity|].
  simpl in Hx. simpl. destruct (PyStr.is_space c); [|reflexivity].
  exfalso. pose proof (lstrip_length (p ++ rest)) as Hl.
  rewrite Hx in Hl. simpl in Hl. lia.
Qed.

(** X15. [normalize_commodity_name] returns a name in upper case with
    no whitespace at either end, and it only cuts from the end: the result
    begins the trimmed upper-case name. *)
Theorem normalized_name_shape (commodity_name : string) :
  let name := TickerMapping.normalize_commodity_name commodity_name in
  PyStr.strip name = name
  /\ PyText.upper name = name
  /\ exists removed, PyStr.strip (PyText.upper commodity_name) = name ++ removed.
Proof.
  cbv zeta. unfold TickerMapping.normalize_commodity_name. cbv zeta.
  set (start := PyStr.strip (PyText.upper commodity_name)).
  assert (Hfold : forall suffixes name,
            PyText.upper name = name -> Text.is_prefix name start ->
            PyText.upper (fold_left TickerMapping.remove_suffix suffixes name)
            = fold_left TickerMapping.remove_suffix suffixes name
            /\ Text.is_prefix (fold_left TickerMapping.remove_suffix suffixes name) start).
  { induction suffixes as [|suffix suffixes IH]; intros name Hu Hp; [auto|].
    simpl. apply IH.
    - apply upper_remove_suffix, Hu.
    - eapply is_prefix_trans; [apply remove_suffix_is_prefix | exact Hp]. }
  destruct (Hfold TickerMapping.suffixes_to_remove start) as [Hu Hp].
  { apply upper_strip, upper_idempotent. }
  { apply is_prefix_refl. }
  split; [apply strip_idempotent|]. split; [apply upper_strip, Hu|].
  unfold PyStr.strip at 1.
  rewrite (lstrip_of_prefix _ start (lstrip_strip _) Hp).
  eapply is_prefix_trans; [apply rstrip_is_prefix | exact Hp].
Qed.

(** ** Substrings and commodity types *)

Lemma startswith_spec (s k : string) :
  PyText.startswith s k = true <-> exists post, s = k ++ post.
Proof.
  revert s. induction k as [|p k IH]; intros s; simpl.
  - split; [intros _; exists s; reflexivity | destruct s; reflexivity].
  - destruct s as [|c s]; simpl.
    + split; [discriminate | intros [post E]; discriminate].
    + rewrite andb_true_iff, IH. split.
      * intros [Hc [post ->]]. apply Ascii.eqb_eq in Hc. subst. eauto.
      * intros [post E]. inversion E; subst. split; [apply Ascii.eqb_refl | eauto].
Qed.

Lemma contains_unfold (k s : string) :
  PyText.contains k s
  = PyText.startswith s k
    || match s with
       | EmptyString => false
       | String _ rest => PyText.contains k rest
       end.
Proof. destruct s; reflexivity. Qed.

Lemma contains_spec (k s : string) :
  PyText.contains k s = true <-> exists pre post, s = pre ++ k ++ post.
Proof.
  split.
  - induction s as [|c s IH]; rewrite contains_unfold, orb_true_iff.
    + intros [H | H]; [|discriminate].
      apply startswith_spec in H. destruct H as [post E]. exists "", post. exact E.
    + intros [H | H].
      * apply startswith_spec in H. destruct H as [post E]. exists "", post. exact E.
      * destruct (IH H) as (pre & post & ->). exists (String c pre), post. reflexivity.
  - intros (pre & post & ->). induction pre as [|c pre IH].
    + rewrite contains_unfold, orb_true_iff. left. apply startswith_spec. exists post. reflexivity.
    + rewrite contains_unfold, orb_true_iff. right. exact IH.
Qed.

Lemma contains_trans (a b s : string) :
  PyText.contains a b = true -> PyText.contains b s = true ->
  PyText.contains a s = true.
Proof.
  rewrite !contains_spec. intros (p1 & q1 & ->) (p2 & q2 & ->).
  exists (p2 ++ p1), (q1 ++ q2). rewrite !append_assoc. reflexivity.
Qed.

(** X16. A name in which "ICE" occurs, inside any keyword, is classified
    by one of the first three categories: a keyword that contains "ICE",
    such as "RICE" or "ORANGE JUICE", never decides. *)
Theorem names_with_ice_are_gas_at_the_latest (commodity_name keyword : string) :
  PyText.contains "ICE" keyword = true ->
  PyText.contains keyword (PyText.upper commodity_name) = true ->
  CommodityTypes.get_commodity_type commodity_name = "Metals"
  \/ CommodityTypes.get_commodity_type commodity_name = "Energy - Oil & Products"
  \/ CommodityTypes.get_commodity_type commodity_name = "Natural Gas".
Proof.
  intros Hk Hn. pose proof (contains_trans _ _ _ Hk Hn) as Hice.
  unfold CommodityTypes.get_commodity_type. cbv zeta.
  destruct (CommodityTypes.any_in CommodityTypes.metals _); [auto|].
  destruct (CommodityTypes.any_in CommodityTypes.oil_and_products _); [auto|].
  assert (Hg : CommodityTypes.any_in CommodityTypes.natural_gas
                 (PyText.upper commodity_name) = true).
  { unfold CommodityTypes.any_in. apply existsb_exists. exists "ICE".
    split; [|exact Hice]. unfold CommodityTypes.natural_gas. simpl. tauto. }
  rewrite Hg. auto.
Qed.

(** ** Fetching *)

Lemma clean_label_shape (col : string) :
  let label := PyText.upper (Fetching.spaces_to_underscores col) in
  PyText.upper label = label /\ PyText.contains " " label = false.
Proof.
  cbv zeta. split; [apply upper_idempotent|].
  induction col as [|c col IH]; [reflexivity|].
  cbn [Fetching.spaces_to_underscores PyText.upper].
  rewrite contains_unfold, IH, orb_false_r.
  cbn [PyText.startswith]. apply andb_false_iff. left.
  each_char c.
Qed.

Lemma fetch_historical_prices_columns {Cells : Type}
    (history : string -> Fetching.HistoryQuery
               -> (option string * FetchPrices.PriceFrame Cells) + string)
    (ticker : string) (start_date end_date period : option string) :
  exists labels,
    FetchPrices.pcolumns
      (Fetching.fetch_historical_prices history ticker start_date end_date period)
    = map (fun col => PyText.upper (Fetching.spaces_to_underscores col)) labels.
Proof.
  unfold Fetching.fetch_historical_prices.
  destruct (history ticker _) as [[index_name hist] | err]; [|exists []; reflexivity].
  destruct (FetchPrices.is_empty hist); [exists []; reflexivity|].
  destruct (Fetching.reset_index index_name hist) as [hist'|]; [|exists []; reflexivity].
  exists (FetchPrices.pcolumns hist'). reflexivity.
Qed.

(** X17. Every column label of a frame that
    [fetch_historical_prices] returns is in upper case and has no space; the
    label "Date" is never among them. *)
Theorem fetched_column_labels_are_upper_case {Cells : Type}
    (history : string -> Fetching.HistoryQuery
               -> (option string * FetchPrices.PriceFrame Cells) + string)
    (ticker : string) (start_date end_date period : option string)
    (col : string) :
  In col (FetchPrices.pcolumns
            (Fetching.fetch_historical_prices history ticker
               start_date end_date period)) ->
  PyText.upper col = col /\ PyText.contains " " col = false /\ col <> "Date".
Proof.
  destruct (fetch_historical_prices_columns history ticker start_date end_date period)
    as [labels ->].
  intros H. apply in_map_iff in H. destruct H as (label & <- & _).
  destruct (clean_label_shape label) as [Hu Hs]. repeat split; auto.
  intros E. rewrite E in Hu. discriminate.
Qed.

Lemma choose_either (prefer_futures : bool) (tickers : TickerMapping.Tickers)
    (ticker : string) :
  TickerMapping.choose prefer_futures tickers = Some ticker ->
  fst tickers = Some ticker \/ snd tickers = Some ticker.
Proof.
  destruct tickers as [[f|] [e|]]; unfold TickerMapping.choose; simpl;
    repeat match goal with
           | |- context [if ?b then _ else _] => destruct b
           end; intros H; inversion H; auto.
Qed.

Lemma all_tickers_from_an_entry (commodity_name : string)
    (tickers : TickerMapping.Tickers) :
  TickerMapping.get_all_tickers_for_commodity commodity_name = Some tickers ->
  exists key, In (key, tickers) TickerMapping.COMMODITY_TICKER_MAPPING.
Proof.
  unfold TickerMapping.get_all_tickers_for_commodity. cbv zeta.
  destruct (PyText.dict_get _ _) as [t|] eqn:E.
  - intros H; inversion H; subst. eexists. apply dict_get_In, E.
  - intros H. destruct (first_partial_In _ _ _ H) as (key & Hin & _). eauto.
Qed.

(** X18. When [fetch_commodity_price] returns prices, they are what
    [fetch_historical_prices] gives for the futures or the ETF ticker of an
    entry of the table. *)
Theorem fetched_prices_come_from_a_table_ticker {Cells : Type}
    (history : string -> Fetching.HistoryQuery
               -> (option string * FetchPrices.PriceFrame Cells) + string)
    (commodity_name : string) (start_date end_date period : option string)
    (prefer_futures try_etf_fallback : bool) :
  FetchPrices.is_empty
    (Fetching.fetch_commodity_price history commodity_name
       start_date end_date period prefer_futures try_etf_fallback) = false ->
  exists key tickers ticker,
    In (key, tickers) TickerMapping.COMMODITY_TICKER_MAPPING
    /\ (fst tickers = Some ticker \/ snd tickers = Some ticker)
    /\ Fetching.fetch_commodity_price history commodity_name
         start_date end_date period prefer_futures try_etf_fallback
       = Fetching.fetch_historical_prices history ticker
           start_date end_date period.
Proof.
  unfold Fetching.fetch_commodity_price. cbv zeta.
  destruct (TickerMapping.get_ticker_for_commodity _ prefer_futures)
    as [ticker|] eqn:Et; [|discriminate].
  destruct (get_ticker_from_an_entry _ _ _ Et) as (key & tickers & Hin & Hc).
  destruct (negb (PyStr.truthy ticker)); [discriminate|].
  assert (Hmain : exists key tickers ticker0,
             In (key, tickers) TickerMapping.COMMODITY_TICKER_MAPPING
             /\ (fst tickers = Some ticker0 \/ snd tickers = Some ticker0)
             /\ Fetching.fetch_historical_prices history ticker
                  start_date end_date period
                = Fetching.fetch_historical_prices history ticker0
                    start_date end_date period).
  { exists key, tickers, ticker. split; [exact Hin|].
    split; [apply (choose_either _ _ _ Hc) | reflexivity]. }
  destruct (FetchPrices.is_empty (Fetching.fetch_historical_prices history ticker _ _ _)
            && try_etf_fallback); [|intros _; exact Hmain].
  destruct (TickerMapping.get_all_tickers_for_commodity _)
    as [[futures [etf|]]|] eqn:Ea; try (intros _; exact Hmain).
  destruct (PyStr.truthy etf && negb (String.eqb etf ticker));
    [|intros _; exact Hmain].
  intros _. destruct (all_tickers_from_an_entry _ _ Ea) as [key' Hin'].
  exists key', (futures, Some etf), etf. split; [exact Hin'|].
  split; [right; reflexivity | reflexivity].
Qed.

Lemma dict_get_set_same {V : Type} (k : string) (v : V) (d : list (string * V)) :
  PyText.dict_get k (Fetching.dict_set k v d) = Some v.
Proof.
  induction d as [|[k0 v0] d IH]; simpl.
  - rewrite String.eqb_refl. reflexivity.
  - destruct (String.eqb k k0) eqn:E; simpl.
    + rewrite String.eqb_refl. reflexivity.
    + rewrite E. exact IH.
Qed.

Lemma dict_get_set_other {V : Type} (k k' : string) (v : V)
    (d : list (string * V)) :
  String.eqb k k' = false ->
  PyText.dict_get k (Fetching.dict_set k' v d) = PyText.dict_get k d.
Proof.
  intros Hne. induction d as [|[k0 v0] d IH]; simpl.
  - rewrite Hne. reflexivity.
  - destruct (String.eqb k' k0) eqn:E; simpl.
    + apply String.eqb_eq in E. subst k0. rewrite Hne. reflexivity.
    + rewrite IH. reflexivity.
Qed.

Lemma dict_set_keys {V : Type} (k : string) (v : V) (d : list (string * V)) :
  map fst (Fetching.dict_set k v d)
  = if PyStr.mem_str k (map fst d) then map fst d else (map fst d ++ [k])%list.
Proof.
  induction d as [|[k0 v0] d IH]; simpl; [reflexivity|].
  destruct (String.eqb k k0) eqn:E; simpl.
  - apply String.eqb_eq in E. subst. reflexivity.
  - rewrite IH. destruct (PyStr.mem_str k (map fst d)); reflexivity.
Qed.

Lemma mem_str_In (x : string) (l : list string) :
  PyStr.mem_str x l = false -> ~ In x l.
Proof.
  intros H Hin. rewrite (mem_str_refl _ _ Hin) in H. discriminate.
Qed.

Lemma dict_set_keys_NoDup {V : Type} (k : string) (v : V) (d : list (string * V)) :
  NoDup (map fst d) -> NoDup (map fst (Fetching.dict_set k v d)).
Proof.
  intros H. rewrite dict_set_keys.
  destruct (PyStr.mem_str k (map fst d)) eqn:E; [exact H|].
  apply NoDup_app; [exact H | repeat constructor; intros [] |].
  intros x Hx [<- | []]. exact (mem_str_In _ _ E Hx).
Qed.

(** X19. The dict that [fetch_multiple_commodities] returns holds,
    under a name, the frame of [fetch_commodity_price] for that name when the
    name was asked for and the frame is not empty, and nothing otherwise; no
    name is held twice. *)
Theorem fetch_multiple_commodities_lookup {Cells : Type}
    (history : string -> Fetching.HistoryQuery
               -> (option string * FetchPrices.PriceFrame Cells) + string)
    (commodity_names : list string) (start_date end_date period : option string)
    (commodity_name : string) :
  let results :=
    Fetching.fetch_multiple_commodities history commodity_names
      start_date end_date period in
  let df :=
    Fetching.fetch_commodity_price history commodity_name
      start_date end_date period true true in
  PyText.dict_get commodity_name results
  = (if PyStr.mem_str commodity_name commodity_names
        && negb (FetchPrices.is_empty df)
     then Some df else None)
  /\ NoDup (map fst results).
Proof.
  cbv zeta. unfold Fetching.fetch_multiple_commodities.
  set (step := fun results name =>
         if negb (FetchPrices.is_empty
                    (Fetching.fetch_commodity_price history name
                       start_date end_date period true true))
         then Fetching.dict_set name
                (Fetching.fetch_commodity_price history name
                   start_date end_date period true true) results
         else results).
  set (df := Fetching.fetch_commodity_price history commodity_name
               start_date end_date period true true).
  assert (H : forall names acc,
             NoDup (map fst acc) ->
             PyText.dict_get commodity_name (fold_left step names acc)
             = (if PyStr.mem_str commodity_name names
                   && negb (FetchPrices.is_empty df)
                then Some df else PyText.dict_get commodity_name acc)
             /\ NoDup (map fst (fold_left step names acc))).
  { induction names as [|name names IH]; intros acc Hacc; [split; auto|].
    cbn [fold_left PyStr.mem_str].
    assert (Hstep : NoDup (map fst (step acc name))).
    { unfold step.
      destruct (negb (FetchPrices.is_empty
                        (Fetching.fetch_commodity_price history name _ _ _ true true)));
        [apply dict_set_keys_NoDup|]; exact Hacc. }
    destruct (IH _ Hstep) as [-> Hnd]. split; [|exact Hnd].
    destruct (String.eqb commodity_name name) eqn:E.
    - apply String.eqb_eq in E. subst name. unfold step. fold df.
      destruct (FetchPrices.is_empty df); simpl.
      + rewrite andb_false_r. reflexivity.
      + rewrite andb_true_r, dict_get_set_same.
        destruct (PyStr.mem_str commodity_name names); reflexivity.
    - simpl. unfold step.
      destruct (negb (FetchPrices.is_empty
                        (Fetching.fetch_commodity_price history name _ _ _ true true)));
        [rewrite (dict_get_set_other _ _ _ _ E)|]; reflexivity. }
  apply (H commodity_names []). constructor.
Qed.

Lemma has_no_ticker_fetches_nothing {Cells : Type}
    (history : string -> Fetching.HistoryQuery
               -> (option string * FetchPrices.PriceFrame Cells) + string)
    (commodity : string) (start_date end_date period : option string)
    (prefer_futures try_etf_fallback : bool) :
  PyText.truthy_opt
    (TickerMapping.get_ticker_for_commodity
       (TickerMapping.normalize_commodity_name commodity) prefer_futures) = false ->
  Fetching.fetch_commodity_price history commodity start_date end_date period
    prefer_futures try_etf_fallback = FetchPrices.empty_frame.
Proof.
  unfold Fetching.fetch_commodity_price. cbv zeta.
  destruct (TickerMapping.get_ticker_for_commodity _ _) as [ticker|];
    [|reflexivity].
  simpl. intros ->. reflexivity.
Qed.

Lemma mapped_loop_is_filter (commodity_list acc : list string) :
  fold_left
    (fun mapped commodity =>
       if Fetching.has_ticker commodity then (mapped ++ [commodity])%list
       else mapped)
    commodity_list acc
  = (acc ++ filter Fetching.has_ticker commodity_list)%list.
Proof.
  revert acc. induction commodity_list as [|c l IH]; intros acc; simpl.
  - rewrite app_nil_r. reflexivity.
  - rewrite IH. destruct (Fetching.has_ticker c); [|reflexivity].
    rewrite <- app_assoc. reflexivity.
Qed.

Lemma find_mappable_loop (commodity_list mapped unmapped : list string) :
  fold_left
    (fun found commodity =>
       let '(mapped, unmapped) := found in
       if Fetching.has_ticker commodity
       then ((mapped ++ [commodity])%list, unmapped)
       else (mapped, (unmapped ++ [commodity])%list))
    commodity_list (mapped, unmapped)
  = ((mapped ++ filter Fetching.has_ticker commodity_list)%list,
     (unmapped
      ++ filter (fun c => negb (Fetching.has_ticker c)) commodity_list)%list).
Proof.
  revert mapped unmapped.
  induction commodity_list as [|c l IH]; intros mapped unmapped; simpl.
  - rewrite !app_nil_r. reflexivity.
  - destruct (Fetching.has_ticker c); simpl; rewrite IH, <- app_assoc; reflexivity.
Qed.

Lemma filter_idempotent {A : Type} (f : A -> bool) (l : list A) :
  filter f (filter f l) = filter f l.
Proof.
  induction l as [|a l IH]; simpl; [reflexivity|].
  destruct (f a) eqn:E; simpl; [rewrite E, IH|]; auto.
Qed.

Lemma fetch_multiple_skips_unmapped {Cells : Type}
    (history : string -> Fetching.HistoryQuery
               -> (option string * FetchPrices.PriceFrame Cells) + string)
    (commodity_list : list string) (start_date end_date period : option string) :
  Fetching.fetch_multiple_commodities history
    (filter Fetching.has_ticker commodity_list) start_date end_date period
  = Fetching.fetch_multiple_commodities history commodity_list
      start_date end_date period.
Proof.
  unfold Fetching.fetch_multiple_commodities. generalize (@nil (string * FetchPrices.PriceFrame Cells)).
  induction commodity_list as [|c l IH]; intros acc; [reflexivity|].
  cbn [filter fold_left]. destruct (Fetching.has_ticker c) eqn:E.
  - cbn [fold_left]. apply IH.
  - rewrite (has_no_ticker_fetches_nothing history c _ _ _ true true E).
    simpl. apply IH.
Qed.

(** X20. [fetch_all_available_commodities] returns what
    [fetch_multiple_commodities] returns for the whole list: the names it
    leaves out are those for which nothing is fetched anyway. *)
Theorem fetch_all_available_is_fetch_multiple {Cells : Type}
    (history : string -> Fetching.HistoryQuery
               -> (option string * FetchPrices.PriceFrame Cells) + string)
    (commodity_list : list string) (start_date end_date period : option string) :
  Fetching.fetch_all_available_commodities history commodity_list
    start_date end_date period
  = Fetching.fetch_multiple_commodities history commodity_list
      start_date end_date period.
Proof.
  unfold Fetching.fetch_all_available_commodities. cbv zeta.
  rewrite mapped_loop_is_filter. apply fetch_multiple_skips_unmapped.
Qed.

(** X21. [find_mappable_commodities] splits the list, in order, into
    the names with a ticker and the names without one, and fetching the
    mapped names gives what fetching the whole list gives. *)
Theorem find_mappable_commodities_partitions (commodity_list : list string) :
  let found := Fetching.find_mappable_commodities commodity_list in
  fst found = filter Fetching.has_ticker commodity_list
  /\ snd found = filter (fun c => negb (Fetching.has_ticker c)) commodity_list
  /\ forall (Cells : Type)
            (history : string -> Fetching.HistoryQuery
                       -> (option string * FetchPrices.PriceFrame Cells) + string)
            (start_date end_date period : option string),
       Fetching.fetch_all_available_commodities history (fst found)
         start_date end_date period
       = Fetching.fetch_all_available_commodities history commodity_list
           start_date end_date period.
Proof.
  cbv zeta. unfold Fetching.find_mappable_commodities.
  rewrite find_mappable_loop. cbn [fst snd app]. repeat split.
  intros Cells history start_date end_date period.
  unfold Fetching.fetch_all_available_commodities. cbv zeta.
  rewrite !mapped_loop_is_filter. cbn [app].
  rewrite filter_idempotent. reflexivity.
Qed.

(** ** The price mapping table *)

Lemma select_where_app (name : string) (a b : list PriceMappingDb.MappingRow) :
  PriceMappingDb.select_where name (a ++ b)
  = match PriceMappingDb.select_where name a with
    | Some row => Some row
    | None => PriceMappingDb.select_where name b
    end.
Proof.
  unfold PriceMappingDb.select_where.
  induction a as [|r a IH]; simpl; [reflexivity|].
  destruct (String.eqb _ name); [reflexivity | exact IH].
Qed.

Lemma select_delete_same (name : string) (rows : list PriceMappingDb.MappingRow) :
  PriceMappingDb.select_where name (PriceMappingDb.delete_where name rows) = None.
Proof.
  unfold PriceMappingDb.select_where, PriceMappingDb.delete_where.
  induction rows as [|r rows IH]; simpl; [reflexivity|].
  destruct (String.eqb (PriceMappingDb.commodity_name r) name) eqn:E; simpl;
    [|rewrite E]; exact IH.
Qed.

Lemma select_delete_other (name other : string)
    (rows : list PriceMappingDb.MappingRow) :
  String.eqb other name = false ->
  PriceMappingDb.select_where other (PriceMappingDb.delete_where name rows)
  = PriceMappingDb.select_where other rows.
Proof.
  intros Hne. unfold PriceMappingDb.select_where, PriceMappingDb.delete_where.
  induction rows as [|r rows IH]; simpl; [reflexivity|].
  destruct (String.eqb (PriceMappingDb.commodity_name r) name) eqn:E; simpl.
  - apply String.eqb_eq in E. rewrite E, String.eqb_sym, Hne. exact IH.
  - destruct (String.eqb (PriceMappingDb.commodity_name r) other);
      [reflexivity | exact IH].
Qed.

Lemma select_insert_or_replace_same (row : PriceMappingDb.MappingRow)
    (rows : list PriceMappingDb.MappingRow) :
  PriceMappingDb.select_where (PriceMappingDb.commodity_name row)
    (PriceMappingDb.insert_or_replace row rows) = Some row.
Proof.
  unfold PriceMappingDb.insert_or_replace.
  rewrite select_where_app, select_delete_same.
  unfold PriceMappingDb.select_where. simpl. rewrite String.eqb_refl. reflexivity.
Qed.

Lemma select_insert_or_replace_other (other : string)
    (row : PriceMappingDb.MappingRow) (rows : list PriceMappingDb.MappingRow) :
  String.eqb other (PriceMappingDb.commodity_name row) = false ->
  PriceMappingDb.select_where other (PriceMappingDb.insert_or_replace row rows)
  = PriceMappingDb.select_where other rows.
Proof.
  intros Hne. unfold PriceMappingDb.insert_or_replace.
  rewrite select_where_app, (select_delete_other _ _ _ Hne).
  destruct (PriceMappingDb.select_where other rows); [reflexivity|].
  unfold PriceMappingDb.select_where. simpl.
  rewrite String.eqb_sym, Hne. reflexivity.
Qed.

Lemma select_insert_or_ignore_same (row : PriceMappingDb.MappingRow)
    (rows : list PriceMappingDb.MappingRow) :
  PriceMappingDb.select_where (PriceMappingDb.commodity_name row)
    (PriceMappingDb.insert_or_ignore row rows)
  = match PriceMappingDb.select_where (PriceMappingDb.commodity_name row) rows with
    | Some held => Some held
    | None => Some row
    end.
Proof.
  unfold PriceMappingDb.insert_or_ignore.
  destruct (PriceMappingDb.select_where _ rows) eqn:E; [exact E|].
  rewrite select_where_app, E.
  unfold PriceMappingDb.select_where. simpl. rewrite String.eqb_refl. reflexivity.
Qed.

Lemma select_insert_or_ignore_other (other : string)
    (row : PriceMappingDb.MappingRow) (rows : list PriceMappingDb.MappingRow) :
  String.eqb other (PriceMappingDb.commodity_name row) = false ->
  PriceMappingDb.select_where other (PriceMappingDb.insert_or_ignore row rows)
  = PriceMappingDb.select_where other rows.
Proof.
  intros Hne. unfold PriceMappingDb.insert_or_ignore.
  destruct (PriceMappingDb.select_where (PriceMappingDb.commodity_name row) rows);
    [reflexivity|].
  rewrite select_where_app.
  destruct (PriceMappingDb.select_where other rows); [reflexivity|].
  unfold PriceMappingDb.select_where. simpl.
  rewrite String.eqb_sym, Hne. reflexivity.
Qed.

Lemma rows_of_init (db : PriceMappingDb.Database) :
  PriceMappingDb.rows_of (PriceMappingDb.init_price_mapping_db db)
  = PriceMappingDb.rows_of db.
Proof.
  unfold PriceMappingDb.init_price_mapping_db, PriceMappingDb.rows_of.
  destruct (PriceMappingDb.commodity_price_mapping db) eqn:E; [rewrite E|];
    reflexivity.
Qed.

Lemma init_with_rows (db : PriceMappingDb.Database)
    (rows : list PriceMappingDb.MappingRow) :
  PriceMappingDb.init_price_mapping_db (PriceMappingDb.with_rows db rows)
  = PriceMappingDb.with_rows db rows.
Proof. reflexivity. Qed.

Lemma get_price_mapping_rows (name : string) (db : PriceMappingDb.Database) :
  snd (PriceMappingDb.get_price_mapping name db)
  = PriceMappingDb.select_where name (PriceMappingDb.rows_of db).
Proof.
  unfold PriceMappingDb.get_price_mapping. cbn [snd]. rewrite rows_of_init.
  reflexivity.
Qed.

Lemma get_ticker_from_db_rows (name : string) (db : PriceMappingDb.Database) :
  snd (PriceMappingDb.get_ticker_for_commodity_from_db name db)
  = match PriceMappingDb.select_where name (PriceMappingDb.rows_of db) with
    | Some row =>
        if PyText.truthy_opt (PriceMappingDb.ticker_symbol row)
        then PriceMappingDb.ticker_symbol row else None
    | None => None
    end.
Proof.
  unfold PriceMappingDb.get_ticker_for_commodity_from_db,
         PriceMappingDb.get_price_mapping. cbn [snd]. rewrite rows_of_init.
  reflexivity.
Qed.

(** X22. After [update_price_mapping], [get_price_mapping] returns
    for that commodity the row just written, with [auto_mapped] 0 and both
    timestamps the instant of the update whatever row was held before, or
    nothing when the ticker symbol was [None];
    [get_ticker_for_commodity_from_db] returns the symbol unless it is
    empty. *)
Theorem update_then_get (name : string) (symbol type note : option string)
    (is_verified : bool) (now : Z) (db : PriceMappingDb.Database) :
  let db' :=
    PriceMappingDb.update_price_mapping name symbol type is_verified note now db in
  snd (PriceMappingDb.get_price_mapping name db')
  = match symbol with
    | None => None
    | Some _ =>
        Some {| PriceMappingDb.commodity_name := name;
                PriceMappingDb.ticker_symbol := symbol;
                PriceMappingDb.ticker_type := type;
                PriceMappingDb.auto_mapped := 0;
                PriceMappingDb.verified := if is_verified then 1 else 0;
                PriceMappingDb.notes := note;
                PriceMappingDb.created_at := now;
                PriceMappingDb.updated_at := now |}
    end
  /\ snd (PriceMappingDb.get_ticker_for_commodity_from_db name db')
     = (if PyText.truthy_opt symbol then symbol else None).
Proof.
  cbv zeta. rewrite get_price_mapping_rows, get_ticker_from_db_rows.
  unfold PriceMappingDb.update_price_mapping. cbv zeta.
  destruct symbol as [ticker|]; cbn [PriceMappingDb.rows_of PriceMappingDb.with_rows
                                       PriceMappingDb.commodity_price_mapping].
  - match goal with
    | |- context [PriceMappingDb.insert_or_replace ?r ?rows] =>
        pose proof (select_insert_or_replace_same r rows) as H
    end.
    cbn [PriceMappingDb.commodity_name] in H. rewrite H. split; reflexivity.
  - rewrite select_delete_same. split; reflexivity.
Qed.

(** X23. [update_price_mapping] changes the mapping of no other
    commodity. *)
Theorem update_leaves_other_commodities (name other : string)
    (symbol type note : option string) (is_verified : bool) (now : Z)
    (db : PriceMappingDb.Database) :
  other <> name ->
  snd (PriceMappingDb.get_price_mapping other
         (PriceMappingDb.update_price_mapping name symbol type is_verified
            note now db))
  = snd (PriceMappingDb.get_price_mapping other db).
Proof.
  intros Hne. apply String.eqb_neq in Hne.
  rewrite !get_price_mapping_rows.
  unfold PriceMappingDb.update_price_mapping. cbv zeta.
  destruct symbol as [ticker|]; cbn [PriceMappingDb.rows_of PriceMappingDb.with_rows
                                       PriceMappingDb.commodity_price_mapping];
    rewrite rows_of_init.
  - apply select_insert_or_replace_other. exact Hne.
  - apply select_delete_other. exact Hne.
Qed.

Lemma preferred_ticker_has_the_futures_mark (commodity_name ticker : string) :
  TickerMapping.get_ticker_for_commodity commodity_name true = Some ticker ->
  PyStr.truthy ticker = true /\ PyText.contains "=F" ticker = true.
Proof.
  intros H. destruct (get_ticker_from_an_entry _ _ _ H) as (key & tickers & Hin & Hc).
  destruct (every_entry_has_a_futures_ticker _ _ Hin) as (f & Ef & Tf & Cf).
  destruct (choose_futures tickers f Ef Tf) as [Ct _].
  rewrite Ct in Hc. inversion Hc; subst f. auto.
Qed.

Lemma auto_mapping_futures (commodity : string) :
  AutoMap.auto_mapping commodity
  = match TickerMapping.get_ticker_for_commodity
            (TickerMapping.normalize_commodity_name commodity) true with
    | Some ticker => Some (commodity, ticker, "futures")
    | None => None
    end.
Proof.
  unfold AutoMap.auto_mapping.
  destruct (TickerMapping.get_ticker_for_commodity _ true) as [ticker|] eqn:E;
    [|reflexivity].
  destruct (preferred_ticker_has_the_futures_mark _ _ E) as [-> ->]. reflexivity.
Qed.

Lemma auto_mapping_has_ticker (commodity : string) :
  Fetching.has_ticker commodity
  = match AutoMap.auto_mapping commodity with Some _ => true | None => false end.
Proof.
  unfold Fetching.has_ticker, AutoMap.auto_mapping.
  destruct (TickerMapping.get_ticker_for_commodity _ true) as [ticker|];
    [|reflexivity].
  simpl. destruct (PyStr.truthy ticker); reflexivity.
Qed.

Lemma map_each_names (names : list string) :
  forall mappings,
    PriceMappingDb.map_each (map Some names) mappings
    = inl (mappings ++ flat_map AutoMap.entries names)%list.
Proof.
  induction names as [|n names IH]; intros mappings; simpl.
  - rewrite app_nil_r. reflexivity.
  - unfold AutoMap.entries at 1, AutoMap.auto_mapping.
    destruct (TickerMapping.get_ticker_for_commodity _ true) as [ticker|];
      [|apply IH].
    destruct (PyStr.truthy ticker); [|apply IH].
    rewrite IH, <- app_assoc. reflexivity.
Qed.

Lemma entries_length (names : list string) :
  List.length (flat_map AutoMap.entries names)
  = List.length (filter Fetching.has_ticker names).
Proof.
  induction names as [|n names IH]; simpl; [reflexivity|].
  rewrite length_app, IH, auto_mapping_has_ticker. unfold AutoMap.entries.
  destruct (AutoMap.auto_mapping n); reflexivity.
Qed.

Lemma auto_mapping_name (commodity : string) (mapping : PriceMappingDb.Mapping) :
  AutoMap.auto_mapping commodity = Some mapping ->
  fst (fst mapping) = commodity.
Proof.
  unfold AutoMap.auto_mapping.
  destruct (TickerMapping.get_ticker_for_commodity _ true) as [ticker|];
    [|discriminate].
  destruct (PyStr.truthy ticker); [|discriminate].
  intros H; inversion H; reflexivity.
Qed.

Lemma auto_row_name (mapping : PriceMappingDb.Mapping) (now : Z) :
  PriceMappingDb.commodity_name (PriceMappingDb.auto_row mapping now)
  = fst (fst mapping).
Proof. destruct mapping as [[c t] ty]. reflexivity. Qed.

Lemma save_mappings_lookup (overwrite_existing : bool) (clock : string -> Z)
    (name : string) (names : list string) :
  forall rows,
    PriceMappingDb.select_where name
      (PriceMappingDb.save_mappings overwrite_existing clock
         (flat_map AutoMap.entries names) rows)
    = match (if PyStr.mem_str name names then AutoMap.auto_mapping name
             else None) with
      | Some mapping =>
          if overwrite_existing
          then Some (PriceMappingDb.auto_row mapping (clock name))
          else
            match PriceMappingDb.select_where name rows with
            | Some held => Some held
            | None => Some (PriceMappingDb.auto_row mapping (clock name))
            end
      | None => PriceMappingDb.select_where name rows
      end.
Proof.
  unfold PriceMappingDb.save_mappings.
  induction names as [|n names IH]; intros rows; [reflexivity|].
  cbn [flat_map PyStr.mem_str]. rewrite fold_left_app.
  unfold AutoMap.entries at 2.
  destruct (AutoMap.auto_mapping n) as [m|] eqn:Em; cbn [fold_left].
  - pose proof (auto_mapping_name _ _ Em) as Hn. rewrite Hn. rewrite IH.
    set (row := PriceMappingDb.auto_row m (clock n)).
    assert (Hrow : PriceMappingDb.commodity_name row = n).
    { unfold row. rewrite auto_row_name. exact Hn. }
    clear Hn. destruct (String.eqb name n) eqn:E.
    + apply String.eqb_eq in E. subst name. cbn [orb]. rewrite Em.
      assert (Hsel : PriceMappingDb.select_where n
                       (if overwrite_existing
                        then PriceMappingDb.insert_or_replace row rows
                        else PriceMappingDb.insert_or_ignore row rows)
                     = if overwrite_existing then Some row
                       else match PriceMappingDb.select_where n rows with
                            | Some held => Some held
                            | None => Some row
                            end).
      { rewrite <- Hrow. destruct overwrite_existing.
        - apply select_insert_or_replace_same.
        - apply select_insert_or_ignore_same. }
      rewrite Hsel. fold row.
      destruct (PyStr.mem_str n names), overwrite_existing; try reflexivity.
      destruct (PriceMappingDb.select_where n rows); reflexivity.
    + cbn [orb].
      assert (Hsel : PriceMappingDb.select_where name
                       (if overwrite_existing
                        then PriceMappingDb.insert_or_replace row rows
                        else PriceMappingDb.insert_or_ignore row rows)
                     = PriceMappingDb.select_where name rows).
      { rewrite <- Hrow in E. destruct overwrite_existing.
        - apply select_insert_or_replace_other, E.
        - apply select_insert_or_ignore_other, E. }
      rewrite Hsel. reflexivity.
  - rewrite IH. destruct (String.eqb name n) eqn:E; [|reflexivity].
    apply String.eqb_eq in E. subst name. cbn [orb]. rewrite Em.
    destruct (PyStr.mem_str n names); reflexivity.
Qed.

Lemma auto_map_on_names (overwrite_existing : bool) (clock : string -> Z)
    (db : PriceMappingDb.Database) (names : list string) :
  PriceMappingDb.cot_commodity_names db = Some (map Some names) ->
  PriceMappingDb.auto_map_commodities overwrite_existing clock db
  = (PriceMappingDb.with_rows (PriceMappingDb.init_price_mapping_db db)
       (PriceMappingDb.save_mappings overwrite_existing clock
          (flat_map AutoMap.entries names) (PriceMappingDb.rows_of db)),
     inl (List.length (filter Fetching.has_ticker names))).
Proof.
  intros Hnames. unfold PriceMappingDb.auto_map_commodities. cbv zeta.
  assert (Hinit : PriceMappingDb.cot_commodity_names
                    (PriceMappingDb.init_price_mapping_db db)
                  = Some (map Some names)).
  { unfold PriceMappingDb.init_price_mapping_db.
    destruct (PriceMappingDb.commodity_price_mapping db); exact Hnames. }
  rewrite Hinit, map_each_names. cbn [app].
  rewrite rows_of_init, entries_length. reflexivity.
Qed.

(** X24. A commodity of [cot_data] that has a ticker and that
    [auto_map_commodities] may write, because it overwrites or because the
    commodity has no mapping, ends up with the row of that ticker: type
    "futures", auto-mapped, not verified, without notes. *)
Theorem auto_mapped_rows_are_unverified_futures (overwrite_existing : bool)
    (clock : string -> Z) (db : PriceMappingDb.Database)
    (names : list string) (name ticker : string) :
  PriceMappingDb.cot_commodity_names db = Some (map Some names) ->
  In name names ->
  TickerMapping.get_ticker_for_commodity
    (TickerMapping.normalize_commodity_name name) true = Some ticker ->
  overwrite_existing = true
  \/ snd (PriceMappingDb.get_price_mapping name db) = None ->
  snd (PriceMappingDb.get_price_mapping name
         (fst (PriceMappingDb.auto_map_commodities overwrite_existing clock db)))
  = Some {| PriceMappingDb.commodity_name := name;
            PriceMappingDb.ticker_symbol := Some ticker;
            PriceMappingDb.ticker_type := Some "futures";
            PriceMappingDb.auto_mapped := 1;
            PriceMappingDb.verified := 0;
            PriceMappingDb.notes := None;
            PriceMappingDb.created_at := clock name;
            PriceMappingDb.updated_at := clock name |}.
Proof.
  intros Hnames Hin Ht Hfree.
  rewrite (auto_map_on_names _ _ _ _ Hnames). cbn [fst].
  rewrite get_price_mapping_rows.
  cbn [PriceMappingDb.rows_of PriceMappingDb.with_rows
       PriceMappingDb.commodity_price_mapping].
  rewrite save_mappings_lookup, (mem_str_refl _ _ Hin), auto_mapping_futures, Ht.
  destruct Hfree as [-> | Hnone]; [reflexivity|].
  rewrite get_price_mapping_rows in Hnone. rewrite Hnone.
  destruct overwrite_existing; reflexivity.
Qed.

(** X25. Without [overwrite_existing], [auto_map_commodities] leaves
    every mapping that exists as it is, and still returns the number of
    commodities that have a ticker; in either mode the mapping of a commodity
    without a ticker is left as it is. *)
Theorem auto_map_keeps_what_it_should (clock : string -> Z)
    (db : PriceMappingDb.Database) (names : list string) :
  PriceMappingDb.cot_commodity_names db = Some (map Some names) ->
  let after := PriceMappingDb.auto_map_commodities false clock db in
  snd after = inl (List.length (filter Fetching.has_ticker names))
  /\ (forall name row,
        snd (PriceMappingDb.get_price_mapping name db) = Some row ->
        snd (PriceMappingDb.get_price_mapping name (fst after)) = Some row)
  /\ (forall overwrite_existing name,
        Fetching.has_ticker name = false ->
        snd (PriceMappingDb.get_price_mapping name
               (fst (PriceMappingDb.auto_map_commodities overwrite_existing
                       clock db)))
        = snd (PriceMappingDb.get_price_mapping name db)).
Proof.
  intros Hnames. cbv zeta. split; [|split].
  - rewrite (auto_map_on_names _ _ _ _ Hnames). reflexivity.
  - intros name row Hrow. rewrite (auto_map_on_names _ _ _ _ Hnames). cbn [fst].
    rewrite get_price_mapping_rows in *.
    cbn [PriceMappingDb.rows_of PriceMappingDb.with_rows
         PriceMappingDb.commodity_price_mapping].
    rewrite save_mappings_lookup, Hrow.
    destruct (if PyStr.mem_str name names then _ else _); reflexivity.
  - intros overwrite_existing name Hno.
    rewrite (auto_map_on_names _ _ _ _ Hnames). cbn [fst].
    rewrite !get_price_mapping_rows.
    cbn [PriceMappingDb.rows_of PriceMappingDb.with_rows
         PriceMappingDb.commodity_price_mapping].
    rewrite save_mappings_lookup. rewrite auto_mapping_has_ticker in Hno.
    destruct (AutoMap.auto_mapping name); [discriminate|].
    destruct (PyStr.mem_str name names); reflexivity.
Qed.

(** ** Vintage groups *)

Lemma key_eqb_eq (a b : string * string) :
  VintageGroups.key_eqb a b = true <-> a = b.
Proof.
  destruct a as [a1 a2], b as [b1 b2]. unfold VintageGroups.key_eqb. simpl.
  rewrite andb_true_iff, !String.eqb_eq. split.
  - intros [-> ->]. reflexivity.
  - intros H; inversion H; auto.
Qed.

Lemma key_eqb_refl (a : string * string) : VintageGroups.key_eqb a a = true.
Proof. apply key_eqb_eq. reflexivity. Qed.

Lemma pair_get_set_same {V : Type} (k : string * string) (v : V)
    (d : list ((string * string) * V)) :
  VintageGroups.pair_get k (VintageGroups.pair_set k v d) = Some v.
Proof.
  induction d as [|[k0 v0] d IH]; simpl.
  - rewrite key_eqb_refl. reflexivity.
  - destruct (VintageGroups.key_eqb k k0) eqn:E; simpl.
    + rewrite key_eqb_refl. reflexivity.
    + rewrite E. exact IH.
Qed.

Lemma pair_get_set_other {V : Type} (k k' : string * string) (v : V)
    (d : list ((string * string) * V)) :
  VintageGroups.key_eqb k k' = false ->
  VintageGroups.pair_get k (VintageGroups.pair_set k' v d)
  = VintageGroups.pair_get k d.
Proof.
  intros Hne. induction d as [|[k0 v0] d IH]; simpl.
  - rewrite Hne. reflexivity.
  - destruct (VintageGroups.key_eqb k' k0) eqn:E; simpl.
    + apply key_eqb_eq in E. subst k0. rewrite Hne. reflexivity.
    + rewrite IH. reflexivity.
Qed.

Lemma pair_get_In {V : Type} (k : string * string)
    (d : list ((string * string) * V)) (v : V) :
  VintageGroups.pair_get k d = Some v -> In (k, v) d.
Proof.
  induction d as [|[k0 v0] d IH]; simpl; [discriminate|].
  destruct (VintageGroups.key_eqb k k0) eqn:E.
  - apply key_eqb_eq in E. subst k0. intros H; inversion H. left. reflexivity.
  - intros H. right. apply IH, H.
Qed.

Lemma first_match_In (commodity_name : string)
    (items : list ((string * string) * VintageGroups.GroupKey))
    (key : VintageGroups.GroupKey) :
  VintageGroups.first_match commodity_name items = Some key ->
  exists exch, In ((commodity_name, exch), key) items.
Proof.
  induction items as [|[[comm exch] k] items IH]; simpl; [discriminate|].
  destruct (String.eqb comm commodity_name) eqn:E.
  - apply String.eqb_eq in E. subst comm. intros H; inversion H; subst.
    exists exch. left. reflexivity.
  - intros H. destruct (IH H) as [e He]. exists e. right. exact He.
Qed.

Lemma mem_str_true_In (x : string) (l : list string) :
  PyStr.mem_str x l = true -> In x l.
Proof.
  induction l as [|y l IH]; simpl; [discriminate|].
  rewrite orb_true_iff. intros [H | H].
  - apply String.eqb_eq in H. left. symmetry. exact H.
  - right. apply IH, H.
Qed.

Lemma reverse_mapping_entries (commodity exch : string)
    (key : VintageGroups.GroupKey) :
  In ((commodity, exch), key) VintageGroups.COMMODITY_EXCHANGE_TO_GROUP ->
  In commodity (VintageGroups.get_group_commodities key) /\ snd key = exch.
Proof.
  intros Hin.
  assert (H : forallb
                (fun item : (string * string) * VintageGroups.GroupKey =>
                   PyStr.mem_str (fst (fst item))
                     (VintageGroups.get_group_commodities (snd item))
                   && String.eqb (snd (snd item)) (snd (fst item)))
                VintageGroups.COMMODITY_EXCHANGE_TO_GROUP = true)
    by (vm_compute; reflexivity).
  rewrite forallb_forall in H. specialize (H _ Hin). cbn [fst snd] in H.
  apply andb_true_iff in H. destruct H as [Hm He].
  split; [apply mem_str_true_In, Hm | apply String.eqb_eq, He].
Qed.

(** X26. The group that [get_vintage_group] returns lists the
    commodity, [is_vintage_commodity] is true for the same arguments, and
    with an exchange the group is one of that exchange. *)
Theorem vintage_group_holds_the_commodity (commodity_name : string)
    (exchange : option string) (key : VintageGroups.GroupKey) :
  VintageGroups.get_vintage_group commodity_name exchange = Some key ->
  In commodity_name (VintageGroups.get_group_commodities key)
  /\ VintageGroups.is_vintage_commodity commodity_name exchange = true
  /\ (PyText.truthy_opt exchange = true -> exchange = Some (snd key)).
Proof.
  unfold VintageGroups.get_vintage_group, VintageGroups.is_vintage_commodity.
  cbv zeta.
  assert (Hany : VintageGroups.first_match commodity_name
                   VintageGroups.COMMODITY_EXCHANGE_TO_GROUP = Some key ->
                 In commodity_name (VintageGroups.get_group_commodities key)
                 /\ existsb
                      (fun item : (string * string) * VintageGroups.GroupKey =>
                         String.eqb (fst (fst item)) commodity_name)
                      VintageGroups.COMMODITY_EXCHANGE_TO_GROUP = true).
  { intros H. destruct (first_match_In _ _ _ H) as [e He].
    split; [apply (reverse_mapping_entries _ _ _ He)|].
    apply existsb_exists. eexists. split; [exact He|]. apply String.eqb_refl. }
  destruct exchange as [exch|]; cbn [PyText.truthy_opt].
  - destruct (PyStr.truthy exch) eqn:Et.
    + intros H. apply pair_get_In in H.
      destruct (reverse_mapping_entries _ _ _ H) as [Hc He].
      split; [exact Hc|]. split.
      * apply existsb_exists. eexists. split; [exact H|]. apply key_eqb_refl.
      * intros _. rewrite He. reflexivity.
    + intros H. destruct (Hany H) as [Hc Hv]. repeat split; auto. discriminate.
  - intros H. destruct (Hany H) as [Hc Hv]. repeat split; auto. discriminate.
Qed.

Lemma find_app {A : Type} (p : A -> bool) (a b : list A) :
  find p (a ++ b) = match find p a with Some x => Some x | None => find p b end.
Proof.
  induction a as [|x a IH]; simpl; [reflexivity|].
  destruct (p x); [reflexivity | exact IH].
Qed.

Lemma reverse_mapping_group (commodity exch : string)
    (key : VintageGroups.GroupKey) (members : list string) :
  forall index,
    VintageGroups.pair_get (commodity, exch)
      (fold_left
         (fun index member =>
            VintageGroups.pair_set (member, snd key) key index)
         members index)
    = if String.eqb (snd key) exch && PyStr.mem_str commodity members
      then Some key
      else VintageGroups.pair_get (commodity, exch) index.
Proof.
  induction members as [|m members IH]; intros index.
  - simpl. rewrite andb_false_r. reflexivity.
  - cbn [fold_left PyStr.mem_str]. rewrite IH.
    destruct (String.eqb (snd key) exch) eqn:Ee; cbn [andb].
    + destruct (PyStr.mem_str commodity members); [rewrite orb_true_r; reflexivity|].
      rewrite orb_false_r. destruct (String.eqb commodity m) eqn:Ec.
      * apply String.eqb_eq in Ec, Ee. subst. apply pair_get_set_same.
      * apply pair_get_set_other. unfold VintageGroups.key_eqb. cbn [fst snd].
        rewrite Ec. reflexivity.
    + apply pair_get_set_other. unfold VintageGroups.key_eqb. cbn [fst snd].
      rewrite (String.eqb_sym exch), Ee. apply andb_false_r.
Qed.

Lemma reverse_mapping_last (commodity exch : string)
    (groups : list (VintageGroups.GroupKey * VintageGroups.Group)) :
  VintageGroups.pair_get (commodity, exch) (VintageGroups.reverse_mapping groups)
  = option_map fst
      (find (fun item : VintageGroups.GroupKey * VintageGroups.Group =>
               String.eqb (snd (fst item)) exch
               && PyStr.mem_str commodity (VintageGroups.commodities (snd item)))
         (rev groups)).
Proof.
  unfold VintageGroups.reverse_mapping.
  assert (H : forall index,
             VintageGroups.pair_get (commodity, exch)
               (fold_left
                  (fun index (item : VintageGroups.GroupKey * VintageGroups.Group) =>
                     let '(group_key, group_data) := item in
                     let '(_, exchange) := group_key in
                     fold_left
                       (fun index member =>
                          VintageGroups.pair_set (member, exchange) group_key index)
                       (VintageGroups.commodities group_data) index)
                  groups index)
             = match find
                       (fun item : VintageGroups.GroupKey * VintageGroups.Group =>
                          String.eqb (snd (fst item)) exch
                          && PyStr.mem_str commodity
                               (VintageGroups.commodities (snd item)))
                       (rev groups) with
               | Some item => Some (fst item)
               | None => VintageGroups.pair_get (commodity, exch) index
               end).
  { induction groups as [|[[base e] data] groups IH]; intros index; [reflexivity|].
    cbn [fold_left rev]. rewrite IH, find_app.
    destruct (find _ (rev groups)); [reflexivity|].
    cbn [find fst snd].
    pose proof (reverse_mapping_group commodity exch (base, e)
                  (VintageGroups.commodities data) index) as Hg.
    cbn [snd] in Hg. rewrite Hg.
    destruct (String.eqb e exch && _); reflexivity. }
  rewrite H. destruct (find _ (rev groups)); reflexivity.
Qed.

(** X27. With an exchange, [get_vintage_group] returns the key of
    the last group of [VINTAGE_GROUPS] at that exchange that lists the
    commodity: of two groups of one exchange that list it, the earlier one
    is never returned. *)
Theorem exchange_lookup_returns_the_last_group (commodity_name exchange : string) :
  PyStr.truthy exchange = true ->
  VintageGroups.get_vintage_group commodity_name (Some exchange)
  = option_map fst
      (find (fun item : VintageGroups.GroupKey * VintageGroups.Group =>
               String.eqb (snd (fst item)) exchange
               && PyStr.mem_str commodity_name
                    (VintageGroups.commodities (snd item)))
         (rev VintageGroups.VINTAGE_GROUPS)).
Proof.
  intros Ht. unfold VintageGroups.get_vintage_group. rewrite Ht.
  rewrite <- reverse_mapping_last. reflexivity.
Qed.

Lemma set_add_In (x y : string) (elements : list string) :
  In y (VintageGroups.set_add x elements) <-> y = x \/ In y elements.
Proof.
  unfold VintageGroups.set_add. destruct (PyStr.mem_str x elements) eqn:E.
  - split; [auto|]. intros [-> | H]; [apply mem_str_true_In, E | exact H].
  - rewrite in_app_iff. simpl. intuition.
Qed.

Lemma set_add_NoDup (x : string) (elements : list string) :
  NoDup elements -> NoDup (VintageGroups.set_add x elements).
Proof.
  intros H. unfold VintageGroups.set_add.
  destruct (PyStr.mem_str x elements) eqn:E; [exact H|].
  apply NoDup_app; [exact H | repeat constructor; intros [] |].
  intros y Hy [<- | []]. exact (mem_str_In _ _ E Hy).
Qed.

Lemma insert_sorted_perm (x : string) (l : list string) :
  Permutation (x :: l) (VintageGroups.insert_sorted x l).
Proof.
  induction l as [|y l IH]; simpl; [reflexivity|].
  destruct (String.leb x y); [reflexivity|].
  rewrite perm_swap. constructor. exact IH.
Qed.

Lemma sorted_perm (l : list string) : Permutation l (VintageGroups.sorted l).
Proof.
  induction l as [|x l IH]; simpl; [reflexivity|].
  rewrite <- insert_sorted_perm. constructor. exact IH.
Qed.

Lemma insert_sorted_Sorted (x : string) (l : list string) :
  Sorted (fun a b => String.leb a b = true) l ->
  Sorted (fun a b => String.leb a b = true) (VintageGroups.insert_sorted x l).
Proof.
  induction l as [|y l IH]; intros Hs; simpl.
  - repeat constructor.
  - destruct (String.leb x y) eqn:E.
    + constructor; [exact Hs | constructor; exact E].
    + inversion Hs as [|? ? Hs' Hhd]; subst. constructor; [apply IH, Hs'|].
      assert (Hyx : String.leb y x = true).
      { destruct (String.leb_total x y) as [H | H]; [congruence | exact H]. }
      destruct l as [|z l]; simpl.
      * constructor. exact Hyx.
      * destruct (String.leb x z); constructor; [exact Hyx|].
        inversion Hhd; assumption.
Qed.

Lemma sorted_Sorted (l : list string) :
  Sorted (fun a b => String.leb a b = true) (VintageGroups.sorted l).
Proof.
  induction l as [|x l IH]; simpl; [constructor|].
  apply insert_sorted_Sorted, IH.
Qed.

(** X28. [get_exchanges_for_commodity] returns, in ascending order
    and without repetition, exactly the exchanges that form a key of
    [VINTAGE_GROUPS] with the base name. *)
Theorem exchanges_are_sorted_and_complete (base_commodity_name : string) :
  let found := VintageGroups.get_exchanges_for_commodity base_commodity_name in
  Sorted (fun a b => String.leb a b = true) found
  /\ NoDup found
  /\ forall exchange,
       In exchange found
       <-> In (base_commodity_name, exchange)
              (map fst VintageGroups.VINTAGE_GROUPS).
Proof.
  cbv zeta. unfold VintageGroups.get_exchanges_for_commodity. cbv zeta.
  set (step := fun (exchanges : list string)
                   (item : VintageGroups.GroupKey * VintageGroups.Group) =>
                 let '((base_name, exchange), _) := item in
                 if String.eqb base_name base_commodity_name
                 then VintageGroups.set_add exchange exchanges
                 else exchanges).
  assert (H : forall groups acc,
             NoDup acc ->
             NoDup (fold_left step groups acc)
             /\ forall exchange,
                  In exchange (fold_left step groups acc)
                  <-> In exchange acc
                      \/ In (base_commodity_name, exchange) (map fst groups)).
  { induction groups as [|[[base e] data] groups IH]; intros acc Hacc.
    - split; [exact Hacc|]. intros exchange. simpl. tauto.
    - cbn [fold_left map fst].
      assert (Hnd : NoDup (step acc (base, e, data))).
      { unfold step. destruct (String.eqb base base_commodity_name);
          [apply set_add_NoDup|]; exact Hacc. }
      destruct (IH _ Hnd) as [Hn Hi]. split; [exact Hn|].
      intros exchange. rewrite Hi. unfold step. cbn [In].
      destruct (String.eqb base base_commodity_name) eqn:E.
      + apply String.eqb_eq in E. subst base. rewrite set_add_In.
        split; [intros [[-> | H] | H]; auto | intros [H | [H | H]]; auto].
        inversion H; auto.
      + apply String.eqb_neq in E.
        split; [intros [H | H]; auto | intros [H | [H | H]]; auto].
        inversion H; subst. contradiction. }
  destruct (H VintageGroups.VINTAGE_GROUPS [] (NoDup_nil _)) as [Hn Hi].
  split; [apply sorted_Sorted|]. split.
  - eapply Permutation_NoDup; [apply sorted_perm | exact Hn].
  - intros exchange. rewrite <- (Permutation_in' eq_refl (sorted_perm _)), Hi.
    simpl. tauto.
Qed.

(** ** Vintage years *)

Lemma string_length_append (a b : string) :
  String.length (a ++ b) = (String.length a + String.length b)%nat.
Proof. induction a as [|c a IH]; simpl; [reflexivity | rewrite IH; reflexivity]. Qed.

Lemma all_chars_append (p : ascii -> bool) (a b : string) :
  PyStr.all_chars p (a ++ b) = PyStr.all_chars p a && PyStr.all_chars p b.
Proof.
  induction a as [|c a IH]; simpl; [reflexivity|].
  rewrite IH, andb_assoc. reflexivity.
Qed.

Lemma digits_shape (n : nat) :
  forall s group rest,
    VintageGroups.digits n s = Some (group, rest) ->
    s = group ++ rest
    /\ String.length group = n
    /\ PyStr.all_chars PyStr.is_digit group = true.
Proof.
  induction n as [|n IH]; intros s group rest; simpl.
  - intros H; inversion H; subst. auto.
  - destruct s as [|c s]; [discriminate|].
    destruct (PyStr.is_digit c) eqn:Ec; [|discriminate].
    destruct (VintageGroups.digits n s) as [[g r]|] eqn:E; [|discriminate].
    intros H; inversion H; subst. destruct (IH _ _ _ E) as (-> & Hl & Hd).
    simpl. rewrite Hl, Ec, Hd. auto.
Qed.

Lemma v_digits_shape (n : nat) (s group rest : string) :
  VintageGroups.v_digits n s = Some (group, rest) ->
  exists v,
    PyStr.ci_eqb "V" v = true
    /\ s = String v (group ++ rest)
    /\ String.length group = n
    /\ PyStr.all_chars PyStr.is_digit group = true.
Proof.
  unfold VintageGroups.v_digits. destruct s as [|c s]; [discriminate|].
  destruct (PyStr.ci_eqb "V" c) eqn:Ev; [|discriminate].
  intros H. destruct (digits_shape _ _ _ _ H) as (-> & Hl & Hd).
  exists c. auto.
Qed.

Lemma match_literal_consumes (label : string) :
  forall s prev last rest,
    Re.match_literal label s prev = Some (last, rest) ->
    exists consumed, s = consumed ++ rest.
Proof.
  induction label as [|a label IH]; intros s prev last rest; simpl.
  - intros H; inversion H; subst. exists "". reflexivity.
  - destruct s as [|c s]; [discriminate|].
    destruct (PyStr.ci_eqb a c); [|discriminate].
    intros H. destruct (IH _ _ _ _ H) as [consumed ->].
    exists (String c consumed). reflexivity.
Qed.

Lemma lstrip_consumes (s : string) :
  exists blank, s = blank ++ PyStr.lstrip s.
Proof.
  induction s as [|c s [blank IH]]; [exists ""; reflexivity|].
  simpl. destruct (PyStr.is_space c).
  - exists (String c blank). simpl. rewrite <- IH. reflexivity.
  - exists "". reflexivity.
Qed.

(** What a match of each pattern at one position says about the text
    from that position on. *)

Lemma v_four_digits_shape (prev : option ascii) (s group : string) :
  VintageGroups.v_four_digits prev s = Some group ->
  exists a b,
    s = a ++ group ++ b
    /\ String.length group = 4%nat
    /\ PyStr.all_chars PyStr.is_digit group = true.
Proof.
  unfold VintageGroups.v_four_digits.
  destruct (VintageGroups.v_digits 4 s) as [[g rest]|] eqn:E; [|discriminate].
  simpl. intros H; inversion H; subst.
  destruct (v_digits_shape _ _ _ _ E) as (v & _ & -> & Hl & Hd).
  exists (String v ""), rest. auto.
Qed.

Lemma vintage_four_digits_shape (prev : option ascii) (s group : string) :
  VintageGroups.vintage_four_digits prev s = Some group ->
  exists a b,
    s = a ++ group ++ b
    /\ String.length group = 4%nat
    /\ PyStr.all_chars PyStr.is_digit group = true.
Proof.
  unfold VintageGroups.vintage_four_digits.
  destruct (Re.match_literal "VINTAGE" s prev) as [[last rest]|] eqn:Em;
    [|discriminate].
  destruct (match_literal_consumes _ _ _ _ _ Em) as [consumed ->].
  destruct rest as [|c rest']; [discriminate|].
  destruct (PyStr.is_space c); [|discriminate].
  destruct (lstrip_consumes (String c rest')) as [blank Hb].
  destruct (VintageGroups.digits 4 (PyStr.lstrip (String c rest')))
    as [[g r]|] eqn:Ed; [|discriminate].
  simpl. intros H; inversion H; subst.
  destruct (digits_shape _ _ _ _ Ed) as (Hs & Hl & Hd).
  exists (consumed ++ blank), r. split; [|auto].
  rewrite Hb, Hs, !append_assoc. reflexivity.
Qed.

Lemma v_two_digits_space_shape (prev : option ascii) (s group : string) :
  VintageGroups.v_two_digits_space prev s = Some group ->
  exists a c rest,
    s = a ++ group ++ String c rest
    /\ String.length group = 2%nat
    /\ PyStr.all_chars PyStr.is_digit group = true.
Proof.
  unfold VintageGroups.v_two_digits_space.
  destruct (VintageGroups.v_digits 2 s) as [[g rest]|] eqn:E; [|discriminate].
  destruct rest as [|c rest]; [discriminate|].
  destruct (PyStr.is_space c); [|discriminate].
  intros H; inversion H; subst.
  destruct (v_digits_shape _ _ _ _ E) as (v & _ & -> & Hl & Hd).
  exists (String v ""), c, rest. auto.
Qed.

Lemma v_two_digits_end_shape (prev : option ascii) (s group : string) :
  VintageGroups.v_two_digits_end prev s = Some group ->
  exists v rest,
    PyStr.ci_eqb "V" v = true
    /\ s = String v "" ++ group ++ rest
    /\ String.length group = 2%nat
    /\ PyStr.all_chars PyStr.is_digit group = true.
Proof.
  unfold VintageGroups.v_two_digits_end.
  destruct (VintageGroups.v_digits 2 s) as [[g rest]|] eqn:E; [|discriminate].
  destruct (String.eqb rest "" || _); [|discriminate].
  intros H; inversion H; subst.
  destruct (v_digits_shape _ _ _ _ E) as (v & Hv & -> & Hl & Hd).
  exists v, rest. auto.
Qed.

Lemma standalone_digits_shape (n : nat) (prev : option ascii) (s group : string) :
  VintageGroups.standalone_digits n prev s = Some group ->
  exists rest,
    s = group ++ rest
    /\ String.length group = n
    /\ PyStr.all_chars PyStr.is_digit group = true
    /\ Re.boundary prev (Re.head s) = true.
Proof.
  unfold VintageGroups.standalone_digits.
  destruct (Re.boundary prev (Re.head s)) eqn:Eb; [|discriminate].
  destruct (VintageGroups.digits n s) as [[g rest]|] eqn:E; [|discriminate].
  destruct (Re.boundary _ (Re.head rest)); [|discriminate].
  intros H; inversion H; subst.
  destruct (digits_shape _ _ _ _ E) as (Hs & Hl & Hd).
  exists rest. auto.
Qed.

Lemma last_append (prev : option ascii) (a b : string) :
  VintageGroups.last prev (a ++ b)
  = VintageGroups.last (VintageGroups.last prev a) b.
Proof.
  revert prev. induction a as [|c a IH]; intros prev; simpl; [reflexivity|].
  apply IH.
Qed.

Lemma search_found (pattern : VintageGroups.Pattern) (text : string) :
  forall prev group,
    VintageGroups.search pattern prev text = Some group ->
    exists before from,
      text = before ++ from
      /\ pattern (VintageGroups.last prev before) from = Some group.
Proof.
  induction text as [|c text IH]; intros prev group; simpl.
  - destruct (pattern prev "") eqn:E; [|discriminate].
    intros H; inversion H; subst. exists "", "". auto.
  - destruct (pattern prev (String c text)) eqn:E.
    + intros H; inversion H; subst. exists "", (String c text). auto.
    + intros H. destruct (IH _ _ H) as (before & from & -> & Hp).
      exists (String c before), from. auto.
Qed.

Lemma search_finds (pattern : VintageGroups.Pattern) (before from : string) :
  forall prev group,
    pattern (VintageGroups.last prev before) from = Some group ->
    exists first, VintageGroups.search pattern prev (before ++ from) = Some first.
Proof.
  induction before as [|c before IH]; intros prev group H.
  - simpl in *. destruct from; simpl; rewrite H; eauto.
  - simpl. destruct (pattern prev (String c (before ++ from))); [eauto|].
    apply (IH _ _ H).
Qed.

Lemma two_digits_bound (group : string) :
  String.length group = 2%nat ->
  PyStr.all_chars PyStr.is_digit group = true ->
  (VintageGroups.int group <= 99)%nat.
Proof.
  destruct group as [|a [|b [|c g]]]; try discriminate. intros _.
  simpl. rewrite andb_true_r, andb_true_iff.
  unfold PyStr.is_digit, PyStr.between. rewrite !andb_true_iff, !Nat.leb_le.
  unfold VintageGroups.int. simpl. lia.
Qed.

Lemma first_year_shape (patterns : list (VintageGroups.Pattern * nat))
    (commodity_name year : string) :
  Forall (fun entry : VintageGroups.Pattern * nat =>
            (snd entry = 2%nat \/ snd entry = 4%nat)
            /\ forall prev s group,
                 fst entry prev s = Some group ->
                 String.length group = snd entry
                 /\ PyStr.all_chars PyStr.is_digit group = true)
         patterns ->
  VintageGroups.first_year patterns commodity_name = inl (Some year) ->
  String.length year = 4%nat /\ PyStr.all_chars PyStr.is_digit year = true.
Proof.
  induction 1 as [|[pattern count] rest [Hcount Hshape] _ IH];
    cbn [VintageGroups.first_year]; [discriminate|].
  cbn [fst snd] in *.
  destruct (VintageGroups.search pattern None commodity_name) as [group|] eqn:E;
    [|exact IH].
  destruct (search_found _ _ _ _ E) as (before & from & _ & Hp).
  destruct (Hshape _ _ _ Hp) as [Hl Hd].
  destruct Hcount as [-> | ->]; cbn [Nat.eqb].
  - pose proof (two_digits_bound _ Hl Hd) as Hb.
    destruct (20 <=? VintageGroups.int group)%nat eqn:E20.
    + apply Nat.leb_le in Hb. rewrite Hb. cbn [andb].
      intros H; inversion H; subst. simpl. rewrite Hl, Hd. auto.
    + cbn [andb]. apply Nat.leb_gt in E20. apply Nat.ltb_lt in E20. rewrite E20.
      discriminate.
  - intros H; inversion H; subst. auto.
Qed.

(** X29. A year that [extract_vintage_year] returns is made of four
    digits. *)
Theorem vintage_year_has_four_digits (commodity_name year : string) :
  VintageGroups.extract_vintage_year commodity_name = inl (Some year) ->
  String.length year = 4%nat /\ PyStr.all_chars PyStr.is_digit year = true.
Proof.
  apply first_year_shape. unfold VintageGroups.patterns.
  repeat (constructor; [cbn [fst snd]; split; [auto|] |]).
  - intros prev s g H. destruct (v_four_digits_shape _ _ _ H) as (a & b & _ & ?). auto.
  - intros prev s g H. destruct (vintage_four_digits_shape _ _ _ H) as (a & b & _ & ?).
    auto.
  - intros prev s g H.
    destruct (v_two_digits_space_shape _ _ _ H) as (a & c & r & _ & ?). auto.
  - intros prev s g H.
    destruct (v_two_digits_end_shape _ _ _ H) as (v & r & _ & _ & ?). auto.
  - intros prev s g H.
    destruct (standalone_digits_shape _ _ _ _ H) as (r & _ & ? & ? & _). auto.
  - intros prev s g H.
    destruct (standalone_digits_shape _ _ _ _ H) as (r & _ & ? & ? & _). auto.
  - constructor.
Qed.

(** A run of digits in a text whose digits are all in its tail lies in the
    tail. *)
Lemma digits_lie_in_the_tail (base tail : string) :
  PyStr.all_chars (fun c => negb (PyStr.is_digit c)) base = true ->
  forall a group b,
    PyStr.all_chars PyStr.is_digit group = true ->
    group <> "" ->
    base ++ tail = a ++ group ++ b ->
    exists a', a = base ++ a' /\ tail = a' ++ group ++ b.
Proof.
  induction base as [|c base IH]; intros Hbase a group b Hd Hne Heq.
  - exists a. auto.
  - simpl in Hbase. apply andb_true_iff in Hbase. destruct Hbase as [Hc Hbase].
    destruct a as [|c0 a].
    + destruct group as [|d group]; [congruence|].
      simpl in Heq, Hd. inversion Heq; subst d.
      apply andb_true_iff in Hd. destruct Hd as [Hd _].
      rewrite Hd in Hc. discriminate.
    + simpl in Heq. inversion Heq; subst c0.
      destruct (IH Hbase a group b Hd Hne H1) as (a' & -> & Ht).
      exists a'. auto.
Qed.

Lemma nonempty_of_length (s : string) (n : nat) :
  String.length s = S n -> s <> "".
Proof. destruct s; [discriminate | discriminate]. Qed.

Lemma append_empty_both (a b : string) : a ++ b = "" -> a = "" /\ b = "".
Proof. destruct a; [auto | discriminate]. Qed.

Lemma length_zero (s : string) : String.length s = 0%nat -> s = "".
Proof. destruct s; [reflexivity | discriminate]. Qed.

Section TwoDigits.

Variables (base : string) (d1 d2 : ascii).
Hypothesis base_has_no_digit :
  PyStr.all_chars (fun c => negb (PyStr.is_digit c)) base = true.

(** The text has no run of more than two digits, and none of two digits
    with more text after it. *)
Lemma no_long_run (a group b : string) (n : nat) :
  base ++ String d1 (String d2 "") = a ++ group ++ b ->
  String.length group = S n ->
  PyStr.all_chars PyStr.is_digit group = true ->
  (2 < String.length group + String.length b)%nat ->
  False.
Proof.
  intros Heq Hl Hd Hlong.
  destruct (digits_lie_in_the_tail base (String d1 (String d2 ""))
              base_has_no_digit a group b Hd (nonempty_of_length _ _ Hl) Heq) as (a' & _ & Ht).
  apply (f_equal String.length) in Ht.
  rewrite !string_length_append in Ht. simpl in Ht. lia.
Qed.

Lemma run_of_two (a group b : string) :
  base ++ String d1 (String d2 "") = a ++ group ++ b ->
  String.length group = 2%nat ->
  PyStr.all_chars PyStr.is_digit group = true ->
  a = base /\ group = String d1 (String d2 "") /\ b = "".
Proof.
  intros Heq Hl Hd.
  destruct (digits_lie_in_the_tail base (String d1 (String d2 ""))
              base_has_no_digit a group b Hd (nonempty_of_length _ _ Hl) Heq) as (a' & -> & Ht).
  pose proof (f_equal String.length Ht) as Hlen.
  rewrite !string_length_append in Hlen. simpl in Hlen.
  assert (Ha : a' = "") by (apply length_zero; lia).
  assert (Hb : b = "") by (apply length_zero; lia).
  subst a' b. rewrite append_empty_r in *. simpl in Ht. auto.
Qed.

Lemma search_v_four_digits :
  VintageGroups.search VintageGroups.v_four_digits None
    (base ++ String d1 (String d2 ""))
  = None.
Proof.
  destruct (VintageGroups.search _ None (base ++ String d1 (String d2 "")))
    as [g|] eqn:E; [|reflexivity].
  destruct (search_found _ _ _ _ E) as (before & from & Ht & Hp).
  destruct (v_four_digits_shape _ _ _ Hp) as (a & b & -> & Hl & Hd).
  rewrite <- append_assoc in Ht.
  exfalso. apply (no_long_run _ _ _ 3 Ht Hl Hd). lia.
Qed.

Lemma search_vintage_four_digits :
  VintageGroups.search VintageGroups.vintage_four_digits None
    (base ++ String d1 (String d2 ""))
  = None.
Proof.
  destruct (VintageGroups.search _ None (base ++ String d1 (String d2 "")))
    as [g|] eqn:E; [|reflexivity].
  destruct (search_found _ _ _ _ E) as (before & from & Ht & Hp).
  destruct (vintage_four_digits_shape _ _ _ Hp) as (a & b & -> & Hl & Hd).
  rewrite <- append_assoc in Ht.
  exfalso. apply (no_long_run _ _ _ 3 Ht Hl Hd). lia.
Qed.

Lemma search_v_two_digits_space :
  VintageGroups.search VintageGroups.v_two_digits_space None
    (base ++ String d1 (String d2 ""))
  = None.
Proof.
  destruct (VintageGroups.search _ None (base ++ String d1 (String d2 "")))
    as [g|] eqn:E; [|reflexivity].
  destruct (search_found _ _ _ _ E) as (before & from & Ht & Hp).
  destruct (v_two_digits_space_shape _ _ _ Hp) as (a & c & r & -> & Hl & Hd).
  rewrite <- append_assoc in Ht.
  exfalso. apply (no_long_run _ _ _ 1 Ht Hl Hd). simpl. lia.
Qed.

Lemma search_four_standalone_digits :
  VintageGroups.search (VintageGroups.standalone_digits 4) None
    (base ++ String d1 (String d2 ""))
  = None.
Proof.
  destruct (VintageGroups.search _ None (base ++ String d1 (String d2 "")))
    as [g|] eqn:E; [|reflexivity].
  destruct (search_found _ _ _ _ E) as (before & from & Ht & Hp).
  destruct (standalone_digits_shape _ _ _ _ Hp) as (r & -> & Hl & Hd & _).
  exfalso. apply (no_long_run _ _ _ 3 Ht Hl Hd). lia.
Qed.

Lemma search_v_two_digits_end (group : string) :
  VintageGroups.search VintageGroups.v_two_digits_end None
    (base ++ String d1 (String d2 ""))
  = Some group ->
  group = String d1 (String d2 "").
Proof.
  intros E. destruct (search_found _ _ _ _ E) as (before & from & Ht & Hp).
  destruct (v_two_digits_end_shape _ _ _ Hp) as (v & r & _ & -> & Hl & Hd).
  rewrite <- append_assoc in Ht.
  apply (run_of_two _ _ _ Ht Hl Hd).
Qed.

Lemma search_two_standalone_digits (group : string) :
  VintageGroups.search (VintageGroups.standalone_digits 2) None
    (base ++ String d1 (String d2 ""))
  = Some group ->
  group = String d1 (String d2 "").
Proof.
  intros E. destruct (search_found _ _ _ _ E) as (before & from & Ht & Hp).
  destruct (standalone_digits_shape _ _ _ _ Hp) as (r & -> & Hl & Hd & _).
  apply (run_of_two _ _ _ Ht Hl Hd).
Qed.

End TwoDigits.

Lemma last_is_the_end (s : string) (c : ascii) :
  VintageGroups.last None s = Some c -> exists before, s = before ++ String c "".
Proof.
  assert (H : forall s prev,
             VintageGroups.last prev s = Some c ->
             s = "" \/ exists before, s = before ++ String c "").
  { clear s. induction s as [|a s IH]; intros prev Hl; [auto|]. right.
    simpl in Hl. destruct (IH _ Hl) as [-> | [before ->]].
    - simpl in Hl. inversion Hl; subst. exists "". reflexivity.
    - exists (String a before). reflexivity. }
  intros Hl. destruct (H s None Hl) as [-> | Hb]; [discriminate | exact Hb].
Qed.

(** X30. On a name that ends in two digits for a number below 20,
    has no other digit, and has before the two digits a "V", a character
    that is no letter and no underscore, or nothing, [extract_vintage_year]
    raises instead of returning a year. *)
Theorem two_digit_years_before_2020_raise (base : string) (d1 d2 : ascii) :
  PyStr.all_chars (fun c => negb (PyStr.is_digit c)) base = true ->
  PyStr.is_digit d1 = true ->
  PyStr.is_digit d2 = true ->
  (VintageGroups.int (String d1 (String d2 "")) < 20)%nat ->
  match VintageGroups.last None base with
  | Some c => negb (Re.is_word c) || PyStr.ci_eqb "V" c
  | None => true
  end = true ->
  VintageGroups.extract_vintage_year (base ++ String d1 (String d2 ""))
  = inr "Unknown format code 'd' for object of type 'str'".
Proof.
  intros Hbase H1 H2 Hsmall Hend.
  assert (Hout : forall group,
             group = String d1 (String d2 "") ->
             (if (20 <=? VintageGroups.int group)%nat
                 && (VintageGroups.int group <=? 99)%nat
              then inl (Some ("20" ++ group))
              else if (VintageGroups.int group <? 20)%nat
                   then inr "Unknown format code 'd' for object of type 'str'"
                   else inl (Some group))
             = (inr "Unknown format code 'd' for object of type 'str'"
                : option string + string)).
  { intros group ->.
    assert (E20 : (20 <=? VintageGroups.int (String d1 (String d2 "")))%nat = false)
      by (apply Nat.leb_gt; exact Hsmall).
    apply Nat.ltb_lt in Hsmall. rewrite E20, Hsmall. reflexivity. }
  unfold VintageGroups.extract_vintage_year, VintageGroups.patterns.
  cbn [VintageGroups.first_year Nat.eqb].
  rewrite (search_v_four_digits base d1 d2 Hbase).
  rewrite (search_vintage_four_digits base d1 d2 Hbase).
  rewrite (search_v_two_digits_space base d1 d2 Hbase).
  destruct (VintageGroups.search VintageGroups.v_two_digits_end None
              (base ++ String d1 (String d2 ""))) as [g|] eqn:E4.
  { apply Hout. apply (search_v_two_digits_end base d1 d2 Hbase _ E4). }
  rewrite (search_four_standalone_digits base d1 d2 Hbase).
  assert (Hword : Re.word_opt (VintageGroups.last None base) = false).
  { destruct (VintageGroups.last None base) as [c|] eqn:El; [|reflexivity].
    simpl. apply orb_true_iff in Hend. destruct Hend as [Hn | Hv].
    - apply negb_true_iff, Hn.
    - exfalso. destruct (last_is_the_end _ _ El) as [before Hb].
      assert (Hp : VintageGroups.v_two_digits_end
                     (VintageGroups.last None before)
                     (String c "" ++ String d1 (String d2 ""))
                   = Some (String d1 (String d2 ""))).
      { unfold VintageGroups.v_two_digits_end, VintageGroups.v_digits.
        simpl. rewrite Hv, H1, H2. reflexivity. }
      destruct (search_finds _ _ _ _ _ Hp) as [first Hf].
      rewrite <- append_assoc, <- Hb in Hf. rewrite Hf in E4. discriminate. }
  assert (Hp : VintageGroups.standalone_digits 2
                 (VintageGroups.last None base) (String d1 (String d2 ""))
               = Some (String d1 (String d2 ""))).
  { assert (W1 : Re.is_word d1 = true)
      by (unfold Re.is_word; rewrite H1, orb_true_r; reflexivity).
    assert (W2 : Re.is_word d2 = true)
      by (unfold Re.is_word; rewrite H2, orb_true_r; reflexivity).
    unfold VintageGroups.standalone_digits, Re.boundary.
    cbn [Re.head Re.word_opt VintageGroups.digits]. rewrite Hword, W1, H1, H2.
    cbn [xorb VintageGroups.last Re.head Re.word_opt]. rewrite W2. reflexivity. }
  destruct (search_finds _ _ _ _ _ Hp) as [first Hf]. rewrite Hf.
  apply Hout. apply (search_two_standalone_digits base d1 d2 Hbase _ Hf).
Qed.


(** ** The further properties at the sample inputs *)

(** X2 with the guarded stand-in for [data.eval]. *)
Lemma only_whitelisted_text_is_evaluated_witness :
  (forall text,
      PyStr.all_chars whitelisted_or_bracket text = true ->
      Sample.df_eval Sample.data text = Sample.guarded_eval Sample.data text)
  /\ App.evaluate_formula Sample.df_eval "Open Interest + 1" Sample.data
       Sample.short_to_technical
     = App.evaluate_formula Sample.guarded_eval "Open Interest + 1" Sample.data
         Sample.short_to_technical.
Proof.
  assert (H : forall text,
             PyStr.all_chars whitelisted_or_bracket text = true ->
             Sample.df_eval Sample.data text = Sample.guarded_eval Sample.data text).
  { intros text Ht. unfold Sample.guarded_eval. rewrite Ht. reflexivity. }
  split; [exact H|].
  exact (only_whitelisted_text_is_evaluated Sample.df_eval Sample.guarded_eval
           "Open Interest + 1" Sample.data Sample.short_to_technical H).
Defined.

(** X3 at "(mm long) * (" with the alias "MM Long". *)
Lemma whole_word_is_translated_witness :
  Re.word_opt (Re.head "MM Long") = true
  /\ Re.word_opt (Text.last_char None "MM Long") = true
  /\ Text.same_ignoring_case "mm long" "MM Long" = true
  /\ PyStr.all_chars Text.not_word "(" = true
  /\ PyStr.all_chars Text.not_word ") * (" = true
  /\ Translator.convert_short_names_to_technical "(mm long) * ("
       [("MM Long", "M_Money_Positions_Long_ALL")]
     = "(M_Money_Positions_Long_ALL) * (".
Proof.
  repeat (split; [reflexivity|]).
  exact (whole_word_is_translated "MM Long" "M_Money_Positions_Long_ALL" "mm long"
           "(" ") * (" eq_refl eq_refl eq_refl eq_refl eq_refl).
Defined.

(** X5 with two registered columns and one that is not. *)
Lemma short_name_selects_its_column_witness :
  NoDup (map ColumnMapping.get_short_name
           ["Open_Interest_All"; "M_Money_Positions_Long_ALL"; "Traders_Tot_All"])
  /\ incl ["Traders_Tot_All"; "Open_Interest_All"]
          ["Open_Interest_All"; "M_Money_Positions_Long_ALL"; "Traders_Tot_All"]
  /\ map (fun short =>
            ColumnMapping.lookup short
              (Translator.build_short_to_technical
                 ["Open_Interest_All"; "M_Money_Positions_Long_ALL";
                  "Traders_Tot_All"]))
         ["Traders_Tot_All"; "Open Interest"]
     = [Some "Traders_Tot_All"; Some "Open_Interest_All"].
Proof.
  assert (Hnd : NoDup (map ColumnMapping.get_short_name
                         ["Open_Interest_All"; "M_Money_Positions_Long_ALL";
                          "Traders_Tot_All"])).
  { vm_compute. repeat constructor; simpl; intuition discriminate. }
  assert (Hin : incl ["Traders_Tot_All"; "Open_Interest_All"]
                     ["Open_Interest_All"; "M_Money_Positions_Long_ALL";
                      "Traders_Tot_All"]).
  { intros c [<- | [<- | []]]; simpl; auto. }
  split; [exact Hnd|]. split; [exact Hin|].
  exact (short_name_selects_its_column _ _ Hnd Hin).
Defined.

(** X6 at the database that holds the sample series twice. *)
Lemma cached_prices_come_back_sorted_witness :
  PyStr.truthy "GOLD" = true
  /\ exists frame,
       FetchPrices.get_commodity_prices_from_db (Some "GOLD") Sample.saved_twice
       = inl frame
       /\ StronglySorted Cache.by_date (FetchPrices.prows frame)
       /\ List.length (FetchPrices.prows frame) = 4%nat.
Proof.
  split; [reflexivity|].
  destruct (cached_prices_come_back_sorted "GOLD" Sample.saved_twice _
              eq_refl eq_refl eq_refl eq_refl)
    as (frame & E & _ & Hperm & Hsorted & _).
  exists frame. split; [exact E|]. split; [exact Hsorted|].
  rewrite (Permutation_length Hperm). reflexivity.
Defined.

(** X7 at the sample series saved into a fresh database. *)
Lemma saving_appends_each_series_in_turn_witness :
  FetchPrices.save_prices_to_database
    [("SILVER", FetchPrices.empty_frame); ("GOLD", Sample.series)] Sample.fresh
  = (Sample.saved_once, None)
  /\ exists table',
       FetchPrices.commodity_prices Sample.saved_once = Some table'
       /\ FetchPrices.prows table' = [Sample.stored_row 3; Sample.stored_row 4].
Proof.
  split; [reflexivity|].
  destruct (saving_appends_each_series_in_turn
              [("SILVER", FetchPrices.empty_frame); ("GOLD", Sample.series)]
              Sample.fresh Sample.saved_once eq_refl)
    as (table' & E & Hrows & _).
  exists table'. split; [exact E|]. rewrite Hrows. reflexivity.
Defined.

(** X8 at the empty dict and a fresh database. *)
Lemma saving_nothing_without_table_raises_witness :
  FetchPrices.commodity_prices Sample.fresh = None
  /\ exists e,
       FetchPrices.save_prices_to_database [] Sample.fresh = (Sample.fresh, Some e).
Proof.
  split; [reflexivity|].
  exact (saving_nothing_without_table_raises [] Sample.fresh eq_refl eq_refl).
Defined.

(** X9: saving gold prices next to stored silver prices. *)
Lemma saving_leaves_other_commodities_alone_witness :
  FetchPrices.save_prices_to_database [("GOLD", Sample.series)] Sample.silver_only
  = (Sample.silver_and_gold, None)
  /\ exists after,
       FetchPrices.get_commodity_prices_from_db (Some "SILVER") Sample.silver_and_gold
       = inl after
       /\ FetchPrices.prows after = [Sample.silver_row 3; Sample.silver_row 4].
Proof.
  split; [reflexivity|].
  destruct (saving_leaves_other_commodities_alone [("GOLD", Sample.series)]
              Sample.silver_only Sample.silver_and_gold "SILVER"
              {| FetchPrices.pcolumns := ["DATE"; "CLOSE"; "Commodity_Name"];
                 FetchPrices.prows := [Sample.silver_row 3; Sample.silver_row 4] |}
              eq_refl)
    as (after & E & Hrows).
  - intros item [<- | []]. discriminate.
  - reflexivity.
  - reflexivity.
  - exists after. split; [exact E | exact Hrows].
Defined.

(** X10 at the database that holds the sample series. *)
Lemma cached_prices_are_not_fetched_again_witness :
  FetchPrices.get_commodity_prices_from_db (Some "GOLD") Sample.saved_once
  = inl Sample.cached_gold
  /\ FetchPrices.is_empty Sample.cached_gold = false
  /\ App.price_section (fun day : Z => Some day) Sample.fetch "GOLD"
       (Some Sample.mapping) [3; 17]%Z Sample.data Sample.saved_once
     = App.price_section (fun day : Z => Some day) Sample.no_source "GOLD"
         (Some Sample.mapping) [3; 17]%Z Sample.data Sample.saved_once.
Proof.
  split; [reflexivity|]. split; [reflexivity|].
  exact (proj1 (cached_prices_are_not_fetched_again (fun day : Z => Some day)
                  Sample.fetch Sample.no_source "GOLD" (Some Sample.mapping)
                  [3; 17]%Z Sample.data Sample.saved_once Sample.cached_gold
                  eq_refl eq_refl)).
Defined.

(** X11 at a fresh database and the sample price source. *)
Lemma fetched_prices_are_served_from_the_cache_witness :
  FetchPrices.commodity_prices Sample.fresh = None
  /\ FetchPrices.is_empty (Sample.fetch "GC=F" 3 17) = false
  /\ FetchPrices.commodity_prices
       (snd (App.price_section (fun day : Z => Some day) Sample.fetch "GOLD"
               (Some Sample.mapping) [3; 17]%Z Sample.data Sample.fresh))
     = Some Sample.cached_gold.
Proof.
  split; [reflexivity|]. split; [reflexivity|].
  exact (proj1 (proj2 (fetched_prices_are_served_from_the_cache
                         (fun day : Z => Some day) Sample.fetch "GOLD" "GC=F"
                         Sample.mapping [3; 17]%Z Sample.data Sample.fresh 3 17
                         eq_refl eq_refl eq_refl eq_refl eq_refl eq_refl
                         eq_refl eq_refl))).
Defined.

(** X12 at a name that only contains a key of the table. *)
Lemma preferred_ticker_is_a_futures_ticker_witness :
  TickerMapping.get_ticker_for_commodity "Gold futures" true = Some "GC=F"
  /\ PyText.contains "=F" "GC=F" = true
  /\ exists key etf,
       In (key, (Some "GC=F", etf)) TickerMapping.COMMODITY_TICKER_MAPPING.
Proof.
  split; [reflexivity|].
  exact (preferred_ticker_is_a_futures_ticker "Gold futures" "GC=F" eq_refl).
Defined.

(** X13 at "silver". *)
Lemma both_lookups_agree_witness :
  TickerMapping.get_all_tickers_for_commodity "silver"
  = Some (Some "SI=F", Some "SLV")
  /\ TickerMapping.get_ticker_for_commodity "silver" true = Some "SI=F"
  /\ TickerMapping.get_ticker_for_commodity "silver" false = Some "SLV".
Proof.
  split; [reflexivity|].
  exact (both_lookups_agree "silver" (Some "SI=F") (Some "SLV") eq_refl).
Defined.

(** X14 at "Crude Oil", which also contains nothing but its own key
    before it in the table. *)
Lemma listed_name_gets_its_own_ticker_witness :
  PyText.upper "Crude Oil" = "CRUDE OIL"
  /\ In ("CRUDE OIL", (Some "CL=F", Some "USO"))
        TickerMapping.COMMODITY_TICKER_MAPPING
  /\ TickerMapping.get_ticker_for_commodity "Crude Oil" true = Some "CL=F"
  /\ TickerMapping.get_all_tickers_for_commodity "Crude Oil"
     = Some (Some "CL=F", Some "USO").
Proof.
  assert (Hin : In ("CRUDE OIL", (Some "CL=F", Some "USO"))
                   TickerMapping.COMMODITY_TICKER_MAPPING).
  { unfold TickerMapping.COMMODITY_TICKER_MAPPING. simpl. tauto. }
  split; [reflexivity|]. split; [exact Hin|].
  exact (listed_name_gets_its_own_ticker "Crude Oil" "CRUDE OIL"
           (Some "CL=F", Some "USO") eq_refl Hin).
Defined.

(** X16 at "Rough Rice", through the grains keyword "RICE". *)
Lemma names_with_ice_are_gas_at_the_latest_witness :
  PyText.contains "ICE" "RICE" = true
  /\ PyText.contains "RICE" (PyText.upper "Rough Rice") = true
  /\ (CommodityTypes.get_commodity_type "Rough Rice" = "Metals"
      \/ CommodityTypes.get_commodity_type "Rough Rice" = "Energy - Oil & Products"
      \/ CommodityTypes.get_commodity_type "Rough Rice" = "Natural Gas").
Proof.
  split; [reflexivity|]. split; [reflexivity|].
  exact (names_with_ice_are_gas_at_the_latest "Rough Rice" "RICE" eq_refl eq_refl).
Defined.

(** X17 at the ETF series of the sample source. *)
Lemma fetched_column_labels_are_upper_case_witness :
  In "STOCK_SPLITS"
     (FetchPrices.pcolumns
        (Fetching.fetch_historical_prices Sample.yahoo "GLD" None None
           (Some "1mo")))
  /\ PyText.upper "STOCK_SPLITS" = "STOCK_SPLITS"
  /\ PyText.contains " " "STOCK_SPLITS" = false
  /\ "STOCK_SPLITS" <> "Date".
Proof.
  assert (Hin : In "STOCK_SPLITS"
                   (FetchPrices.pcolumns
                      (Fetching.fetch_historical_prices Sample.yahoo "GLD"
                         None None (Some "1mo")))).
  { vm_compute. tauto. }
  split; [exact Hin|].
  exact (fetched_column_labels_are_upper_case Sample.yahoo "GLD" None None
           (Some "1mo") "STOCK_SPLITS" Hin).
Defined.

(** X18 at "Gold - COMEX" with the sample source, where the futures
    request fails and the ETF answers. *)
Lemma fetched_prices_come_from_a_table_ticker_witness :
  FetchPrices.is_empty
    (Fetching.fetch_commodity_price Sample.yahoo "Gold - COMEX"
       None None (Some "1mo") true true) = false
  /\ exists key tickers ticker,
       In (key, tickers) TickerMapping.COMMODITY_TICKER_MAPPING
       /\ (fst tickers = Some ticker \/ snd tickers = Some ticker)
       /\ Fetching.fetch_commodity_price Sample.yahoo "Gold - COMEX"
            None None (Some "1mo") true true
          = Fetching.fetch_historical_prices Sample.yahoo ticker
              None None (Some "1mo").
Proof.
  split; [reflexivity|].
  exact (fetched_prices_come_from_a_table_ticker Sample.yahoo "Gold - COMEX"
           None None (Some "1mo") true true eq_refl).
Defined.

(** X23 at the sample database, updating "GOLD". *)
Lemma update_leaves_other_commodities_witness :
  "SILVER" <> "GOLD"
  /\ snd (PriceMappingDb.get_price_mapping "SILVER"
            (PriceMappingDb.update_price_mapping "GOLD" (Some "GC=F")
               (Some "futures") true None 7 Sample.mapped_db))
     = Some Sample.silver_mapping.
Proof.
  assert (Hne : "SILVER" <> "GOLD") by discriminate.
  split; [exact Hne|].
  exact (update_leaves_other_commodities "GOLD" "SILVER" (Some "GC=F")
           (Some "futures") None true 7 Sample.mapped_db Hne).
Defined.

(** X24 at "GOLD - COMEX" in the sample database, which has no
    mapping for it. *)
Lemma auto_mapped_rows_are_unverified_futures_witness :
  PriceMappingDb.cot_commodity_names Sample.mapped_db
  = Some (map Some ["GOLD - COMEX"; "SILVER"; "WIDGETS"])
  /\ In "GOLD - COMEX" ["GOLD - COMEX"; "SILVER"; "WIDGETS"]
  /\ TickerMapping.get_ticker_for_commodity
       (TickerMapping.normalize_commodity_name "GOLD - COMEX") true
     = Some "GC=F"
  /\ snd (PriceMappingDb.get_price_mapping "GOLD - COMEX" Sample.mapped_db) = None
  /\ option_map PriceMappingDb.ticker_type
       (snd (PriceMappingDb.get_price_mapping "GOLD - COMEX"
               (fst (PriceMappingDb.auto_map_commodities false Sample.clock
                       Sample.mapped_db))))
     = Some (Some "futures").
Proof.
  assert (Hin : In "GOLD - COMEX" ["GOLD - COMEX"; "SILVER"; "WIDGETS"])
    by (left; reflexivity).
  split; [reflexivity|]. split; [exact Hin|].
  split; [reflexivity|]. split; [reflexivity|].
  rewrite (auto_mapped_rows_are_unverified_futures false Sample.clock
             Sample.mapped_db ["GOLD - COMEX"; "SILVER"; "WIDGETS"]
             "GOLD - COMEX" "GC=F" eq_refl Hin eq_refl (or_intror eq_refl)).
  reflexivity.
Defined.

(** X25 at the sample database: the mapping of "SILVER" made by hand
    stays, and the count is 2. *)
Lemma auto_map_keeps_what_it_should_witness :
  PriceMappingDb.cot_commodity_names Sample.mapped_db
  = Some (map Some ["GOLD - COMEX"; "SILVER"; "WIDGETS"])
  /\ snd (PriceMappingDb.auto_map_commodities false Sample.clock Sample.mapped_db)
     = inl 2%nat
  /\ snd (PriceMappingDb.get_price_mapping "SILVER"
            (fst (PriceMappingDb.auto_map_commodities false Sample.clock
                    Sample.mapped_db)))
     = Some Sample.silver_mapping.
Proof.
  split; [reflexivity|].
  destruct (auto_map_keeps_what_it_should Sample.clock Sample.mapped_db
              ["GOLD - COMEX"; "SILVER"; "WIDGETS"] eq_refl)
    as (Hcount & Hkept & _).
  split; [exact Hcount|].
  exact (Hkept "SILVER" Sample.silver_mapping eq_refl).
Defined.

(** X26 at an allowance of the ICE exchange. *)
Lemma vintage_group_holds_the_commodity_witness :
  VintageGroups.get_vintage_group "CALIF CARBON ALLOWANCE V2022"
    (Some "ICE FUTURES ENERGY DIV")
  = Some ("CALIF CARBON", "ICE FUTURES ENERGY DIV")
  /\ In "CALIF CARBON ALLOWANCE V2022"
        (VintageGroups.get_group_commodities
           ("CALIF CARBON", "ICE FUTURES ENERGY DIV"))
  /\ VintageGroups.is_vintage_commodity "CALIF CARBON ALLOWANCE V2022"
       (Some "ICE FUTURES ENERGY DIV") = true.
Proof.
  split; [reflexivity|].
  destruct (vintage_group_holds_the_commodity "CALIF CARBON ALLOWANCE V2022"
              (Some "ICE FUTURES ENERGY DIV")
              ("CALIF CARBON", "ICE FUTURES ENERGY DIV") eq_refl)
    as (Hin & Hvintage & _).
  split; [exact Hin | exact Hvintage].
Defined.

(** X27 at the same allowance, which the group
    "CALIF CARBON ALLOWANCE" of that exchange lists as well. *)
Lemma exchange_lookup_returns_the_last_group_witness :
  PyStr.truthy "ICE FUTURES ENERGY DIV" = true
  /\ In "CALIF CARBON ALLOWANCE V2022"
        (VintageGroups.get_group_commodities
           ("CALIF CARBON ALLOWANCE", "ICE FUTURES ENERGY DIV"))
  /\ VintageGroups.get_vintage_group "CALIF CARBON ALLOWANCE V2022"
       (Some "ICE FUTURES ENERGY DIV")
     = Some ("CALIF CARBON", "ICE FUTURES ENERGY DIV").
Proof.
  split; [reflexivity|]. split; [vm_compute; tauto|].
  rewrite (exchange_lookup_returns_the_last_group
             "CALIF CARBON ALLOWANCE V2022" "ICE FUTURES ENERGY DIV" eq_refl).
  reflexivity.
Defined.

(** X29 at a name with a vintage of two digits. *)
Lemma vintage_year_has_four_digits_witness :
  VintageGroups.extract_vintage_year "TX GREEN-E REC V22 BACK HALF"
  = inl (Some "2022")
  /\ String.length "2022" = 4%nat
  /\ PyStr.all_chars PyStr.is_digit "2022" = true.
Proof.
  split; [reflexivity|].
  exact (vintage_year_has_four_digits "TX GREEN-E REC V22 BACK HALF" "2022"
           eq_refl).
Defined.

(** X30 at "CALIF CARBON 05". *)
Lemma two_digit_years_before_2020_raise_witness :
  PyStr.all_chars (fun c => negb (PyStr.is_digit c)) "CALIF CARBON " = true
  /\ (VintageGroups.int "05" < 20)%nat
  /\ VintageGroups.extract_vintage_year "CALIF CARBON 05"
     = inr "Unknown format code 'd' for object of type 'str'".
Proof.
  assert (Hsmall : (VintageGroups.int "05" < 20)%nat) by (vm_compute; lia).
  split; [reflexivity|]. split; [exact Hsmall|].
  exact (two_digit_years_before_2020_raise "CALIF CARBON " "0" "5"
           eq_refl eq_refl eq_refl Hsmall eq_refl).
Defined.
